(** * loris.resolver: identifiers to image paths

    A shallow embedding of [loris/resolver.py] (Python 2) and the
    properties of its resolution strategies.  Python [str] values are
    byte strings and are modelled by [string]; dictionaries are [gmap]s;
    the filesystem and the HTTP origin are explicit state. *)

From Stdlib Require Import ZArith String Ascii List Bool Lia DecimalString.
From stdpp Require Import base option list strings gmap.

Local Open Scope string_scope.
Local Open Scope Z_scope.

(** ** Python string primitives *)

Module Py.

(** [s[:n]] *)
Fixpoint take (n : nat) (s : string) : string :=
  match n, s with
  | S n', String c s' => String c (take n' s')
  | _, _ => ""
  end.

(** [s[n:]] *)
Fixpoint drop (n : nat) (s : string) : string :=
  match n, s with
  | S n', String _ s' => drop n' s'
  | _, _ => s
  end.

(** [s[i:j]] for non-negative [i], [j]. *)
Definition slice (i j : nat) (s : string) : string :=
  take (j - i) (drop i s).

(** [len(s)] *)
Definition len (s : string) : Z := Z.of_nat (String.length s).

(** [c in s] for a one-character [c]. *)
Fixpoint contains (c : ascii) (s : string) : bool :=
  match s with
  | "" => false
  | String d s' => if Ascii.eqb d c then true else contains c s'
  end.

(** [s.split(c)] for a one-character separator: never empty. *)
Fixpoint split (c : ascii) (s : string) : list string :=
  match s with
  | "" => [""]
  | String d s' =>
      if Ascii.eqb d c then "" :: split c s'
      else match split c s' with
           | h :: t => String d h :: t
           | [] => [String d ""]
           end
  end.

(** [s.split(c, 1)]: at most one cut, at the first occurrence. *)
Fixpoint split1 (c : ascii) (s : string) : list string :=
  match s with
  | "" => [""]
  | String d s' =>
      if Ascii.eqb d c then [""; s']
      else match split1 c s' with
           | h :: t => String d h :: t
           | [] => [String d ""]
           end
  end.

(** [s.startswith(p)] *)
Fixpoint startswith (p s : string) : bool :=
  match p, s with
  | "", _ => true
  | String a p', String b s' => Ascii.eqb a b && startswith p' s'
  | _, "" => false
  end.

(** The scan behind [s.split(sep)] for a non-empty [sep]: [skip] counts
    the characters of a separator just matched that are still to pass. *)
Fixpoint split_scan (sep : string) (skip : nat) (s : string) : list string :=
  match s with
  | "" => [""]
  | String d s' =>
      match skip with
      | S k => split_scan sep k s'
      | O =>
          if startswith sep s
          then "" :: split_scan sep (String.length sep - 1) s'
          else match split_scan sep O s' with
               | h :: t => String d h :: t
               | [] => [String d ""]
               end
      end
  end.

(** [s.split(sep)]; [None] is the [ValueError] of an empty separator. *)
Definition split_str (sep s : string) : option (list string) :=
  match sep with
  | "" => None
  | _ => Some (split_scan sep O s)
  end.

(** [l[-1]] on a list that [split] produced. *)
Definition last_of (l : list string) : string := List.last l "".

(** [l[0:-1]] *)
Definition init_of (l : list string) : list string := List.removelast l.

(** [s.rfind(c)] for a one-character [c]: the last index, or [-1]. *)
Fixpoint rfind (c : ascii) (s : string) : Z :=
  match s with
  | "" => -1
  | String d s' =>
      let r := rfind c s' in
      if 0 <=? r then 1 + r
      else if Ascii.eqb d c then 0 else -1
  end.

Definition is_upper (c : ascii) : bool :=
  let n := nat_of_ascii c in (65 <=? n)%nat && (n <=? 90)%nat.

Definition lower_char (c : ascii) : ascii :=
  if is_upper c then ascii_of_nat (nat_of_ascii c + 32) else c.

(** [s.lower()] on a byte string: only [A]-[Z] change. *)
Fixpoint lower (s : string) : string :=
  match s with
  | "" => ""
  | String c s' => String (lower_char c) (lower s')
  end.

(** A string is lowercase when [lower] leaves it alone. *)
Definition is_lower (s : string) : bool := String.eqb (lower s) s.

Definition is_space (c : ascii) : bool :=
  let n := nat_of_ascii c in (n =? 32)%nat || (9 <=? n)%nat && (n <=? 13)%nat.

(** [s.lstrip()] *)
Fixpoint lstrip (s : string) : string :=
  match s with
  | "" => ""
  | String c s' => if is_space c then lstrip s' else s
  end.

(** [s.rstrip()] *)
Fixpoint rstrip (s : string) : string :=
  match s with
  | "" => ""
  | String c s' =>
      match rstrip s' with
      | "" => if is_space c then "" else String c ""
      | r => String c r
      end
  end.

(** [s.strip()]: white space removed at both ends. *)
Definition strip (s : string) : string := rstrip (lstrip s).

(** [range(start, stop, step)] for [0 < step]. *)
Fixpoint range_from (fuel start step : nat) : list nat :=
  match fuel with
  | O => []
  | S f => start :: range_from f (start + step) step
  end.

Definition range (start stop step : nat) : list nat :=
  range_from (Nat.div (stop - start + (step - 1)) step) start step.

End Py.

(** ** [urllib.unquote] and [urllib.quote_plus] (Python 2.7) *)

Module Urllib.

Definition hex_value (c : ascii) : option nat :=
  let n := nat_of_ascii c in
  if (48 <=? n)%nat && (n <=? 57)%nat then Some (n - 48)%nat
  else if (65 <=? n)%nat && (n <=? 70)%nat then Some (n - 55)%nat
  else if (97 <=? n)%nat && (n <=? 102)%nat then Some (n - 87)%nat
  else None.

(** [unquote]: every [%XX] with two hexadecimal digits becomes the byte
    it names; any other [%] stays as it is. *)
Fixpoint unquote (s : string) : string :=
  match s with
  | "" => ""
  | String c s' =>
      if Ascii.eqb c "%" then
        match s' with
        | String a (String b s'') =>
            match hex_value a, hex_value b with
            | Some x, Some y => String (ascii_of_nat (16 * x + y)) (unquote s'')
            | _, _ => String c (unquote s')
            end
        | _ => String c (unquote s')
        end
      else String c (unquote s')
  end.

(** [always_safe]: letters, digits and [_.-]. *)
Definition always_safe (c : ascii) : bool :=
  let n := nat_of_ascii c in
  (48 <=? n)%nat && (n <=? 57)%nat
  || (65 <=? n)%nat && (n <=? 90)%nat
  || (97 <=? n)%nat && (n <=? 122)%nat
  || Ascii.eqb c "_" || Ascii.eqb c "." || Ascii.eqb c "-".

Definition hex_digit_upper (n : nat) : ascii :=
  if (n <? 10)%nat then ascii_of_nat (48 + n) else ascii_of_nat (55 + n).

(** The image of one byte under [quote_plus(s)] (its [safe] is empty). *)
Definition quote_plus_char (c : ascii) : string :=
  if always_safe c then String c ""
  else if Ascii.eqb c " " then "+"
  else let n := nat_of_ascii c in
       String "%" (String (hex_digit_upper (Nat.div n 16))
                     (String (hex_digit_upper (Nat.modulo n 16)) "")).

Fixpoint quote_plus (s : string) : string :=
  match s with
  | "" => ""
  | String c s' => quote_plus_char c +:+ quote_plus s'
  end.

(** [unquote_plus]: as [unquote], after every [+] became a space. *)
Fixpoint unquote_plus (s : string) : string :=
  match s with
  | "" => ""
  | String c s' =>
      if Ascii.eqb c "%" then
        match s' with
        | String a (String b s'') =>
            match hex_value a, hex_value b with
            | Some x, Some y =>
                String (ascii_of_nat (16 * x + y)) (unquote_plus s'')
            | _, _ => String c (unquote_plus s')
            end
        | _ => String c (unquote_plus s')
        end
      else if Ascii.eqb c "+" then String " " (unquote_plus s')
      else String c (unquote_plus s')
  end.

End Urllib.

(** ** [hashlib.md5] (RFC 1321) on 32-bit words held in [Z] *)

Module Hashlib.

Definition mask32 : Z := 0xffffffff.
Definition add32 (x y : Z) : Z := Z.land (x + y) mask32.
Definition not32 (x : Z) : Z := Z.lxor x mask32.
Definition rotl32 (x : Z) (c : Z) : Z :=
  Z.land (Z.lor (Z.shiftl x c) (Z.shiftr x (32 - c))) mask32.

Definition K : list Z :=
  [ 0xd76aa478; 0xe8c7b756; 0x242070db; 0xc1bdceee;
    0xf57c0faf; 0x4787c62a; 0xa8304613; 0xfd469501;
    0x698098d8; 0x8b44f7af; 0xffff5bb1; 0x895cd7be;
    0x6b901122; 0xfd987193; 0xa679438e; 0x49b40821;
    0xf61e2562; 0xc040b340; 0x265e5a51; 0xe9b6c7aa;
    0xd62f105d; 0x02441453; 0xd8a1e681; 0xe7d3fbc8;
    0x21e1cde6; 0xc33707d6; 0xf4d50d87; 0x455a14ed;
    0xa9e3e905; 0xfcefa3f8; 0x676f02d9; 0x8d2a4c8a;
    0xfffa3942; 0x8771f681; 0x6d9d6122; 0xfde5380c;
    0xa4beea44; 0x4bdecfa9; 0xf6bb4b60; 0xbebfbc70;
    0x289b7ec6; 0xeaa127fa; 0xd4ef3085; 0x04881d05;
    0xd9d4d039; 0xe6db99e5; 0x1fa27cf8; 0xc4ac5665;
    0xf4292244; 0x432aff97; 0xab9423a7; 0xfc93a039;
    0x655b59c3; 0x8f0ccc92; 0xffeff47d; 0x85845dd1;
    0x6fa87e4f; 0xfe2ce6e0; 0xa3014314; 0x4e0811a1;
    0xf7537e82; 0xbd3af235; 0x2ad7d2bb; 0xeb86d391 ].

Definition shifts : list Z :=
  [ 7; 12; 17; 22; 7; 12; 17; 22; 7; 12; 17; 22; 7; 12; 17; 22;
    5; 9; 14; 20; 5; 9; 14; 20; 5; 9; 14; 20; 5; 9; 14; 20;
    4; 11; 16; 23; 4; 11; 16; 23; 4; 11; 16; 23; 4; 11; 16; 23;
    6; 10; 15; 21; 6; 10; 15; 21; 6; 10; 15; 21; 6; 10; 15; 21 ].

Record regs := Regs { rA : Z; rB : Z; rC : Z; rD : Z }.

Definition init_regs : regs :=
  Regs 0x67452301 0xefcdab89 0x98badcfe 0x10325476.

(** Step [i] of the 64 on one block [M] of sixteen words. *)
Definition step (M : list Z) (i : nat) (r : regs) : regs :=
  let '(Regs a b c d) := r in
  let '(f, g) :=
    if (i <? 16)%nat then (Z.lor (Z.land b c) (Z.land (not32 b) d), i)
    else if (i <? 32)%nat then
      (Z.lor (Z.land d b) (Z.land (not32 d) c), Nat.modulo (5 * i + 1) 16)
    else if (i <? 48)%nat then
      (Z.lxor (Z.lxor b c) d, Nat.modulo (3 * i + 5) 16)
    else (Z.lxor c (Z.lor b (not32 d)), Nat.modulo (7 * i) 16) in
  let f' := add32 (add32 (add32 f a) (nth i K 0)) (nth g M 0) in
  Regs d (add32 b (rotl32 f' (nth i shifts 0))) b c.

Definition block (M : list Z) (r : regs) : regs :=
  let '(Regs a b c d) := fold_left (fun r i => step M i r) (seq 0 64) r in
  Regs (add32 (rA r) a) (add32 (rB r) b) (add32 (rC r) c) (add32 (rD r) d).

(** Little-endian bytes of a word, and back. *)
Definition bytes_le (n : nat) (x : Z) : list Z :=
  map (fun k => Z.land (Z.shiftr x (8 * Z.of_nat k)) 0xff) (seq 0 n).

Fixpoint word_le (bs : list Z) : Z :=
  match bs with
  | [] => 0
  | b :: bs' => Z.lor b (Z.shiftl (word_le bs') 8)
  end.

Fixpoint chunks {A} (fuel n : nat) (l : list A) : list (list A) :=
  match fuel with
  | O => []
  | S f =>
      match l with
      | [] => []
      | _ => firstn n l :: chunks f n (skipn n l)
      end
  end.

(** The message, one [0x80], zeros up to 56 modulo 64, the bit length. *)
Definition padded (msg : list Z) : list Z :=
  let n := List.length msg in
  let zeros := Nat.modulo (64 + 55 - Nat.modulo n 64) 64 in
  msg ++ [0x80] ++ List.repeat 0 zeros ++ bytes_le 8 (8 * Z.of_nat n).

Definition digest_regs (msg : list Z) : regs :=
  let p := padded msg in
  let words := map word_le (chunks (List.length p) 4 p) in
  fold_left (fun r M => block M r) (chunks (List.length words) 16 words)
    init_regs.

Definition digest (msg : list Z) : list Z :=
  let '(Regs a b c d) := digest_regs msg in
  bytes_le 4 a ++ bytes_le 4 b ++ bytes_le 4 c ++ bytes_le 4 d.

Definition hex_digit_lower (n : Z) : ascii :=
  if n <? 10 then ascii_of_nat (48 + Z.to_nat n)
  else ascii_of_nat (87 + Z.to_nat n).

Fixpoint hex_of_bytes (bs : list Z) : string :=
  match bs with
  | [] => ""
  | b :: bs' =>
      String (hex_digit_lower (Z.shiftr b 4))
        (String (hex_digit_lower (Z.land b 0xf)) (hex_of_bytes bs'))
  end.

Fixpoint bytes_of_string (s : string) : list Z :=
  match s with
  | "" => []
  | String c s' => Z.of_nat (nat_of_ascii c) :: bytes_of_string s'
  end.

(** [hashlib.md5(s).hexdigest()] *)
Definition md5_hexdigest (s : string) : string :=
  hex_of_bytes (digest (bytes_of_string s)).

End Hashlib.

(** ** [os.path] (posixpath) *)

Module OsPath.

Fixpoint endswith_slash (s : string) : bool :=
  match s with
  | "" => false
  | String c "" => Ascii.eqb c "/"
  | String _ s' => endswith_slash s'
  end.

(** [join(a, b)]: an absolute [b] discards [a]. *)
Definition join (a b : string) : string :=
  if Py.startswith "/" b then b
  else if String.eqb a "" || endswith_slash a then a +:+ b
  else a +:+ "/" +:+ b.

Fixpoint all_slashes (s : string) : bool :=
  match s with
  | "" => true
  | String c s' => Ascii.eqb c "/" && all_slashes s'
  end.

(** [s.rstrip('/')] *)
Fixpoint rstrip_slash (s : string) : string :=
  match s with
  | "" => ""
  | String c s' =>
      match rstrip_slash s' with
      | "" => if Ascii.eqb c "/" then "" else String c ""
      | r => String c r
      end
  end.

(** [dirname(p)]: up to the last slash, trailing slashes removed. *)
Definition dirname (p : string) : string :=
  let i := Z.to_nat (Py.rfind "/" p + 1) in
  let head := Py.take i p in
  if negb (String.eqb head "") && negb (all_slashes head)
  then rstrip_slash head else head.

(** [basename(p)]: after the last slash. *)
Definition basename (p : string) : string :=
  Py.drop (Z.to_nat (Py.rfind "/" p + 1)) p.

(** What [join] extends with a slash: not empty, no slash at the end. *)
Definition open_ended (a : string) : Prop :=
  a <> "" /\ endswith_slash a = false.

End OsPath.

(** ** Exceptions and the effect monad *)

(** [ResolverException(404, _)] is the not-found condition;
    [ResolverException(500, _)] reports a configuration error. *)
Inductive exn : Type :=
  | ResolverException (status : nat) (message : string)
  | MissingSchema
  | RequestException
  | ValueError
  | KeyError
  | IndexError
  | TypeError
  | AttributeError
  | OSError
  | IOError.

Definition is_not_found (e : exn) : bool :=
  match e with
  | ResolverException 404 _ => true
  | _ => false
  end.

Inductive result (A : Type) : Type :=
  | Return (a : A)
  | Raise (e : exn).
Arguments Return {A} a.
Arguments Raise {A} e.

Definition succeeds {A} (r : result A) : bool :=
  match r with Return _ => true | Raise _ => false end.

Definition fails_not_found {A} (r : result A) : bool :=
  match r with Return _ => false | Raise e => is_not_found e end.

Definition result_bind {A B} (r : result A) (k : A -> result B) : result B :=
  match r with
  | Return a => k a
  | Raise e => Raise e
  end.

(** [pattern % args] on strings, for the conversions [%s] and [%%] that
    URL patterns use.  Too few or too many arguments are a [TypeError];
    a [%] at the end or before any other character is reported as the
    [ValueError] of an unsupported conversion. *)
Fixpoint str_mod (pattern : string) (args : list string) : result string :=
  match pattern with
  | "" => match args with [] => Return "" | _ :: _ => Raise TypeError end
  | String c rest =>
      if Ascii.eqb c "%" then
        match rest with
        | "" => Raise ValueError
        | String d rest' =>
            if Ascii.eqb d "s" then
              match args with
              | a :: args' =>
                  result_bind (str_mod rest' args') (fun r => Return (a +:+ r))
              | [] => Raise TypeError
              end
            else if Ascii.eqb d "%" then
              result_bind (str_mod rest' args) (fun r => Return (String "%" r))
            else Raise ValueError
        end
      else result_bind (str_mod rest args) (fun r => Return (String c r))
  end.

(** ** The HTTP side *)

Inductive http_method := GET | HEAD.

(** The keyword arguments built by [request_options]: a dictionary with
    the optional keys [cert], [auth] and [verify]. *)
Record http_options := RequestOptions {
  opt_cert : option (string * string);
  opt_auth : option (string * string);
  opt_verify : option bool }.

Definition no_options : http_options := RequestOptions None None None.

Record request := Request {
  req_method : http_method;
  req_url : string;
  req_params : list (string * string);
  req_options : http_options;
  req_stream : bool }.

(** The JSON body of an index response, as the schema of the index
    shapes it: [response.numFound] and [response.docs], each document
    a dictionary from field names to lists of values. *)
Record solr_response := SolrResponse {
  numFound : Z;
  docs : list (gmap string (list string)) }.

Record response := Response {
  ok : bool;
  status_code : nat;
  headers : gmap string string;
  content : string;
  json : option solr_response }.

(** What a request meets: [requests] refuses the URL before sending
    ([MissingSchema]), the transport fails, or a response arrives. *)
Inductive outcome :=
  | NoSchema
  | TransportFailure
  | Answers (r : response).

(** ** The filesystem interface

    The calls the resolvers make on [os], [os.path], [shutil], [glob]
    and [open], over an abstract disk.  [None] is the exception the
    call raises ([OSError] for [makedirs], [IOError] for the others). *)

Class FileSystem (FS : Type) := {
  fs_exists : FS -> string -> bool;
  fs_makedirs : FS -> string -> option FS;
  fs_write : FS -> string -> string -> option FS;
  fs_copy : FS -> string -> string -> option FS;
  fs_glob : FS -> string -> list string }.

(** What a POSIX filesystem that nothing else writes to guarantees:
    [makedirs] refuses a path that exists, neither [makedirs] nor
    [copy] removes anything, and a copy leaves its destination behind. *)
Class FileSystemLaws (FS : Type) `{!FileSystem FS} : Prop := {
  makedirs_existing : forall d p,
    fs_exists d p = true -> fs_makedirs d p = None;
  makedirs_keeps : forall d p d' q,
    fs_makedirs d p = Some d' -> fs_exists d q = true -> fs_exists d' q = true;
  copy_keeps : forall d src dst d' q,
    fs_copy d src dst = Some d' -> fs_exists d q = true -> fs_exists d' q = true;
  copy_lands : forall d src dst d',
    fs_copy d src dst = Some d' -> fs_exists d' dst = true }.

(** The world a call runs in: the disk and the requests sent so far. *)
Record world (FS : Type) := World {
  disk : FS;
  wire : list request }.
Arguments World {FS} disk wire.
Arguments disk {FS} w.
Arguments wire {FS} w.

(** A method call: from a world to a result and the world it leaves. *)
Definition M (FS A : Type) : Type := world FS -> result A * world FS.

Definition ret {FS A} (a : A) : M FS A := fun w => (Return a, w).
Definition raise {FS A} (e : exn) : M FS A := fun w => (Raise e, w).
Definition bind {FS A B} (m : M FS A) (k : A -> M FS B) : M FS B :=
  fun w => match m w with
           | (Return a, w') => k a w'
           | (Raise e, w') => (Raise e, w')
           end.

(** [try: m except E: h] for the exceptions [catches] selects. *)
Definition try_except {FS A} (m : M FS A) (catches : exn -> bool)
    (h : M FS A) : M FS A :=
  fun w => match m w with
           | (Raise e, w') => if catches e then h w' else (Raise e, w')
           | r => r
           end.

Declare Scope py_scope.
Delimit Scope py_scope with py.
Notation "x <- m ; k" := (bind m (fun x => k))
  (at level 20, m at level 100, k at level 200, only parsing) : py_scope.
Notation "m ;; k" := (bind m (fun _ => k))
  (at level 100, k at level 200, only parsing, right associativity) : py_scope.

Local Open Scope py_scope.

(** ** Primitive effects *)

Section Effects.
Context {FS : Type} `{!FileSystem FS}.
Variable origin : request -> outcome.

Definition lift {A} (r : result A) : M FS A := fun w => (r, w).

(** [os.path.exists(p)] *)
Definition exists_ (p : string) : M FS bool :=
  fun w => (Return (fs_exists (disk w) p), w).

(** [os.makedirs(p)] *)
Definition makedirs (p : string) : M FS unit :=
  fun w => match fs_makedirs (disk w) p with
           | Some d => (Return tt, World d (wire w))
           | None => (Raise OSError, w)
           end.

(** [with open(p, 'wb') as fd: fd.write(data)] *)
Definition write_file (p data : string) : M FS unit :=
  fun w => match fs_write (disk w) p data with
           | Some d => (Return tt, World d (wire w))
           | None => (Raise IOError, w)
           end.

(** [shutil.copy(src, dst)] *)
Definition copy (src dst : string) : M FS unit :=
  fun w => match fs_copy (disk w) src dst with
           | Some d => (Return tt, World d (wire w))
           | None => (Raise IOError, w)
           end.

(** [glob.glob(pattern)] *)
Definition glob (pattern : string) : M FS (list string) :=
  fun w => (Return (fs_glob (disk w) pattern), w).

(** A request leaves a trace on the wire unless [requests] refuses
    its URL beforehand. *)
Definition send (r : request) : M FS response :=
  fun w => match origin r with
           | NoSchema => (Raise MissingSchema, w)
           | TransportFailure =>
               (Raise RequestException, World (disk w) (wire w ++ [r]))
           | Answers resp => (Return resp, World (disk w) (wire w ++ [r]))
           end.

(** [requests.get(url, ...)] and [requests.head(url, ...)].  The URL
    [None] is turned into the text [None], which has no scheme:
    [MissingSchema], and nothing is sent. *)
Definition requests_get (url : option string)
    (params : list (string * string)) (options : http_options)
    (stream : bool) : M FS response :=
  match url with
  | None => raise MissingSchema
  | Some u => send (Request GET u params options stream)
  end.

Definition requests_head (url : option string)
    (options : http_options) : M FS response :=
  match url with
  | None => raise MissingSchema
  | Some u => send (Request HEAD u [] options false)
  end.

End Effects.

Definition is_MissingSchema (e : exn) : bool :=
  match e with MissingSchema => true | _ => false end.

(** ** [SimpleFSResolver] *)

Module SimpleFSResolver.

Record t := Make { source_roots : list string }.

Section Methods.
Context {FS : Type} `{!FileSystem FS}.
Variable self : t.

Definition raise_404_for_ident {A} (ident : string) : M FS A :=
  let message := "Source image not found for identifier: " +:+ ident +:+ "." in
  raise (ResolverException 404 message).

(** The [for] loop over the roots; falling off its end is [None]. *)
Fixpoint first_existing (ident : string) (roots : list string)
    : M FS (option string) :=
  match roots with
  | [] => ret None
  | directory :: rest =>
      let fp := OsPath.join directory ident in
      found <- exists_ fp;
      if found then ret (Some fp) else first_existing ident rest
  end.

Definition source_file_path (ident : string) : M FS (option string) :=
  let ident := Urllib.unquote ident in
  first_existing ident (source_roots self).

Definition is_resolvable (ident : string) : M FS bool :=
  fp <- source_file_path ident;
  ret (negb (bool_decide (fp = None))).

Definition format_from_ident (ident : string) : string :=
  Py.lower (Py.last_of (Py.split "." ident)).

(** [resolve], with the [format_from_ident] of the instance's class. *)
Definition resolve_with (format_from_ident : string -> string)
    (ident : string) : M FS (option string * string) :=
  resolvable <- is_resolvable ident;
  (if negb resolvable then raise_404_for_ident ident else ret tt);;
  source_fp <- source_file_path ident;
  let format := format_from_ident ident in
  ret (source_fp, format).

Definition resolve : string -> M FS (option string * string) :=
  resolve_with format_from_ident.

End Methods.

End SimpleFSResolver.

(** ** [ExtensionNormalizingFSResolver] *)

Module ExtensionNormalizingFSResolver.

Record t := Make {
  super : SimpleFSResolver.t;
  extension_map : gmap string string }.

Section Methods.
Context {FS : Type} `{!FileSystem FS}.
Variable self : t.

Definition format_from_ident (ident : string) : string :=
  let format := SimpleFSResolver.format_from_ident ident in
  let format := Py.lower format in
  let format := default format (extension_map self !! format) in
  format.

Definition is_resolvable : string -> M FS bool :=
  SimpleFSResolver.is_resolvable (super self).

Definition resolve : string -> M FS (option string * string) :=
  SimpleFSResolver.resolve_with (super self) format_from_ident.

End Methods.

End ExtensionNormalizingFSResolver.

(** ** [SimpleHTTPResolver] *)

Module SimpleHTTPResolver.

(** The attributes [__init__] reads from the configuration.
    [ident_regex], when set, is held as the matcher [re.compile] makes
    of it. *)
Record t := Make {
  source_prefix : string;
  source_suffix : string;
  default_format : option string;
  head_resolvable : bool;
  uri_resolvable : bool;
  user : option string;
  pw : option string;
  cert : option string;
  key : option string;
  ssl_check : bool;
  ident_regex : option (string -> bool);
  cache_root : string }.

(** The keys [__init__] reads from the configuration dictionary, each
    with the type its use gives it; [None] is a key that is absent. *)
Record config := Config {
  cfg_source_prefix : option string;
  cfg_source_suffix : option string;
  cfg_default_format : option string;
  cfg_head_resolvable : option bool;
  cfg_uri_resolvable : option bool;
  cfg_user : option string;
  cfg_pw : option string;
  cfg_cert : option string;
  cfg_key : option string;
  cfg_ssl_check : option bool;
  cfg_ident_regex : option (string -> bool);
  cfg_cache_root : option string }.

Definition __init__ (config : config) : result t :=
  let source_prefix := default "" (cfg_source_prefix config) in
  let source_suffix := default "" (cfg_source_suffix config) in
  let default_format := cfg_default_format config in
  let head_resolvable := default false (cfg_head_resolvable config) in
  let uri_resolvable := default false (cfg_uri_resolvable config) in
  let user := cfg_user config in
  let pw := cfg_pw config in
  let cert := cfg_cert config in
  let key := cfg_key config in
  let ssl_check := default true (cfg_ssl_check config) in
  let ident_regex := cfg_ident_regex config in
  match cfg_cache_root config with
  | Some cache_root =>
      if negb uri_resolvable && String.eqb source_prefix "" then
        let message :=
          "Server Side Error: Configuration incomplete and cannot resolve. Must either set uri_resolvable"
          +:+ " or source_prefix settings." in
        Raise (ResolverException 500 message)
      else
        Return (Make source_prefix source_suffix default_format head_resolvable
                  uri_resolvable user pw cert key ssl_check ident_regex
                  cache_root)
  | None =>
      let message :=
        "Server Side Error: Configuration incomplete and cannot resolve. Missing setting for cache_root." in
      Raise (ResolverException 500 message)
  end.

(** [str(n)] for a status code. *)
Definition str_of_nat (n : nat) : string :=
  NilEmpty.string_of_uint (Nat.to_uint n).

(** Get a subdirectory structure for the cache_subroot through hashing:
    the directory structure of the identifier itself. *)
Definition _ident_file_structure (ident : string) : string :=
  let file_structure := "" in
  let ident_hash := Hashlib.md5_hexdigest (Urllib.quote_plus ident) in
  let file_structure_list :=
    ([Py.slice 0 2 ident_hash]
     ++ map (fun i => Py.slice i (i + 3) ident_hash)
          (Py.range 2 (String.length ident_hash) 3))%list in
  fold_left (fun file_structure piece => OsPath.join file_structure piece)
    file_structure_list file_structure.

Definition _cache_subroot (ident : string) : string :=
  let cache_subroot := "" in
  let cache_subroot :=
    if negb (String.eqb (Py.slice 0 6 ident) "http:/")
       && negb (String.eqb (Py.slice 0 7 ident) "https:/")
       && (1 <? List.length (Py.split ":" ident))%nat
    then fold_left (fun cache_subroot split_ident =>
                      OsPath.join cache_subroot split_ident)
           (Py.init_of (Py.split ":" ident)) cache_subroot
    else if String.eqb (Py.slice 0 6 ident) "http:/"
            || String.eqb (Py.slice 0 7 ident) "https:/"
    then "http"
    else cache_subroot in
  OsPath.join cache_subroot (_ident_file_structure ident).

Section Methods.
Context {FS : Type} `{!FileSystem FS}.
Variable origin : request -> outcome.
(** [constants.FORMATS_BY_MEDIA_TYPE], a table of another module. *)
Variable FORMATS_BY_MEDIA_TYPE : gmap string string.
Variable self : t.

Definition request_options : http_options :=
  let cert_opt :=
    match cert self, key self with
    | Some c, Some k => Some (c, k)
    | _, _ => None
    end in
  let auth_opt :=
    match user self, pw self with
    | Some u, Some p => Some (u, p)
    | _, _ => None
    end in
  RequestOptions cert_opt auth_opt (Some (ssl_check self)).

Definition format_from_ident (ident : string)
    (potential_format : option string) : result string :=
  match default_format self with
  | Some f => Return f
  | None =>
      match potential_format with
      | Some f => Return f
      | None =>
          if negb (Py.rfind "." ident =? -1)
             && (Py.len ident - Py.rfind "." ident <=? 5)
          then Return (Py.last_of (Py.split "." ident))
          else
            let message :=
              "Format could not be determined for: " +:+ ident +:+ "." in
            Raise (ResolverException 404 message)
      end
  end.

Definition _web_request_url (ident : string)
    : result (option string * http_options) :=
  let url :=
    if (String.eqb (Py.take 7 ident) "http://"
        || String.eqb (Py.take 8 ident) "https://")
       && uri_resolvable self
    then ident
    else source_prefix self +:+ ident +:+ source_suffix self in
  Return (Some url, request_options).

Definition cache_dir_path (ident : string) : string :=
  let ident := Urllib.unquote ident in
  OsPath.join (cache_root self) (_cache_subroot ident).

Definition raise_404_for_ident {A} (ident : string) : M FS A :=
  let message := "Image not found for identifier: " +:+ ident +:+ "." in
  raise (ResolverException 404 message).

Definition cached_files_for_ident (ident : string) : M FS (list string) :=
  let cache_dir := cache_dir_path ident in
  present <- exists_ cache_dir;
  if present then glob (OsPath.join cache_dir "loris_cache.*")
  else ret [].

Definition in_cache (ident : string) : M FS bool :=
  exists_ (cache_dir_path ident).

Definition cached_object (ident : string) : M FS string :=
  cached_files <- cached_files_for_ident ident;
  match cached_files with
  | cached_object :: _ => ret cached_object
  | [] => raise_404_for_ident ident
  end.

(** Header names are held in lower case, as the case-insensitive
    [response.headers] of [requests] finds them. *)
Definition cache_file_extension (ident : string) (response : response)
    : result string :=
  match headers response !! "content-type" with
  | Some content_type =>
      match FORMATS_BY_MEDIA_TYPE !! content_type with
      | Some potential_format => format_from_ident ident (Some potential_format)
      | None => format_from_ident ident None
      end
  | None => format_from_ident ident None
  end.

(** The methods below call [self._web_request_url], which a subclass
    overrides: they take it as [web_request_url]. *)
Section Dispatch.
Variable web_request_url :
  string -> result (option string * http_options).

Definition is_resolvable_via (ident : string) : M FS bool :=
  let ident := Urllib.unquote ident in
  let probe : M FS bool :=
    let fp := OsPath.join (cache_root self) (_cache_subroot ident) in
    present <- exists_ fp;
    if present then ret true
    else
      target <- lift (web_request_url ident);
      let '(url, options) := target in
      if head_resolvable self then
        try_except
          (response <- requests_head origin url options;
           ret (ok response))
          is_MissingSchema (ret false)
      else
        try_except
          (response <- requests_get origin url [] options true;
           ret (ok response))
          is_MissingSchema (ret false) in
  match ident_regex self with
  | Some regex_match => if negb (regex_match ident) then ret false else probe
  | None => probe
  end.

Definition copy_to_cache_via (ident : string) : M FS unit :=
  let ident := Urllib.unquote ident in
  target <- lift (web_request_url ident);
  let '(source_url, options) := target in
  response <-
    try_except (requests_get origin source_url [] options false)
      is_MissingSchema
      (let public_message :=
         "Bad URL request made for identifier: " +:+ ident +:+ "." in
       raise (ResolverException 404 public_message));
  (if negb (ok response) then
     let public_message :=
       "Source image not found for identifier: " +:+ ident
       +:+ ". Status code returned: "
       +:+ str_of_nat (status_code response) in
     raise (ResolverException 404 public_message)
   else ret tt);;
  extension <- lift (cache_file_extension ident response);
  let cache_dir := cache_dir_path ident in
  let local_fp := OsPath.join cache_dir ("loris_cache." +:+ extension) in
  try_except (makedirs (OsPath.dirname local_fp)) (fun _ => true) (ret tt);;
  write_file local_fp (content response).

Definition resolve_via (ident : string) : M FS (string * string) :=
  cached <- in_cache ident;
  (if negb cached then copy_to_cache_via ident else ret tt);;
  cached_file_path <- cached_object ident;
  format <- lift (format_from_ident cached_file_path None);
  ret (cached_file_path, format).

End Dispatch.

Definition is_resolvable : string -> M FS bool :=
  is_resolvable_via _web_request_url.
Definition copy_to_cache : string -> M FS unit :=
  copy_to_cache_via _web_request_url.
Definition resolve : string -> M FS (string * string) :=
  resolve_via _web_request_url.

End Methods.

End SimpleHTTPResolver.

(** ** [TemplateHTTPResolver] *)

Module TemplateHTTPResolver.

(** The subsection of one template: [url] and the overridable keys. *)
Record template := Template {
  t_url : option string;
  t_user : option string;
  t_pw : option string;
  t_cert : option string;
  t_key : option string;
  t_ssl_check : option bool }.

(** [__init__] sets [uri_resolvable] before the superclass reads it. *)
Record t := Make {
  super : SimpleHTTPResolver.t;
  templates : gmap string template;
  delimiter : option string }.

(** The configuration: the keys of [SimpleHTTPResolver], [templates],
    [delimiter], and the subsections, which are held by name (no
    template is named after one of the scalar keys). *)
Record config := Config {
  cfg_super : SimpleHTTPResolver.config;
  cfg_templates : option string;
  cfg_sections : gmap string template;
  cfg_delimiter : option string }.

(** [config['uri_resolvable'] = True] *)
Definition force_uri_resolvable (c : SimpleHTTPResolver.config)
    : SimpleHTTPResolver.config :=
  SimpleHTTPResolver.Config
    (SimpleHTTPResolver.cfg_source_prefix c)
    (SimpleHTTPResolver.cfg_source_suffix c)
    (SimpleHTTPResolver.cfg_default_format c)
    (SimpleHTTPResolver.cfg_head_resolvable c)
    (Some true)
    (SimpleHTTPResolver.cfg_user c)
    (SimpleHTTPResolver.cfg_pw c)
    (SimpleHTTPResolver.cfg_cert c)
    (SimpleHTTPResolver.cfg_key c)
    (SimpleHTTPResolver.cfg_ssl_check c)
    (SimpleHTTPResolver.cfg_ident_regex c)
    (SimpleHTTPResolver.cfg_cache_root c).

(** The loop over the listed names: a name with no subsection is
    passed over. *)
Definition collect (sections : gmap string template)
    (table : gmap string template) (name : string) : gmap string template :=
  let name := Py.strip name in
  match sections !! name with
  | None => table
  | Some cfg => <[name := cfg]> table
  end.

Definition __init__ (config : config) : result t :=
  result_bind (SimpleHTTPResolver.__init__ (force_uri_resolvable (cfg_super config)))
    (fun super =>
       let templates := default "" (cfg_templates config) in
       let table :=
         fold_left (collect (cfg_sections config)) (Py.split "," templates) ∅ in
       Return (Make super table (cfg_delimiter config))).

Section Methods.
Context {FS : Type} `{!FileSystem FS}.
Variable origin : request -> outcome.
Variable FORMATS_BY_MEDIA_TYPE : gmap string string.
Variable self : t.

(** [self.templates[prefix]['url'] % args], when the prefix is known. *)
Definition template_url (prefix : string) (args : list string)
    : result (option string) :=
  match templates self !! prefix with
  | Some conf =>
      match t_url conf with
      | Some pattern =>
          result_bind (str_mod pattern args) (fun url => Return (Some url))
      | None => Raise KeyError
      end
  | None => Return None
  end.

Definition _web_request_url (ident : string)
    : result (option string * http_options) :=
  if negb (Py.contains ":" ident) then Return (None, no_options)
  else
    match Py.split1 ":" ident with
    | [prefix; ident] =>
        let url :=
          match delimiter self with
          | Some delimiter =>
              match Py.split_str delimiter ident with
              | Some ident_components => template_url prefix ident_components
              | None => Raise ValueError
              end
          | None => template_url prefix [ident]
          end in
        result_bind url (fun url =>
          match url with
          | None => Return (None, no_options)
          | Some url =>
              let options := SimpleHTTPResolver.request_options (super self) in
              match templates self !! prefix with
              | None => Raise KeyError
              | Some conf =>
                  let options :=
                    match t_cert conf, t_key conf with
                    | Some c, Some k =>
                        RequestOptions (Some (c, k)) (opt_auth options)
                          (opt_verify options)
                    | _, _ => options
                    end in
                  let options :=
                    match t_user conf, t_pw conf with
                    | Some u, Some p =>
                        RequestOptions (opt_cert options) (Some (u, p))
                          (opt_verify options)
                    | _, _ => options
                    end in
                  let options :=
                    match t_ssl_check conf with
                    | Some v =>
                        RequestOptions (opt_cert options) (opt_auth options)
                          (Some v)
                    | None => options
                    end in
                  Return (Some url, options)
              end
          end)
    | _ => Raise ValueError
    end.

Definition is_resolvable : string -> M FS bool :=
  SimpleHTTPResolver.is_resolvable_via origin (super self) _web_request_url.
Definition copy_to_cache : string -> M FS unit :=
  SimpleHTTPResolver.copy_to_cache_via origin FORMATS_BY_MEDIA_TYPE
    (super self) _web_request_url.
Definition resolve : string -> M FS (string * string) :=
  SimpleHTTPResolver.resolve_via origin FORMATS_BY_MEDIA_TYPE
    (super self) _web_request_url.

End Methods.

End TemplateHTTPResolver.

(** ** [SourceImageCachingResolver] *)

Module SourceImageCachingResolver.

Record t := Make {
  cache_root : string;
  source_root : string }.

Section Methods.
Context {FS : Type} `{!FileSystem FS}.
Variable self : t.

Definition source_file_path (ident : string) : string :=
  let ident := Urllib.unquote ident in
  OsPath.join (source_root self) ident.

Definition cache_file_path (ident : string) : string :=
  let ident := Urllib.unquote ident in
  OsPath.join (cache_root self) ident.

Definition is_resolvable (ident : string) : M FS bool :=
  let source_fp := source_file_path ident in
  exists_ source_fp.

Definition format_from_ident (ident : string) : string :=
  Py.last_of (Py.split "." ident).

Definition in_cache (ident : string) : M FS bool :=
  exists_ (cache_file_path ident).

Definition copy_to_cache (ident : string) : M FS unit :=
  let source_fp := source_file_path ident in
  let cache_fp := cache_file_path ident in
  makedirs (OsPath.dirname cache_fp);;
  copy source_fp cache_fp.

Definition raise_404_for_ident {A} (ident : string) : M FS A :=
  let public_message :=
    "Source image not found for identifier: " +:+ ident +:+ "." in
  raise (ResolverException 404 public_message).

Definition resolve (ident : string) : M FS (string * string) :=
  resolvable <- is_resolvable ident;
  (if negb resolvable then raise_404_for_ident ident else ret tt);;
  cached <- in_cache ident;
  (if negb cached then copy_to_cache ident else ret tt);;
  let cache_fp := cache_file_path ident in
  let format := format_from_ident ident in
  ret (cache_fp, format).

End Methods.

End SourceImageCachingResolver.

(** ** [IwmFSResolver] *)

Module IwmFSResolver.

Record t := Make { source_roots : list string }.

Definition request_url : string :=
  "http://192.168.100.112:28080/solr-4.10.0/iwm-new/select/".

Section Methods.
Context {FS : Type} `{!FileSystem FS}.
Variable origin : request -> outcome.
Variable self : t.

Definition raise_404_for_ident {A} (ident : string) : M FS A :=
  let message := "Source image not found for identifier: " +:+ ident +:+ "." in
  raise (ResolverException 404 message).

(** [for counter, reference in enumerate(media_reference)] *)
Fixpoint scan_references (media_reference media_locations : list string)
    (media_id : string) (counter : nat) : option (result string) :=
  match media_reference with
  | [] => None
  | reference :: rest =>
      if String.eqb reference media_id then
        Some (match nth_error media_locations counter with
              | Some location => Return location
              | None => Raise IndexError
              end)
      else scan_references rest media_locations media_id (S counter)
  end.

(** [for el in docs]; falling off the end returns [None]. *)
Fixpoint scan_docs (docs : list (gmap string (list string)))
    (image_size_id media_id : string) : result (option string) :=
  match docs with
  | [] => Return None
  | el :: rest =>
      match el !! "mediaReference" with
      | None => Raise KeyError
      | Some media_reference =>
          match el !! image_size_id with
          | None => Raise KeyError
          | Some media_locations =>
              match scan_references media_reference media_locations
                      media_id 0 with
              | Some found => result_bind found (fun l => Return (Some l))
              | None => scan_docs rest image_size_id media_id
              end
          end
      end
  end.

Definition parse_json_val (json_val : solr_response)
    (image_size_id media_id : string) : result (option string) :=
  let num_found := numFound json_val in
  if 0 <? num_found then scan_docs (docs json_val) image_size_id media_id
  else Return None.

Fixpoint first_existing (fpath : string) (roots : list string)
    : M FS (option string) :=
  match roots with
  | [] => ret None
  | directory :: rest =>
      let fp := OsPath.join directory fpath in
      found <- exists_ fp;
      if found then ret (Some fp) else first_existing fpath rest
  end.

Definition source_file_path (ident : string) : M FS (option string) :=
  let ident := Urllib.unquote ident in
  match Py.split "/" ident with
  | [object_id; media_id; size] =>
      let image_size_id := size +:+ "MediaLocation" in
      let data :=
        [("q", "identifier:" +:+ object_id +:+ " AND mediaReference:" +:+ media_id);
         ("fl", image_size_id +:+ ",mediaReference");
         ("wt", "json")] in
      r <- send origin (Request GET request_url data no_options false);
      json_val <- lift (match json r with
                        | Some v => Return v
                        | None => Raise ValueError
                        end);
      fpath <- lift (parse_json_val json_val image_size_id media_id);
      match fpath with
      | Some fpath => first_existing fpath (source_roots self)
      | None => ret None
      end
  | _ => raise ValueError
  end.

Definition is_resolvable (ident : string) : M FS bool :=
  fp <- source_file_path ident;
  ret (negb (bool_decide (fp = None))).

Definition format_from_source_fp (source_fp : option string)
    : result string :=
  match source_fp with
  | Some source_fp => Return (Py.last_of (Py.split "." source_fp))
  | None => Raise AttributeError
  end.

Definition resolve (ident : string) : M FS (option string * string) :=
  resolvable <- is_resolvable ident;
  (if negb resolvable then raise_404_for_ident ident else ret tt);;
  source_fp <- source_file_path ident;
  format <- lift (format_from_source_fp source_fp);
  ret (source_fp, format).

End Methods.

End IwmFSResolver.

(** ** A reference filesystem

    A disk as a finite map from paths (the names from the root down) to
    nodes.  Paths are read from the root; empty and [.] components are
    dropped; symbolic links and [..] are not interpreted.  It serves to
    run the resolvers on concrete disks. *)

Module RefFS.

Inductive node := Dir | File (data : string).

Abbreviation disk := (gmap (list string) node).

Definition components (p : string) : list string :=
  List.filter (fun c => negb (String.eqb c "") && negb (String.eqb c "."))
    (Py.split "/" p).

(** A path that ends in a slash (or in [/.]) can only name a directory. *)
Definition names_directory (p : string) : bool :=
  let l := Py.last_of (Py.split "/" p) in
  String.eqb l "" || String.eqb l ".".

Definition lookup (d : disk) (p : string) : option node :=
  if String.eqb p "" then None
  else match components p with
       | [] => Some Dir
       | cs =>
           match d !! cs with
           | Some (File x) => if names_directory p then None else Some (File x)
           | o => o
           end
       end.

Definition exists_ (d : disk) (p : string) : bool :=
  match lookup d p with Some _ => true | None => false end.

Definition isdir (d : disk) (p : string) : bool :=
  match lookup d p with Some Dir => true | _ => false end.

(** Create [done ++ [c1]], [done ++ [c1; c2]], ... where missing. *)
Fixpoint mkdirs_from (d : disk) (done todo : list string) : option disk :=
  match todo with
  | [] => Some d
  | c :: rest =>
      let cur := (done ++ [c])%list in
      match d !! cur with
      | None => mkdirs_from (<[cur := Dir]> d) cur rest
      | Some Dir => mkdirs_from d cur rest
      | Some (File _) => None
      end
  end.

Definition makedirs (d : disk) (p : string) : option disk :=
  if exists_ d p then None
  else if String.eqb p "" then None
  else mkdirs_from d [] (components p).

Definition write (d : disk) (p data : string) : option disk :=
  if String.eqb p "" || names_directory p then None
  else match components p with
       | [] => None
       | cs =>
           let parent := List.removelast cs in
           let parent_ok :=
             match parent with
             | [] => true
             | _ => match d !! parent with Some Dir => true | _ => false end
             end in
           if parent_ok then
             match d !! cs with
             | Some Dir => None
             | _ => Some (<[cs := File data]> d)
             end
           else None
       end.

Definition copy (d : disk) (src dst : string) : option disk :=
  match lookup d src with
  | Some (File data) =>
      let dst :=
        if isdir d dst then OsPath.join dst (OsPath.basename src) else dst in
      if bool_decide (components src = components dst) then None
      else write d dst data
  | _ => None
  end.

(** [Some prefix] when the pattern is [prefix*]. *)
Fixpoint strip_star (s : string) : option string :=
  match s with
  | "" => None
  | String c "" => if Ascii.eqb c "*" then Some "" else None
  | String c s' =>
      match strip_star s' with
      | Some r => Some (String c r)
      | None => None
      end
  end.

(** A single trailing [*] in the last component is expanded, which is
    the only kind of pattern the resolvers use; any other pattern is
    taken literally. *)
Definition glob (d : disk) (pattern : string) : list string :=
  let dirname := OsPath.dirname pattern in
  let basename := OsPath.basename pattern in
  match strip_star basename with
  | Some prefix =>
      let dir := components dirname in
      let entries :=
        List.filter
          (fun k => bool_decide (List.removelast k = dir)
                    && negb (bool_decide (k = []))
                    && Py.startswith prefix (List.last k ""))
          (map fst (map_to_list d)) in
      map (fun k => OsPath.join dirname (List.last k "")) entries
  | None => if exists_ d pattern then [pattern] else []
  end.

#[global] Instance file_system : FileSystem disk := {
  fs_exists := exists_;
  fs_makedirs := makedirs;
  fs_write := write;
  fs_copy := copy;
  fs_glob := glob }.

End RefFS.

(** ** The cache path, in the words of the specification *)

Module Spec.

(** A string cut into pieces of three characters. *)
Fixpoint threes (s : string) : list string :=
  match s with
  | String a (String b (String c rest)) =>
      String a (String b (String c "")) :: threes rest
  | "" => []
  | short => [short]
  end.

(** The hex digest: a first piece of two characters, then threes. *)
Definition shards (digest : string) : list string :=
  Py.take 2 digest :: threes (Py.drop 2 digest).

Definition hash_components (ident : string) : list string :=
  shards (Hashlib.md5_hexdigest (Urllib.quote_plus ident)).

(** "is itself an [http://] or [https://] URL" *)
Definition is_url (ident : string) : bool :=
  Py.startswith "http://" ident || Py.startswith "https://" ident.

(** "each colon-delimited segment except the last becomes a directory
    component; if it is a URL, a single literal [http] directory
    component is used instead" *)
Definition prefix_components (ident : string) : list string :=
  if is_url ident then ["http"]
  else if Py.contains ":" ident then Py.init_of (Py.split ":" ident)
  else [].

Definition cache_subroot (ident : string) : string :=
  String.concat "/" (prefix_components ident ++ hash_components ident)%list.

(** The digest back from its sharded path: the separators skipped. *)
Fixpoint skip_threes (s : string) : string :=
  match s with
  | String _ (String a (String b (String c rest))) =>
      String a (String b (String c (skip_threes rest)))
  | _ => ""
  end.

Definition unshard (path : string) : string :=
  Py.take 2 path +:+ skip_threes (Py.drop 2 path).

(** A name that makes one directory component: not empty, no slash. *)
Definition plain (s : string) : Prop :=
  s <> "" /\ Py.contains "/" s = false.

End Spec.

(** ** Shapes of patterns and searches, for the statements *)

Module Shape.

(** The pieces of a pattern around its [%s] places, filled in order. *)
Fixpoint fill (chunks args : list string) : string :=
  match chunks with
  | [] => ""
  | c :: cs =>
      match cs, args with
      | _ :: _, a :: args' => c +:+ a +:+ fill cs args'
      | _, _ => c
      end
  end.

(** The index of the first element equal to [x]. *)
Fixpoint index_of (x : string) (l : list string) : option nat :=
  match l with
  | [] => None
  | y :: l' =>
      if String.eqb y x then Some O
      else match index_of x l' with
           | Some i => Some (S i)
           | None => None
           end
  end.

(** The query [IwmFSResolver] sends for the three fields of an
    identifier. *)
Definition iwm_query (object_id media_id size : string) : request :=
  Request GET IwmFSResolver.request_url
    [("q", "identifier:" +:+ object_id +:+ " AND mediaReference:" +:+ media_id);
     ("fl", (size +:+ "MediaLocation") +:+ ",mediaReference");
     ("wt", "json")] no_options false.

End Shape.

(** ** Concrete deployments, to run the resolvers on *)

Module Examples.

Definition src_disk : RefFS.disk :=
  <[ ["src"; "a.JPG"] := RefFS.File "II*" ]>
    (<[ ["src"; "a.jpg"] := RefFS.File "JFIF" ]>
       (<[ ["src"] := RefFS.Dir ]> ∅)).

(** A source tree and an empty cache root. *)
Definition disk0 : RefFS.disk := <[ ["cache"] := RefFS.Dir ]> src_disk.

Definition world0 : world RefFS.disk := World disk0 [].

(** The same source tree, the cache root not yet made. *)
Definition world_fresh : world RefFS.disk := World src_disk [].

Definition sicr : SourceImageCachingResolver.t :=
  SourceImageCachingResolver.Make "/cache" "/src".

Definition http : SimpleHTTPResolver.t :=
  SimpleHTTPResolver.Make "http://origin/" "" None false false
    None None None None true None "/cache".

(** An origin that answers every request with the same body, and no
    content type. *)
Definition origin_ok (r : request) : outcome :=
  Answers (Response true 200 ∅ "JFIF" None).

(** An origin that labels what it serves. *)
Definition origin_tif (r : request) : outcome :=
  Answers (Response true 200 {[ "content-type" := "image/tiff" ]} "II*" None).

Definition media_types : gmap string string :=
  {[ "image/tiff" := "tif" ]}.

(** The world after ["abc.jpg"] was resolved once from [world0]. *)
Definition world_staged : world RefFS.disk :=
  snd (SimpleHTTPResolver.resolve origin_ok media_types http "abc.jpg" world0).

(** The cache directory of ["abc.jpg"] made, nothing staged in it. *)
Definition world_hollow : world RefFS.disk :=
  World (default disk0
           (RefFS.makedirs disk0
              (SimpleHTTPResolver.cache_dir_path http "abc.jpg"))) [].

Definition templated : TemplateHTTPResolver.t :=
  TemplateHTTPResolver.Make
    (SimpleHTTPResolver.Make "" "" None false true
       None None None None true None "/cache")
    {[ "site1" := TemplateHTTPResolver.Template (Some "http://example/%s")
                    None None None None None ]}
    None.

(** The cache directory of ["favicon.ico"] made by some other means. *)
Definition world_favicon : world RefFS.disk :=
  World (default disk0
           (RefFS.makedirs disk0
              (SimpleHTTPResolver.cache_dir_path
                 (TemplateHTTPResolver.super templated) "favicon.ico"))) [].

Definition iwm : IwmFSResolver.t := IwmFSResolver.Make ["/src"].

(** An index with one record, whose large rendition is [a.jpg]. *)
Definition origin_index (r : request) : outcome :=
  Answers (Response true 200 ∅ ""
             (Some (SolrResponse 1
                      [ {[ "mediaReference" := ["media-1"];
                           "largeMediaLocation" := ["a.jpg"] ]} ]))).

Definition simple_fs : SimpleFSResolver.t :=
  SimpleFSResolver.Make ["/a"; "/src"].

Definition normalizing : ExtensionNormalizingFSResolver.t :=
  ExtensionNormalizingFSResolver.Make simple_fs {[ "jpeg" := "jpg" ]}.

(** The world after ["a.jpg"] was copied into a cache made for it. *)
Definition world_copied : world RefFS.disk :=
  snd (SourceImageCachingResolver.resolve sicr "a.jpg" world_fresh).

End Examples.

(** Unfold the effect monad down to the filesystem interface. *)
Ltac run :=
  unfold requests_get, requests_head, bind, ret, raise, lift, try_except,
    exists_, glob, makedirs, write_file, copy.
(** ** The laws hold on the reference filesystem *)

Module RefFSFacts.
Import RefFS.

Lemma ref_mkdirs_from_keeps (todo : list string) :
  forall (d d' : disk) (done k : list string) (n : node),
    mkdirs_from d done todo = Some d' -> d !! k = Some n -> d' !! k = Some n.
Proof.
  induction todo as [|c rest IH]; simpl; intros d d' done k n Hmk Hk.
  - by inversion Hmk; subst.
  - destruct (d !! (done ++ [c])%list) as [[|x]|] eqn:Hcur; try discriminate.
    + eapply IH; eauto.
    + eapply IH; [exact Hmk|].
      rewrite lookup_insert_ne; [done|]. congruence.
Qed.

Lemma ref_lookup_keeps (d d' : disk) (q : string) :
  (forall k n, d !! k = Some n -> exists n', d' !! k = Some n'
      /\ (n = Dir -> n' = Dir) /\ (n' = Dir -> n = Dir)) ->
  exists_ d q = true -> exists_ d' q = true.
Proof.
  intros Hk. unfold exists_, lookup.
  destruct (String.eqb q ""); [done|].
  destruct (components q) as [|c cs]; [done|].
  destruct (d !! (c :: cs)) as [n|] eqn:Hn; [|done].
  destruct (Hk _ _ Hn) as (n' & -> & Hd & Hd').
  destruct n as [|x], n' as [|x'].
  - done.
  - by specialize (Hd eq_refl).
  - by specialize (Hd' eq_refl).
  - by destruct (names_directory q).
Qed.

Lemma ref_makedirs_keeps (d : disk) (p : string) (d' : disk) (q : string) :
  makedirs d p = Some d' -> exists_ d q = true -> exists_ d' q = true.
Proof.
  unfold makedirs. destruct (exists_ d p); [done|].
  destruct (String.eqb p ""); [done|]. intros Hmk.
  apply ref_lookup_keeps. intros k n Hk. exists n.
  split; [|done]. eapply ref_mkdirs_from_keeps; eauto.
Qed.

Lemma ref_write_keeps (d : disk) (p data : string) (d' : disk) (q : string) :
  write d p data = Some d' -> exists_ d q = true -> exists_ d' q = true.
Proof.
  unfold write. destruct (_ || _); [done|].
  destruct (components p) as [|c cs] eqn:Hc; [done|].
  destruct (match List.removelast (c :: cs) with [] => _ | _ => _ end); [|done].
  intros Hw. apply ref_lookup_keeps. intros k n Hk.
  destruct (decide (k = c :: cs)) as [->|Hne].
  - rewrite Hk in Hw. destruct n as [|x]; [done|].
    inversion Hw; subst. exists (File data).
    by rewrite lookup_insert_eq.
  - exists n. split; [|done].
    destruct (d !! (c :: cs)) as [[|x]|]; try done;
      inversion Hw; subst; by rewrite lookup_insert_ne.
Qed.

Lemma ref_write_lands (d : disk) (p data : string) (d' : disk) :
  write d p data = Some d' -> exists_ d' p = true.
Proof.
  unfold write, exists_, lookup.
  destruct (String.eqb p "") eqn:Hp; [done|]. simpl.
  destruct (names_directory p) eqn:Hn; [done|].
  destruct (components p) as [|c cs] eqn:Hc; [done|].
  destruct (match List.removelast (c :: cs) with [] => _ | _ => _ end); [|done].
  intros Hw.
  assert (d' !! (c :: cs) = Some (File data)) as ->; [|done].
  destruct (d !! (c :: cs)) as [[|x]|]; try done;
    inversion Hw; subst; by rewrite lookup_insert_eq.
Qed.

Lemma ref_copy_keeps (d : disk) (src dst : string) (d' : disk) (q : string) :
  copy d src dst = Some d' -> exists_ d q = true -> exists_ d' q = true.
Proof.
  unfold copy. destruct (lookup d src) as [[|data]|]; try done.
  case_bool_decide; [done|]. apply ref_write_keeps.
Qed.

Lemma ref_copy_lands (d : disk) (src dst : string) (d' : disk) :
  copy d src dst = Some d' -> exists_ d' dst = true.
Proof.
  intros Hc. destruct (isdir d dst) eqn:Hdir.
  - eapply ref_copy_keeps; [exact Hc|].
    unfold isdir in Hdir. unfold exists_.
    by destruct (lookup d dst) as [[|x]|].
  - revert Hc. unfold copy. rewrite Hdir.
    destruct (lookup d src) as [[|data]|]; try done.
    case_bool_decide; [done|]. apply ref_write_lands.
Qed.

Lemma ref_makedirs_existing (d : disk) (p : string) :
  exists_ d p = true -> makedirs d p = None.
Proof. intros H. unfold makedirs. by rewrite H. Qed.

#[global] Instance laws : FileSystemLaws disk.
Proof.
  split.
  - exact ref_makedirs_existing.
  - exact ref_makedirs_keeps.
  - exact ref_copy_keeps.
  - exact ref_copy_lands.
Qed.

End RefFSFacts.

(** ** The library models on known values *)

Section KnownValues.

(** The test suite of RFC 1321. *)
Example md5_empty :
  Hashlib.md5_hexdigest "" = "d41d8cd98f00b204e9800998ecf8427e".
Proof. vm_compute; reflexivity. Qed.

Example md5_abc :
  Hashlib.md5_hexdigest "abc" = "900150983cd24fb0d6963f7d28e17f72".
Proof. vm_compute; reflexivity. Qed.

Example md5_two_blocks :
  Hashlib.md5_hexdigest
    "12345678901234567890123456789012345678901234567890123456789012345678901234567890"
  = "57edf4a22be3c955ac49da2e2107b67a".
Proof. vm_compute; reflexivity. Qed.

Example quote_plus_reserved :
  Urllib.quote_plus "a b/c:d+e%~_.-Z" = "a+b%2Fc%3Ad%2Be%25%7E_.-Z".
Proof. vm_compute; reflexivity. Qed.

Example unquote_partial :
  Urllib.unquote "a%20b%2Fc%zz%4%%41%" = "a b/c%zz%4%A%".
Proof. vm_compute; reflexivity. Qed.

Example join_cases :
  (OsPath.join "" "a", OsPath.join "a" "/b", OsPath.join "a/" "b",
   OsPath.join "a" "", OsPath.join "a" "b")
  = ("a", "/b", "a/b", "a/", "a/b").
Proof. vm_compute; reflexivity. Qed.

Example dirname_cases :
  map OsPath.dirname ["/cache/a.jpg"; "a.jpg"; "/a"; "/cache/a/"; "a//b"; "//"]
  = ["/cache"; ""; "/"; "/cache/a"; "a"; "//"].
Proof. vm_compute; reflexivity. Qed.

Example split_cases :
  (Py.split ":" "a:b::c", Py.split1 ":" "a:b::c", Py.split_str "ab" "xabyababz")
  = (["a"; "b"; ""; "c"], ["a"; "b::c"], Some ["x"; "y"; ""; "z"]).
Proof. vm_compute; reflexivity. Qed.

(** A source found under the second root only. *)
Example simple_fs_second_root :
  fst (SimpleFSResolver.resolve Examples.simple_fs "a.jpg" Examples.world0)
  = Return (Some "/src/a.jpg", "jpg").
Proof. vm_compute; reflexivity. Qed.

Example normalizing_alias :
  ExtensionNormalizingFSResolver.format_from_ident Examples.normalizing "a.JPEG"
  = "jpg".
Proof. vm_compute; reflexivity. Qed.

(** [site1:123] is asked for at [http://example/123]; the content type
    of the answer wins over the extension of the identifier. *)
Example template_dispatch :
  TemplateHTTPResolver._web_request_url Examples.templated "site1:123"
  = Return (Some "http://example/123", RequestOptions None None (Some true))
  /\ fst (TemplateHTTPResolver.resolve Examples.origin_tif Examples.media_types
            Examples.templated "site1:123.jpg" Examples.world0)
     = Return ("/cache/site1/fe/ee4/5ac/926/b34/8be/276/7e7/b52/37f/eaf/loris_cache.tif",
               "tif").
Proof. split; vm_compute; reflexivity. Qed.

End KnownValues.

(** ** Resolving twice *)

Section Idempotence.
Context {FS : Type} `{!FileSystem FS}.
Variable origin : request -> outcome.
Variable FORMATS_BY_MEDIA_TYPE : gmap string string.

(** A hit is read-only and says the cache directory is there. *)
Lemma http_serve_reads (self : SimpleHTTPResolver.t) (ident : string)
    (w w' : world FS) (f : string) :
  SimpleHTTPResolver.cached_object self ident w = (Return f, w') ->
  w' = w /\ fs_exists (disk w) (SimpleHTTPResolver.cache_dir_path self ident) = true.
Proof.
  unfold SimpleHTTPResolver.cached_object,
    SimpleHTTPResolver.cached_files_for_ident, bind, exists_, glob, ret.
  destruct (fs_exists _ _) eqn:Hex; simpl.
  - destruct (fs_glob _ _); simpl; intros H; by inversion H.
  - intros H; inversion H.
Qed.

Lemma http_resolve_again (self : SimpleHTTPResolver.t)
    (web_request_url : string -> result (option string * http_options))
    (ident : string) (w w' : world FS) (r : string * string) :
  SimpleHTTPResolver.resolve_via origin FORMATS_BY_MEDIA_TYPE self
    web_request_url ident w = (Return r, w') ->
  SimpleHTTPResolver.resolve_via origin FORMATS_BY_MEDIA_TYPE self
    web_request_url ident w' = (Return r, w').
Proof.
  unfold SimpleHTTPResolver.resolve_via at 1.
  unfold bind at 1. unfold SimpleHTTPResolver.in_cache at 1.
  unfold exists_ at 1.
  assert (Hserve : forall v v' : world FS,
    (cached_file_path <- SimpleHTTPResolver.cached_object self ident;
     format <- lift (SimpleHTTPResolver.format_from_ident self cached_file_path None);
     ret (cached_file_path, format)) v = (Return r, v') ->
    SimpleHTTPResolver.resolve_via origin FORMATS_BY_MEDIA_TYPE self
      web_request_url ident v' = (Return r, v')).
  { intros v v'. unfold bind at 1.
    destruct (SimpleHTTPResolver.cached_object self ident v) as [[f|e] v1] eqn:Hobj;
      [|intros H; inversion H].
    destruct (http_serve_reads _ _ _ _ _ Hobj) as [-> Hex].
    intros Hrest.
    assert (v' = v) as ->.
    { revert Hrest. unfold bind, lift, ret.
      destruct (SimpleHTTPResolver.format_from_ident self f None);
        intros H; by inversion H. }
    unfold SimpleHTTPResolver.resolve_via, bind at 1,
      SimpleHTTPResolver.in_cache, exists_.
    rewrite Hex. simpl. unfold bind at 1, ret at 1.
    unfold bind at 1. rewrite Hobj. exact Hrest. }
  destruct (fs_exists _ _) eqn:Hex; simpl.
  - unfold bind at 1, ret at 1. apply Hserve.
  - unfold bind at 1.
    destruct (SimpleHTTPResolver.copy_to_cache_via _ _ _ _ _ w) as [[[]|e] w1];
      [|intros H; inversion H].
    apply Hserve.
Qed.

End Idempotence.

Section IdempotenceCopy.
Context {FS : Type} `{!FileSystem FS} `{!FileSystemLaws FS}.

Lemma sicr_resolve_again (self : SourceImageCachingResolver.t)
    (ident : string) (w w' : world FS) (r : string * string) :
  SourceImageCachingResolver.resolve self ident w = (Return r, w') ->
  SourceImageCachingResolver.resolve self ident w' = (Return r, w').
Proof.
  unfold SourceImageCachingResolver.resolve,
    SourceImageCachingResolver.is_resolvable,
    SourceImageCachingResolver.in_cache,
    SourceImageCachingResolver.copy_to_cache,
    SourceImageCachingResolver.raise_404_for_ident,
    bind, exists_, makedirs, copy, ret, raise.
  destruct (fs_exists (disk w) (SourceImageCachingResolver.source_file_path self ident))
    eqn:Hsrc; simpl; [|intros H; inversion H].
  destruct (fs_exists (disk w) (SourceImageCachingResolver.cache_file_path self ident))
    eqn:Hhit; simpl.
  - intros [= <- <-]. rewrite Hsrc. simpl. by rewrite Hhit.
  - destruct (fs_makedirs _ _) as [d1|] eqn:Hmk; [|intros H; inversion H].
    simpl. destruct (fs_copy _ _ _) as [d2|] eqn:Hcp; [|intros H; inversion H].
    intros [= <- <-]. simpl.
    rewrite (copy_keeps _ _ _ _ _ Hcp (makedirs_keeps _ _ _ _ Hmk Hsrc)).
    simpl. by rewrite (copy_lands _ _ _ _ Hcp).
Qed.

End IdempotenceCopy.

(** C1. Under the HTTP caching strategy and under the network-filesystem
    caching strategy, when a first [resolve] of an identifier succeeded,
    a second one returns the same (path, format) pair and leaves the
    world as it found it: nothing is requested from the network and
    nothing is copied.  The second strategy relies on the filesystem
    keeping what [makedirs] and [copy] found and what [copy] wrote. *)
Theorem resolve_twice_same_pair :
  forall (FS : Type) (Hfs : FileSystem FS)
         (origin : request -> outcome) (media : gmap string string)
         (ident : string) (w w' : world FS) (r : string * string),
    (forall self : SimpleHTTPResolver.t,
        SimpleHTTPResolver.resolve origin media self ident w = (Return r, w') ->
        SimpleHTTPResolver.resolve origin media self ident w' = (Return r, w'))
    /\ (FileSystemLaws FS ->
        forall self : SourceImageCachingResolver.t,
          SourceImageCachingResolver.resolve self ident w = (Return r, w') ->
          SourceImageCachingResolver.resolve self ident w' = (Return r, w')).
Proof.
  intros. split.
  - intros self. apply http_resolve_again.
  - intros Hlaws self. by apply sicr_resolve_again.
Qed.

Lemma resolve_twice_same_pair_witness :
  SimpleHTTPResolver.resolve Examples.origin_ok Examples.media_types
    Examples.http "abc.jpg" Examples.world_staged
  = (Return ("/cache/75/639/d41/12b/b5a/157/b65/bb1/813/6cc/d4e/loris_cache.jpg",
             "jpg"), Examples.world_staged)
  /\ SourceImageCachingResolver.resolve Examples.sicr "a.jpg"
       Examples.world_copied
     = (Return ("/cache/a.jpg", "jpg"), Examples.world_copied).
Proof.
  split.
  - apply (proj1 (resolve_twice_same_pair RefFS.disk RefFS.file_system
                    Examples.origin_ok Examples.media_types
                    "abc.jpg" Examples.world0 Examples.world_staged
                    ("/cache/75/639/d41/12b/b5a/157/b65/bb1/813/6cc/d4e/loris_cache.jpg",
                     "jpg"))).
    apply injective_projections; [vm_compute; reflexivity | reflexivity].
  - apply (proj2 (resolve_twice_same_pair RefFS.disk RefFS.file_system
                    Examples.origin_ok Examples.media_types
                    "a.jpg" Examples.world_fresh Examples.world_copied
                    ("/cache/a.jpg", "jpg")) RefFSFacts.laws).
    apply injective_projections; [vm_compute; reflexivity | reflexivity].
Defined.

(** ** Facts about the string primitives *)

Section PyFacts.
Variable c : ascii.

Lemma split_last_rfind (s : string) :
  if Py.contains c s
  then (exists h t, Py.split c s = h :: t /\ t <> [])
       /\ 0 <= Py.rfind c s
       /\ Py.len s - Py.rfind c s = Py.len (Py.last_of (Py.split c s)) + 1
  else Py.split c s = [s] /\ Py.rfind c s = -1.
Proof.
  unfold Py.len, Py.last_of.
  induction s as [|d s' IH]; [done|].
  cbn [Py.contains Py.split Py.rfind].
  destruct (Py.contains c s') eqn:Hc.
  - destruct IH as ((h & t & Hs & Ht) & Hr & Hlen).
    assert (Hr' : (0 <=? Py.rfind c s') = true) by lia.
    rewrite Hr', Hs in *.
    replace (if Ascii.eqb d c then true else true) with true
      by (by destruct (Ascii.eqb d c)).
    destruct (Ascii.eqb d c).
    + split; [by exists "", (h :: t)|].
      split; [lia|].
      change (List.last ("" :: h :: t) "") with (List.last (h :: t) "").
      cbn [String.length]. lia.
    + split; [by exists (String d h), t|].
      split; [lia|].
      destruct t as [|t0 t1]; [done|].
      change (List.last (String d h :: t0 :: t1) "")
        with (List.last (t0 :: t1) "").
      change (List.last (h :: t0 :: t1) "")
        with (List.last (t0 :: t1) "") in Hlen.
      cbn [String.length]. lia.
  - destruct IH as (Hs & Hr). rewrite Hs, Hr.
    change (0 <=? -1) with false. cbv iota.
    destruct (Ascii.eqb d c).
    + split; [by exists "", [s']|].
      split; [lia|]. cbn [List.last String.length]. lia.
    + done.
Qed.

Lemma rfind_contains (s : string) :
  negb (Py.rfind c s =? -1) = Py.contains c s.
Proof.
  pose proof (split_last_rfind s) as H.
  destruct (Py.contains c s).
  - destruct H as (_ & Hr & _). apply negb_true_iff. lia.
  - destruct H as (_ & ->). done.
Qed.

End PyFacts.

(** ** Format inference *)

(** C4. Format inference follows a fixed precedence: the configured
    [default_format]; else the format the caller supplies, which
    [cache_file_extension] takes from the media-type table when the
    response's content type is in it; else the identifier's trailing
    extension, when the identifier has a dot and the extension with its
    dot is at most 5 characters long; else the call fails with the 404
    exception that says the format could not be determined. *)
Theorem format_precedence :
  forall (media : gmap string string) (self : SimpleHTTPResolver.t)
         (ident : string) (potential_format : option string),
    let extension := Py.last_of (Py.split "." ident) in
    (forall f, SimpleHTTPResolver.default_format self = Some f ->
       SimpleHTTPResolver.format_from_ident self ident potential_format
       = Return f)
    /\ (forall f, SimpleHTTPResolver.default_format self = None ->
          potential_format = Some f ->
          SimpleHTTPResolver.format_from_ident self ident potential_format
          = Return f)
    /\ (SimpleHTTPResolver.default_format self = None ->
        potential_format = None ->
        Py.contains "." ident = true ->
        (String.length extension + 1 <= 5)%nat ->
        SimpleHTTPResolver.format_from_ident self ident potential_format
        = Return extension)
    /\ (SimpleHTTPResolver.default_format self = None ->
        potential_format = None ->
        Py.contains "." ident = false \/ (5 < String.length extension + 1)%nat ->
        SimpleHTTPResolver.format_from_ident self ident potential_format
        = Raise (ResolverException 404
                   ("Format could not be determined for: " +:+ ident +:+ ".")))
    /\ (forall (r : response) (content_type f : string),
          headers r !! "content-type" = Some content_type ->
          media !! content_type = Some f ->
          SimpleHTTPResolver.cache_file_extension media self ident r
          = SimpleHTTPResolver.format_from_ident self ident (Some f)).
Proof.
  intros media self ident potential_format extension.
  unfold SimpleHTTPResolver.format_from_ident.
  pose proof (split_last_rfind "." ident) as Hs.
  rewrite rfind_contains.
  repeat split.
  - by intros f ->.
  - by intros f -> ->.
  - intros -> -> Hdot Hlen. rewrite Hdot in *.
    destruct Hs as (_ & _ & Hs). fold extension in Hs.
    assert ((Py.len ident - Py.rfind "." ident <=? 5) = true) as ->; [|done].
    unfold Py.len in *. lia.
  - intros -> -> [Hdot|Hlen].
    + by rewrite Hdot.
    + destruct (Py.contains "." ident); [|done].
      destruct Hs as (_ & _ & Hs). fold extension in Hs.
      assert ((Py.len ident - Py.rfind "." ident <=? 5) = false) as ->; [|done].
      unfold Py.len in *. lia.
  - intros r content_type f Hct Hf.
    unfold SimpleHTTPResolver.cache_file_extension. by rewrite Hct, Hf.
Qed.

Lemma format_precedence_witness :
  SimpleHTTPResolver.format_from_ident
    (SimpleHTTPResolver.Make "http://origin/" "" (Some "jp2") false false
       None None None None true None "/cache") "a.jpg" (Some "tif")
  = Return "jp2"
  /\ SimpleHTTPResolver.format_from_ident Examples.http "a.jpg" (Some "tif")
     = Return "tif"
  /\ SimpleHTTPResolver.format_from_ident Examples.http "a.jpeg" None
     = Return "jpeg"
  /\ SimpleHTTPResolver.format_from_ident Examples.http "a.jpeg2" None
     = Raise (ResolverException 404
                "Format could not be determined for: a.jpeg2.")
  /\ SimpleHTTPResolver.cache_file_extension Examples.media_types
       Examples.http "a.jpg"
       (Response true 200 {[ "content-type" := "image/tiff" ]} "II*" None)
     = Return "tif".
Proof.
  split; [|split; [|split; [|split]]].
  - apply (proj1 (format_precedence Examples.media_types _ "a.jpg" (Some "tif"))).
    reflexivity.
  - apply (proj1 (proj2 (format_precedence Examples.media_types Examples.http
                           "a.jpg" (Some "tif")))); reflexivity.
  - apply (proj1 (proj2 (proj2 (format_precedence Examples.media_types
                                  Examples.http "a.jpeg" None))));
      [reflexivity | reflexivity | reflexivity | simpl; lia].
  - apply (proj1 (proj2 (proj2 (proj2 (format_precedence Examples.media_types
                                         Examples.http "a.jpeg2" None)))));
      [reflexivity | reflexivity | right; simpl; lia].
  - rewrite (proj2 (proj2 (proj2 (proj2 (format_precedence Examples.media_types
               Examples.http "a.jpg" None))))
               (Response true 200 {[ "content-type" := "image/tiff" ]} "II*" None)
               "image/tiff" "tif"); [reflexivity | reflexivity | reflexivity].
Defined.

(** ** The cache of the HTTP strategy *)

(** C10. Under the HTTP caching strategy, when the cache directory of an
    identifier exists and holds no [loris_cache.*] file, [in_cache]
    still answers true, for it looks at the directory alone, and
    [resolve] raises the 404 exception in the world it was called in:
    no request is sent and nothing is written. *)
Theorem hollow_cache_directory_not_found :
  forall (FS : Type) (Hfs : FileSystem FS) (origin : request -> outcome)
         (media : gmap string string) (self : SimpleHTTPResolver.t)
         (ident : string) (w : world FS),
    fs_exists (disk w) (SimpleHTTPResolver.cache_dir_path self ident) = true ->
    fs_glob (disk w)
      (OsPath.join (SimpleHTTPResolver.cache_dir_path self ident) "loris_cache.*")
    = [] ->
    SimpleHTTPResolver.in_cache self ident w = (Return true, w)
    /\ SimpleHTTPResolver.resolve origin media self ident w
       = (Raise (ResolverException 404
                   ("Image not found for identifier: " +:+ ident +:+ ".")), w).
Proof.
  intros FS Hfs origin media self ident w Hdir Hglob.
  unfold SimpleHTTPResolver.resolve, SimpleHTTPResolver.resolve_via,
    SimpleHTTPResolver.cached_object, SimpleHTTPResolver.cached_files_for_ident,
    SimpleHTTPResolver.raise_404_for_ident, SimpleHTTPResolver.in_cache.
  run. rewrite Hdir. cbn [negb]. rewrite Hdir. by rewrite Hglob.
Qed.

Lemma hollow_cache_directory_not_found_witness :
  SimpleHTTPResolver.in_cache Examples.http "abc.jpg" Examples.world_hollow
  = (Return true, Examples.world_hollow)
  /\ SimpleHTTPResolver.resolve Examples.origin_ok Examples.media_types
       Examples.http "abc.jpg" Examples.world_hollow
     = (Raise (ResolverException 404 "Image not found for identifier: abc.jpg."),
        Examples.world_hollow).
Proof.
  apply (hollow_cache_directory_not_found RefFS.disk RefFS.file_system
           Examples.origin_ok Examples.media_types Examples.http "abc.jpg"
           Examples.world_hollow); vm_compute; reflexivity.
Defined.

(** ** The probe and the resolution *)

Section Probe.
Context {FS : Type} `{!FileSystem FS}.

Lemma first_existing_reads (self : SimpleFSResolver.t) (ident : string)
    (roots : list string) (w : world FS) :
  exists o, SimpleFSResolver.first_existing ident roots w = (Return o, w).
Proof.
  induction roots as [|directory rest IH]; simpl.
  - by exists None.
  - run. destruct (fs_exists _ _); [by eexists|apply IH].
Qed.

Lemma simple_fs_resolvable_resolves (self : SimpleFSResolver.t)
    (format_from_ident : string -> string) (ident : string) (w w' : world FS) :
  SimpleFSResolver.is_resolvable self ident w = (Return true, w') ->
  exists fp,
    SimpleFSResolver.resolve_with self format_from_ident ident w'
    = (Return (Some fp, format_from_ident ident), w').
Proof.
  unfold SimpleFSResolver.resolve_with, SimpleFSResolver.is_resolvable,
    SimpleFSResolver.source_file_path.
  destruct (first_existing_reads self (Urllib.unquote ident)
              (SimpleFSResolver.source_roots self) w) as [o Ho].
  unfold bind at 1. rewrite Ho. unfold ret at 1.
  intros [= Hres <-]. destruct o as [fp|]; [|done].
  exists fp. unfold bind. rewrite Ho. unfold ret. simpl. by rewrite Ho.
Qed.

Variable origin : request -> outcome.

Lemma iwm_first_existing_frame (fpath : string) (roots : list string)
    (w : world FS) :
  snd (IwmFSResolver.first_existing fpath roots w) = w
  /\ forall v : world FS, disk v = disk w ->
       fst (IwmFSResolver.first_existing fpath roots v)
       = fst (IwmFSResolver.first_existing fpath roots w).
Proof.
  induction roots as [|directory rest IH]; simpl.
  - done.
  - run. destruct (fs_exists (disk w) _) eqn:Hex.
    + split; [done|]. intros v ->. by rewrite Hex.
    + destruct IH as (Hw & Hv). split; [done|].
      intros v Hd. rewrite Hd, Hex. by apply Hv.
Qed.

(** The lookup of [IwmFSResolver] reads the disk and adds to the wire:
    on the same disk it gives the same answer. *)
Lemma iwm_source_file_path_frame (self : IwmFSResolver.t) (ident : string)
    (w : world FS) :
  disk (snd (IwmFSResolver.source_file_path origin self ident w)) = disk w
  /\ forall v : world FS, disk v = disk w ->
       fst (IwmFSResolver.source_file_path origin self ident v)
       = fst (IwmFSResolver.source_file_path origin self ident w).
Proof.
  unfold IwmFSResolver.source_file_path.
  destruct (Py.split "/" (Urllib.unquote ident))
    as [|object_id [|media_id [|size [|]]]]; try done.
  unfold bind, lift, send, ret.
  destruct (origin _) as [| |r]; try done.
  destruct (json r) as [json_val|]; [|done].
  destruct (IwmFSResolver.parse_json_val _ _ _) as [[fpath|]|e]; try done.
  match goal with
  | |- context [IwmFSResolver.first_existing ?f ?rs (World (disk w) ?l)] =>
      destruct (iwm_first_existing_frame f rs (World (disk w) l)) as [Hw Hv]
  end.
  split.
  - by rewrite Hw.
  - intros v Hd. by apply Hv.
Qed.

Lemma iwm_resolvable_resolves (self : IwmFSResolver.t) (ident : string)
    (w w' : world FS) :
  IwmFSResolver.is_resolvable origin self ident w = (Return true, w') ->
  exists fp fmt w'',
    IwmFSResolver.resolve origin self ident w'
    = (Return (Some fp, fmt), w'').
Proof.
  unfold IwmFSResolver.is_resolvable. unfold bind at 1.
  pose proof (iwm_source_file_path_frame self ident w) as [Hd Hsame].
  destruct (IwmFSResolver.source_file_path origin self ident w)
    as [[o|e] w1] eqn:Hsfp; [|by intros [=]].
  unfold ret. intros [= Hres <-]. destruct o as [fp|]; [|done].
  simpl in Hd, Hsame.
  pose proof (iwm_source_file_path_frame self ident w1) as [Hd1 _].
  pose proof (Hsame w1 Hd) as H1.
  destruct (IwmFSResolver.source_file_path origin self ident w1)
    as [r1 w2] eqn:Hsfp1.
  simpl in Hd1, H1. subst r1.
  assert (Hd2 : disk w2 = disk w) by congruence.
  pose proof (Hsame w2 Hd2) as H2.
  destruct (IwmFSResolver.source_file_path origin self ident w2)
    as [r2 w3] eqn:Hsfp2.
  simpl in H2. subst r2.
  exists fp, (Py.last_of (Py.split "." fp)), w3.
  unfold IwmFSResolver.resolve, IwmFSResolver.is_resolvable.
  unfold bind. rewrite Hsfp1. unfold ret. simpl. by rewrite Hsfp2.
Qed.

End Probe.

(** C5, as the code has it.  Under the filesystem strategies
    ([SimpleFSResolver], [ExtensionNormalizingFSResolver],
    [IwmFSResolver]) a [resolve] that follows an [is_resolvable] which
    returned true succeeds.  Under the caching strategies
    [is_resolvable] is a lighter probe (the cache directory or the
    status of a request; the source file), and the [resolve] that
    follows it succeeds when the identifier is already staged: the
    cached copy exists, or the cache directory holds a [loris_cache.*]
    file whose format can be told. *)
Theorem resolvable_then_resolves :
  forall (FS : Type) (Hfs : FileSystem FS) (origin : request -> outcome)
         (media : gmap string string) (ident : string) (w w' : world FS),
    (forall self : SimpleFSResolver.t,
        SimpleFSResolver.is_resolvable self ident w = (Return true, w') ->
        exists fp fmt,
          SimpleFSResolver.resolve self ident w' = (Return (Some fp, fmt), w'))
    /\ (forall self : ExtensionNormalizingFSResolver.t,
        ExtensionNormalizingFSResolver.is_resolvable self ident w
        = (Return true, w') ->
        exists fp fmt,
          ExtensionNormalizingFSResolver.resolve self ident w'
          = (Return (Some fp, fmt), w'))
    /\ (forall self : IwmFSResolver.t,
        IwmFSResolver.is_resolvable origin self ident w = (Return true, w') ->
        exists fp fmt w'',
          IwmFSResolver.resolve origin self ident w'
          = (Return (Some fp, fmt), w''))
    /\ (forall self : SourceImageCachingResolver.t,
        SourceImageCachingResolver.is_resolvable self ident w
        = (Return true, w') ->
        SourceImageCachingResolver.in_cache self ident w' = (Return true, w') ->
        SourceImageCachingResolver.resolve self ident w'
        = (Return (SourceImageCachingResolver.cache_file_path self ident,
                   SourceImageCachingResolver.format_from_ident ident), w'))
    /\ (forall (self : SimpleHTTPResolver.t)
               (web_request_url : string -> result (option string * http_options))
               (f : string) (rest : list string) (fmt : string),
        SimpleHTTPResolver.is_resolvable_via origin self web_request_url ident w
        = (Return true, w') ->
        fs_exists (disk w') (SimpleHTTPResolver.cache_dir_path self ident) = true ->
        fs_glob (disk w')
          (OsPath.join (SimpleHTTPResolver.cache_dir_path self ident)
             "loris_cache.*") = f :: rest ->
        SimpleHTTPResolver.format_from_ident self f None = Return fmt ->
        SimpleHTTPResolver.resolve_via origin media self web_request_url ident w'
        = (Return (f, fmt), w')).
Proof.
  intros FS Hfs origin media ident w w'. repeat split.
  - intros self H.
    destruct (simple_fs_resolvable_resolves self
                SimpleFSResolver.format_from_ident ident w w' H) as [fp Hfp].
    by exists fp, (SimpleFSResolver.format_from_ident ident).
  - intros self H.
    destruct (simple_fs_resolvable_resolves
                (ExtensionNormalizingFSResolver.super self)
                (ExtensionNormalizingFSResolver.format_from_ident self)
                ident w w' H) as [fp Hfp].
    by exists fp, (ExtensionNormalizingFSResolver.format_from_ident self ident).
  - intros self. apply iwm_resolvable_resolves.
  - intros self.
    unfold SourceImageCachingResolver.resolve,
      SourceImageCachingResolver.is_resolvable,
      SourceImageCachingResolver.in_cache. run.
    intros [= Hsrc <-] [= Hhit]. rewrite Hsrc. cbn [negb]. by rewrite Hhit.
  - intros self web_request_url f rest fmt _ Hdir Hglob Hfmt.
    unfold SimpleHTTPResolver.resolve_via, SimpleHTTPResolver.in_cache,
      SimpleHTTPResolver.cached_object,
      SimpleHTTPResolver.cached_files_for_ident. run.
    rewrite Hdir. cbn [negb]. rewrite Hdir, Hglob. by rewrite Hfmt.
Qed.

Lemma resolvable_then_resolves_witness :
  (exists fp fmt,
     SimpleFSResolver.resolve Examples.simple_fs "a.jpg" Examples.world0
     = (Return (Some fp, fmt), Examples.world0))
  /\ (exists fp fmt,
        ExtensionNormalizingFSResolver.resolve Examples.normalizing "a.JPG"
          Examples.world0
        = (Return (Some fp, fmt), Examples.world0))
  /\ (exists fp fmt w'',
        IwmFSResolver.resolve Examples.origin_index Examples.iwm
          "object-1/media-1/large"
          (snd (IwmFSResolver.is_resolvable Examples.origin_index Examples.iwm
                  "object-1/media-1/large" Examples.world0))
        = (Return (Some fp, fmt), w''))
  /\ SourceImageCachingResolver.resolve Examples.sicr "a.jpg"
       Examples.world_copied
     = (Return ("/cache/a.jpg", "jpg"), Examples.world_copied)
  /\ SimpleHTTPResolver.resolve Examples.origin_ok Examples.media_types
       Examples.http "abc.jpg" Examples.world_staged
     = (Return ("/cache/75/639/d41/12b/b5a/157/b65/bb1/813/6cc/d4e/loris_cache.jpg",
                "jpg"), Examples.world_staged).
Proof.
  split; [|split; [|split; [|split]]].
  - apply (proj1 (resolvable_then_resolves RefFS.disk RefFS.file_system
                    Examples.origin_ok Examples.media_types "a.jpg"
                    Examples.world0 Examples.world0)).
    apply injective_projections; [vm_compute; reflexivity | reflexivity].
  - apply (proj1 (proj2 (resolvable_then_resolves RefFS.disk RefFS.file_system
                    Examples.origin_ok Examples.media_types "a.JPG"
                    Examples.world0 Examples.world0))).
    apply injective_projections; [vm_compute; reflexivity | reflexivity].
  - apply (proj1 (proj2 (proj2 (resolvable_then_resolves RefFS.disk
                    RefFS.file_system Examples.origin_index Examples.media_types
                    "object-1/media-1/large" Examples.world0 _)))).
    apply injective_projections; [vm_compute; reflexivity | reflexivity].
  - apply (proj1 (proj2 (proj2 (proj2 (resolvable_then_resolves RefFS.disk
                    RefFS.file_system Examples.origin_ok Examples.media_types
                    "a.jpg" Examples.world_copied Examples.world_copied))))
             Examples.sicr).
    + apply injective_projections; [vm_compute; reflexivity | reflexivity].
    + apply injective_projections; [vm_compute; reflexivity | reflexivity].
  - apply (proj2 (proj2 (proj2 (proj2 (resolvable_then_resolves RefFS.disk
                    RefFS.file_system Examples.origin_ok Examples.media_types
                    "abc.jpg" Examples.world_staged Examples.world_staged))))
             Examples.http
             (SimpleHTTPResolver._web_request_url Examples.http)
             "/cache/75/639/d41/12b/b5a/157/b65/bb1/813/6cc/d4e/loris_cache.jpg"
             [] "jpg").
    + apply injective_projections; [vm_compute; reflexivity | reflexivity].
    + vm_compute; reflexivity.
    + vm_compute; reflexivity.
    + vm_compute; reflexivity.
Defined.

(** C5 as stated fails under the HTTP caching strategy: with the cache
    directory of ["abc.jpg"] made and nothing staged in it,
    [is_resolvable] returns true and the [resolve] that follows raises
    the 404 exception. *)
Lemma resolvable_yet_not_found :
  SimpleHTTPResolver.is_resolvable Examples.origin_ok Examples.http "abc.jpg"
    Examples.world_hollow
  = (Return true, Examples.world_hollow)
  /\ fails_not_found
       (fst (SimpleHTTPResolver.resolve Examples.origin_ok Examples.media_types
               Examples.http "abc.jpg" Examples.world_hollow)) = true.
Proof.
  split.
  - apply injective_projections; [vm_compute; reflexivity | reflexivity].
  - vm_compute; reflexivity.
Qed.

(** ** Template dispatch *)

(** C6, as the code has it.  Under [TemplateHTTPResolver], for an
    identifier that has no cache directory yet: when its percent-decoded
    form has no colon, or when the prefix of the decoded form before the
    first colon has no template (and the configured delimiter, if any,
    is not empty), [is_resolvable] returns false and [resolve] raises
    the 404 exception, both in the world they were called in: no
    request is sent. *)
Theorem template_unmatched_not_found :
  forall (FS : Type) (Hfs : FileSystem FS) (origin : request -> outcome)
         (media : gmap string string) (self : TemplateHTTPResolver.t)
         (ident : string) (w : world FS),
    let decoded := Urllib.unquote ident in
    fs_exists (disk w)
      (SimpleHTTPResolver.cache_dir_path (TemplateHTTPResolver.super self) ident)
    = false ->
    Py.contains ":" decoded = false
    \/ (exists prefix rest,
          Py.split1 ":" decoded = [prefix; rest]
          /\ TemplateHTTPResolver.templates self !! prefix = None
          /\ TemplateHTTPResolver.delimiter self <> Some "") ->
    TemplateHTTPResolver.is_resolvable origin self ident w = (Return false, w)
    /\ TemplateHTTPResolver.resolve origin media self ident w
       = (Raise (ResolverException 404
                   ("Bad URL request made for identifier: " +:+ decoded +:+ ".")),
          w).
Proof.
  intros FS Hfs origin media self ident w decoded Hmiss Hcase.
  assert (Hurl : TemplateHTTPResolver._web_request_url self decoded
                 = Return (None, no_options)).
  { unfold TemplateHTTPResolver._web_request_url.
    destruct Hcase as [->|(prefix & rest & -> & Hnone & Hdelim)]; [done|].
    destruct (negb (Py.contains ":" decoded)); [done|].
    unfold TemplateHTTPResolver.template_url. rewrite Hnone.
    destruct (TemplateHTTPResolver.delimiter self) as [[|d0 d]|]; done. }
  unfold SimpleHTTPResolver.cache_dir_path in Hmiss.
  subst decoded. cbv zeta in Hmiss. split.
  - unfold TemplateHTTPResolver.is_resolvable,
      SimpleHTTPResolver.is_resolvable_via.
    run. cbv zeta.
    destruct (SimpleHTTPResolver.ident_regex _) as [regex_match|];
      [destruct (negb (regex_match _)); [done|]|];
      cbv beta; rewrite Hmiss, Hurl;
      by destruct (SimpleHTTPResolver.head_resolvable _).
  - unfold TemplateHTTPResolver.resolve, SimpleHTTPResolver.resolve_via,
      SimpleHTTPResolver.in_cache, SimpleHTTPResolver.copy_to_cache_via,
      SimpleHTTPResolver.cache_dir_path.
    run. cbv zeta. rewrite Hmiss. cbn [negb]. by rewrite Hurl.
Qed.

Lemma template_unmatched_not_found_witness :
  (TemplateHTTPResolver.is_resolvable Examples.origin_ok Examples.templated
     "favicon.ico" Examples.world0 = (Return false, Examples.world0)
   /\ TemplateHTTPResolver.resolve Examples.origin_ok Examples.media_types
        Examples.templated "favicon.ico" Examples.world0
      = (Raise (ResolverException 404
                  "Bad URL request made for identifier: favicon.ico."),
         Examples.world0))
  /\ (TemplateHTTPResolver.is_resolvable Examples.origin_ok Examples.templated
        "unknown:123" Examples.world0 = (Return false, Examples.world0)
      /\ TemplateHTTPResolver.resolve Examples.origin_ok Examples.media_types
           Examples.templated "unknown:123" Examples.world0
         = (Raise (ResolverException 404
                     "Bad URL request made for identifier: unknown:123."),
            Examples.world0)).
Proof.
  split.
  - apply (template_unmatched_not_found RefFS.disk RefFS.file_system
             Examples.origin_ok Examples.media_types Examples.templated
             "favicon.ico" Examples.world0).
    + vm_compute; reflexivity.
    + left. vm_compute; reflexivity.
  - apply (template_unmatched_not_found RefFS.disk RefFS.file_system
             Examples.origin_ok Examples.media_types Examples.templated
             "unknown:123" Examples.world0).
    + vm_compute; reflexivity.
    + right. exists "unknown", "123".
      split; [vm_compute; reflexivity|].
      split; [vm_compute; reflexivity | discriminate].
Defined.

(** C6 as stated fails twice.  The identifier ["site1%3A123"] has no
    colon, yet it decodes to ["site1:123"]: [is_resolvable] returns true
    and a request goes out.  And ["favicon.ico"], once a cache directory
    of that identifier exists, is reported resolvable. *)
Lemma template_colonless_resolvable :
  Py.contains ":" "site1%3A123" = false
  /\ fst (TemplateHTTPResolver.is_resolvable Examples.origin_ok
            Examples.templated "site1%3A123" Examples.world0) = Return true
  /\ map req_url
       (wire (snd (TemplateHTTPResolver.is_resolvable Examples.origin_ok
                     Examples.templated "site1%3A123" Examples.world0)))
     = ["http://example/123"]
  /\ Py.contains ":" "favicon.ico" = false
  /\ fst (TemplateHTTPResolver.is_resolvable Examples.origin_ok
            Examples.templated "favicon.ico" Examples.world_favicon)
     = Return true.
Proof. repeat split; vm_compute; reflexivity. Qed.

(** ** The index-backed strategy *)

(** C7 fails on the code.  Under [IwmFSResolver], an identifier whose
    percent-decoded form does not split into exactly three fields at
    the slashes makes [resolve] raise [ValueError], the exception of
    the failed unpacking, and not the 404 exception. *)
Theorem iwm_malformed_identifier_raises_ValueError :
  forall (FS : Type) (Hfs : FileSystem FS) (origin : request -> outcome)
         (self : IwmFSResolver.t) (ident : string) (w : world FS),
    List.length (Py.split "/" (Urllib.unquote ident)) <> 3%nat ->
    IwmFSResolver.resolve origin self ident w = (Raise ValueError, w)
    /\ is_not_found ValueError = false.
Proof.
  intros FS Hfs origin self ident w Hlen. split; [|done].
  unfold IwmFSResolver.resolve, IwmFSResolver.is_resolvable,
    IwmFSResolver.source_file_path. run.
  by destruct (Py.split "/" (Urllib.unquote ident))
    as [|object_id [|media_id [|size [|]]]].
Qed.

Lemma iwm_malformed_identifier_raises_ValueError_witness :
  IwmFSResolver.resolve Examples.origin_index Examples.iwm "a/b" Examples.world0
  = (Raise ValueError, Examples.world0)
  /\ is_not_found ValueError = false.
Proof.
  apply (iwm_malformed_identifier_raises_ValueError RefFS.disk RefFS.file_system
           Examples.origin_index Examples.iwm "a/b" Examples.world0).
  vm_compute. lia.
Defined.

(** ** The format token *)

(** C8 fails on the code.  Under [SourceImageCachingResolver] the
    format is the identifier's extension as it is written: resolving
    ["a.JPG"] succeeds with the format ["JPG"], which is not lowercase,
    where [SimpleFSResolver] returns ["jpg"] for the same identifier. *)
Theorem sicr_format_keeps_case :
  fst (SourceImageCachingResolver.resolve Examples.sicr "a.JPG"
         Examples.world_fresh)
  = Return ("/cache/a.JPG", "JPG")
  /\ Py.is_lower "JPG" = false
  /\ fst (SimpleFSResolver.resolve Examples.simple_fs "a.JPG" Examples.world0)
     = Return (Some "/src/a.JPG", "jpg").
Proof. repeat split; vm_compute; reflexivity. Qed.

(** ** Population into an existing directory *)

(** C9 fails on the code.  Under [SourceImageCachingResolver], when the
    source file exists, the cached copy does not, and the directory the
    copy belongs in is already there, [copy_to_cache] raises the
    [OSError] of [makedirs], and [resolve] with it: nothing is staged. *)
Theorem sicr_existing_directory_raises_OSError :
  forall (FS : Type) (Hfs : FileSystem FS) (Hlaws : FileSystemLaws FS)
         (self : SourceImageCachingResolver.t) (ident : string) (w : world FS),
    fs_exists (disk w) (SourceImageCachingResolver.source_file_path self ident)
    = true ->
    fs_exists (disk w) (SourceImageCachingResolver.cache_file_path self ident)
    = false ->
    fs_exists (disk w)
      (OsPath.dirname (SourceImageCachingResolver.cache_file_path self ident))
    = true ->
    SourceImageCachingResolver.copy_to_cache self ident w = (Raise OSError, w)
    /\ SourceImageCachingResolver.resolve self ident w = (Raise OSError, w).
Proof.
  intros FS Hfs Hlaws self ident w Hsrc Hmiss Hdir.
  unfold SourceImageCachingResolver.resolve,
    SourceImageCachingResolver.is_resolvable,
    SourceImageCachingResolver.in_cache,
    SourceImageCachingResolver.copy_to_cache. run.
  rewrite Hsrc. cbn [negb]. rewrite Hmiss. cbn [negb].
  by rewrite (makedirs_existing _ _ Hdir).
Qed.

Lemma sicr_existing_directory_raises_OSError_witness :
  SourceImageCachingResolver.copy_to_cache Examples.sicr "a.jpg" Examples.world0
  = (Raise OSError, Examples.world0)
  /\ SourceImageCachingResolver.resolve Examples.sicr "a.jpg" Examples.world0
     = (Raise OSError, Examples.world0).
Proof.
  apply (sicr_existing_directory_raises_OSError RefFS.disk RefFS.file_system
           RefFSFacts.laws Examples.sicr "a.jpg" Examples.world0);
    vm_compute; reflexivity.
Defined.

(** ** Joined paths *)

Section PathFacts.

Lemma append_cons (x : ascii) (a b : string) :
  String x a +:+ b = String x (a +:+ b).
Proof. reflexivity. Qed.

Lemma append_assoc (a b c : string) : (a +:+ b) +:+ c = a +:+ (b +:+ c).
Proof.
  induction a as [|x a IH]; [done|]. by rewrite !append_cons, IH.
Qed.

Lemma append_empty_r (a : string) : a +:+ "" = a.
Proof.
  induction a as [|x a IH]; [done|]. by rewrite append_cons, IH.
Qed.

Lemma append_length (a b : string) :
  String.length (a +:+ b) = (String.length a + String.length b)%nat.
Proof.
  induction a as [|x a IH]; [done|].
  rewrite append_cons. cbn [String.length]. by rewrite IH.
Qed.

(** Equal strings with tails of equal length have equal tails. *)
Lemma append_same_tail (a b x y : string) :
  a +:+ x = b +:+ y -> String.length x = String.length y -> x = y.
Proof.
  revert b. induction a as [|c a IH]; intros [|d b] H Hlen.
  - exact H.
  - apply (f_equal String.length) in H.
    rewrite !append_length in H. cbn [String.length] in H. lia.
  - apply (f_equal String.length) in H.
    rewrite !append_length in H. cbn [String.length] in H. lia.
  - rewrite !append_cons in H. injection H as _ H. by eapply IH.
Qed.

Lemma join_tail (a b : string) : exists pre, OsPath.join a b = pre +:+ b.
Proof.
  unfold OsPath.join. destruct (Py.startswith "/" b).
  - by exists "".
  - destruct (String.eqb a "" || OsPath.endswith_slash a).
    + by exists a.
    + exists (a +:+ "/"). by rewrite append_assoc.
Qed.

Lemma join_empty (b : string) : OsPath.join "" b = b.
Proof. unfold OsPath.join. destruct (Py.startswith "/" b); reflexivity. Qed.

Lemma startswith_slash (s : string) :
  Py.contains "/" s = false -> Py.startswith "/" s = false.
Proof.
  destruct s as [|c s]; [done|]. cbn [Py.contains Py.startswith].
  rewrite (Ascii.eqb_sym "/" c). by destruct (Ascii.eqb c "/").
Qed.

Lemma endswith_slash_append (a b : string) :
  b <> "" -> OsPath.endswith_slash (a +:+ b) = OsPath.endswith_slash b.
Proof.
  intros Hb. induction a as [|c a IH]; [done|].
  rewrite append_cons. cbn [OsPath.endswith_slash].
  destruct (a +:+ b) eqn:Hab; [|done].
  destruct a, b; try done; rewrite ?append_cons in Hab; discriminate.
Qed.

Lemma endswith_slash_contains (s : string) :
  Py.contains "/" s = false -> OsPath.endswith_slash s = false.
Proof.
  induction s as [|c s IH]; [done|].
  cbn [Py.contains OsPath.endswith_slash].
  destruct (Ascii.eqb c "/"); [done|]. intros H.
  destruct s; [done|]. by apply IH.
Qed.

Lemma plain_open_ended (s : string) : Spec.plain s -> OsPath.open_ended s.
Proof. intros [Hne Hc]. split; [done|]. by apply endswith_slash_contains. Qed.

Lemma join_plain (a b : string) :
  OsPath.open_ended a -> Spec.plain b ->
  OsPath.join a b = a +:+ "/" +:+ b /\ OsPath.open_ended (a +:+ "/" +:+ b).
Proof.
  intros [Ha Hs] [Hb Hc]. unfold OsPath.join.
  rewrite (startswith_slash b Hc), Hs.
  destruct a as [|x a]; [done|]. split; [done|]. split; [done|].
  rewrite <- append_assoc.
  rewrite endswith_slash_append by done.
  by apply endswith_slash_contains.
Qed.

Lemma concat_cons (a x : string) (l : list string) :
  String.concat "/" ((a +:+ "/" +:+ x) :: l) = a +:+ "/" +:+ String.concat "/" (x :: l).
Proof.
  destruct l as [|y l]; simpl; [done|].
  by rewrite !append_assoc.
Qed.

Lemma fold_join_from (l : list string) :
  forall a, OsPath.open_ended a -> Forall Spec.plain l ->
    fold_left OsPath.join l a = String.concat "/" (a :: l)
    /\ OsPath.open_ended (String.concat "/" (a :: l)).
Proof.
  induction l as [|x l IH]; intros a Ha Hl; [done|].
  inversion Hl as [|? ? Hx Hl']; subst.
  destruct (join_plain a x Ha Hx) as [Hj Ho].
  cbn [fold_left]. rewrite Hj.
  destruct (IH _ Ho Hl') as [Hf Hopen].
  rewrite concat_cons in Hf, Hopen. done.
Qed.

Lemma fold_join (l : list string) :
  Forall Spec.plain l ->
  fold_left OsPath.join l "" = String.concat "/" l
  /\ (l <> [] -> OsPath.open_ended (String.concat "/" l)).
Proof.
  destruct l as [|x l]; intros Hl; [done|].
  inversion Hl as [|? ? Hx Hl']; subst.
  cbn [fold_left]. rewrite join_empty.
  destruct (fold_join_from l x (plain_open_ended x Hx) Hl') as [Hf Ho].
  done.
Qed.

Lemma concat_app (l k : list string) :
  l <> [] -> k <> [] ->
  String.concat "/" (l ++ k)%list
  = String.concat "/" l +:+ "/" +:+ String.concat "/" k.
Proof.
  intros Hl Hk. induction l as [|x l IH]; [done|].
  destruct l as [|y l].
  - destruct k; [done|]. reflexivity.
  - change ((x :: y :: l) ++ k)%list with (x :: (y :: l) ++ k)%list.
    change (String.concat "/" (x :: (y :: l) ++ k)%list)
      with (x +:+ "/" +:+ String.concat "/" ((y :: l) ++ k)%list).
    rewrite IH by done.
    change (String.concat "/" (x :: y :: l))
      with (x +:+ "/" +:+ String.concat "/" (y :: l)).
    by rewrite !append_assoc.
Qed.

Lemma contains_take (c : ascii) (n : nat) (s : string) :
  Py.contains c s = false -> Py.contains c (Py.take n s) = false.
Proof.
  revert s. induction n as [|n IH]; intros [|d s];
    cbn [Py.contains Py.take]; try done.
  destruct (Ascii.eqb d c); [done|]. apply IH.
Qed.

Lemma contains_drop (c : ascii) (n : nat) (s : string) :
  Py.contains c s = false -> Py.contains c (Py.drop n s) = false.
Proof.
  revert s. induction n as [|n IH]; intros [|d s];
    cbn [Py.contains Py.drop]; try done.
  destruct (Ascii.eqb d c); [done|]. apply IH.
Qed.

Lemma take_startswith (p s : string) :
  String.eqb (Py.take (String.length p) s) p = Py.startswith p s.
Proof.
  revert s. induction p as [|a p IH]; intros [|b s];
    cbn [String.length Py.take Py.startswith String.eqb]; try done.
  rewrite (Ascii.eqb_sym b a). destruct (Ascii.eqb a b); [apply IH|done].
Qed.

End PathFacts.

(** ** The digest *)

Section DigestFacts.

Lemma hex_digit_lower_no_slash (n : Z) :
  0 <= n < 16 -> Ascii.eqb (Hashlib.hex_digit_lower n) "/" = false.
Proof.
  intros H. rewrite <- (Z2Nat.id n) by lia.
  assert (Hk : (Z.to_nat n < 16)%nat) by lia.
  revert Hk. generalize (Z.to_nat n) as k. intros k Hk.
  do 16 (destruct k as [|k]; [reflexivity|]). lia.
Qed.

Lemma hex_of_bytes_shape (bs : list Z) :
  Forall (fun b => 0 <= b < 256) bs ->
  String.length (Hashlib.hex_of_bytes bs) = (2 * List.length bs)%nat
  /\ Py.contains "/" (Hashlib.hex_of_bytes bs) = false.
Proof.
  induction 1 as [|b bs Hb Hbs [IHlen IHc]]; [done|].
  cbn [Hashlib.hex_of_bytes String.length List.length Py.contains].
  split; [lia|].
  rewrite !hex_digit_lower_no_slash, IHc; [done| |].
  - change 0xf with (Z.ones 4). rewrite Z.land_ones by lia.
    apply Z.mod_pos_bound. lia.
  - rewrite Z.shiftr_div_pow2 by lia. change (2 ^ 4) with 16.
    split; [apply Z.div_pos; lia|]. apply Z.div_lt_upper_bound; lia.
Qed.

Lemma bytes_le_range (n : nat) (x : Z) :
  Forall (fun b => 0 <= b < 256) (Hashlib.bytes_le n x)
  /\ List.length (Hashlib.bytes_le n x) = n.
Proof.
  unfold Hashlib.bytes_le. split.
  - apply Forall_map, Forall_forall. intros k _. simpl.
    change 0xff with (Z.ones 8). rewrite Z.land_ones by lia.
    apply Z.mod_pos_bound. lia.
  - by rewrite length_map, length_seq.
Qed.

(** The hex digest of MD5: 32 characters, none of them a slash. *)
Lemma md5_hexdigest_shape (s : string) :
  String.length (Hashlib.md5_hexdigest s) = 32%nat
  /\ Py.contains "/" (Hashlib.md5_hexdigest s) = false.
Proof.
  unfold Hashlib.md5_hexdigest, Hashlib.digest.
  destruct (Hashlib.digest_regs _) as [a b c d].
  destruct (bytes_le_range 4 a) as [Ha La], (bytes_le_range 4 b) as [Hb Lb],
    (bytes_le_range 4 c) as [Hc Lc], (bytes_le_range 4 d) as [Hd Ld].
  destruct (hex_of_bytes_shape
              (Hashlib.bytes_le 4 a ++ Hashlib.bytes_le 4 b
               ++ Hashlib.bytes_le 4 c ++ Hashlib.bytes_le 4 d)%list) as [Hl Hs].
  { repeat apply Forall_app_2; done. }
  split; [|done]. rewrite Hl, !length_app, La, Lb, Lc, Ld. done.
Qed.

End DigestFacts.

(** ** The sharded path *)

Section ShardFacts.

Lemma slice_from_start (n : nat) (s : string) : Py.slice 0 n s = Py.take n s.
Proof. unfold Py.slice. rewrite Nat.sub_0_r. by destruct s. Qed.

(** The pieces the code cuts the digest into are the specification's,
    each of them a directory name, and the digest is read back from
    their path. *)
Lemma shards_of_digest (h : string) :
  String.length h = 32%nat -> Py.contains "/" h = false ->
  ([Py.slice 0 2 h]
   ++ map (fun i => Py.slice i (i + 3) h) (Py.range 2 (String.length h) 3))%list
  = Spec.shards h
  /\ Forall Spec.plain (Spec.shards h)
  /\ (exists p0 ps, Spec.shards h = p0 :: ps
        /\ String.length p0 = 2%nat
        /\ Forall (fun p => String.length p = 3%nat) ps
        /\ String.concat "" (Spec.shards h) = h)
  /\ Spec.unshard (String.concat "/" (Spec.shards h)) = h
  /\ String.length (String.concat "/" (Spec.shards h)) = 42%nat.
Proof.
  intros Hlen Hc.
  assert (Hns : Forall (fun p => Py.contains "/" p = false)
                  ([Py.slice 0 2 h]
                   ++ map (fun i => Py.slice i (i + 3) h)
                        (Py.range 2 (String.length h) 3))%list).
  { apply Forall_app_2.
    - constructor; [|constructor].
      unfold Py.slice. by apply contains_take, contains_drop.
    - rewrite List.Forall_map. apply List.Forall_forall. intros i _.
      unfold Py.slice. by apply contains_take, contains_drop. }
  rewrite Hlen in *. clear Hc.
  do 32 (destruct h as [|? h];
         [simpl in Hlen; lia | simpl in Hlen; apply Nat.succ_inj in Hlen]).
  destruct h; [clear Hlen|simpl in Hlen; lia].
  change (Py.range 2 32 3) with [2; 5; 8; 11; 14; 17; 20; 23; 26; 29]%nat in *.
  cbn [map app Py.slice Py.take Py.drop Nat.sub Nat.add] in *.
  split; [reflexivity|].
  split.
  { cbn [Spec.shards Spec.threes Py.take Py.drop].
    apply Forall_and. split; [repeat constructor; discriminate|exact Hns]. }
  split.
  { do 2 eexists. split; [reflexivity|].
    split; [reflexivity|]. split; [repeat constructor|reflexivity]. }
  split; reflexivity.
Qed.

Lemma join_open (a b : string) :
  OsPath.open_ended a -> Py.startswith "/" b = false ->
  OsPath.join a b = a +:+ "/" +:+ b.
Proof.
  intros [Ha Hs] Hb. unfold OsPath.join. rewrite Hb, Hs.
  by destruct a.
Qed.

Lemma concat_startswith (p : string) (l : list string) :
  Spec.plain p -> Py.startswith "/" (String.concat "/" (p :: l)) = false.
Proof.
  intros [Hne Hc].
  assert (H : forall r, Py.startswith "/" (p +:+ r) = false).
  { intros r. destruct p as [|c p]; [done|].
    rewrite append_cons. cbn [Py.startswith Py.contains] in *.
    rewrite (Ascii.eqb_sym "/" c). by destruct (Ascii.eqb c "/"). }
  destruct l as [|x l].
  - rewrite <- (append_empty_r p). apply H.
  - apply H.
Qed.

Lemma ident_file_structure_shards (ident : string) :
  SimpleHTTPResolver._ident_file_structure ident
  = String.concat "/" (Spec.hash_components ident).
Proof.
  unfold SimpleHTTPResolver._ident_file_structure, Spec.hash_components.
  destruct (md5_hexdigest_shape (Urllib.quote_plus ident)) as [Hlen Hc].
  destruct (shards_of_digest _ Hlen Hc) as (Heq & Hplain & _).
  cbv zeta. rewrite Heq.
  destruct (fold_join _ Hplain) as [Hf _]. exact Hf.
Qed.

Lemma split_colon_length (ident : string) :
  (1 <? List.length (Py.split ":" ident))%nat = Py.contains ":" ident.
Proof.
  pose proof (split_last_rfind ":" ident) as H.
  destruct (Py.contains ":" ident).
  - destruct H as ((h & t & -> & Ht) & _). by destruct t.
  - by destruct H as (-> & _).
Qed.

End ShardFacts.

(** C2, as the code has it.  The cache sub-path ends in the hex digest
    of the MD5 of the percent-encoded identifier, cut into one piece of
    2 characters and pieces of 3, joined by slashes.  Before it comes
    the single component [http] when the identifier begins with
    [http:/] or [https:/]; else, when the identifier has a colon, its
    colon-delimited segments but the last, one component each provided
    each is a directory name (not empty, no slash); else nothing. *)
Theorem cache_subroot_structure :
  forall ident : string,
    let url_like :=
      Py.startswith "http:/" ident || Py.startswith "https:/" ident in
    let segments := Py.init_of (Py.split ":" ident) in
    let pieces := Spec.hash_components ident in
    (exists p0 ps,
        pieces = p0 :: ps
        /\ String.length p0 = 2%nat
        /\ Forall (fun p => String.length p = 3%nat) ps
        /\ String.concat "" pieces
           = Hashlib.md5_hexdigest (Urllib.quote_plus ident))
    /\ SimpleHTTPResolver._ident_file_structure ident = String.concat "/" pieces
    /\ (url_like = true ->
        SimpleHTTPResolver._cache_subroot ident
        = String.concat "/" ("http" :: pieces))
    /\ (url_like = false -> Py.contains ":" ident = true ->
        Forall Spec.plain segments ->
        SimpleHTTPResolver._cache_subroot ident
        = String.concat "/" (segments ++ pieces)%list)
    /\ (url_like = false -> Py.contains ":" ident = false ->
        SimpleHTTPResolver._cache_subroot ident = String.concat "/" pieces).
Proof.
  intros ident url_like segments pieces.
  destruct (md5_hexdigest_shape (Urllib.quote_plus ident)) as [Hlen Hc].
  destruct (shards_of_digest _ Hlen Hc)
    as (_ & Hplain & (p0 & ps & Hps & Hp0 & Hthree & Hcat) & _).
  fold (Spec.hash_components ident) in Hplain, Hps, Hcat.
  fold pieces in Hplain, Hps, Hcat.
  assert (Hstart : Py.startswith "/" (String.concat "/" pieces) = false).
  { rewrite Hps in *. apply concat_startswith. by inversion Hplain. }
  assert (Hne : pieces <> []) by (by rewrite Hps).
  split; [by exists p0, ps|].
  split; [apply ident_file_structure_shards|].
  unfold SimpleHTTPResolver._cache_subroot. cbv zeta.
  rewrite ident_file_structure_shards. fold pieces.
  rewrite !slice_from_start.
  rewrite (take_startswith "http:/" ident
             : String.eqb (Py.take 6 ident) "http:/" = _).
  rewrite (take_startswith "https:/" ident
             : String.eqb (Py.take 7 ident) "https:/" = _).
  rewrite split_colon_length. fold segments.
  replace (negb (Py.startswith "http:/" ident)
           && negb (Py.startswith "https:/" ident))
    with (negb url_like) by (unfold url_like; by rewrite negb_orb).
  fold url_like.
  split; [|split].
  - intros ->. cbn [negb andb].
    rewrite join_open; [|done|done].
    destruct pieces; done.
  - intros -> Hcolon Hseg. rewrite Hcolon. cbn [negb andb].
    destruct (fold_join segments Hseg) as [Hf Hopen].
    change (fold_left _ segments "") with (fold_left OsPath.join segments "").
    rewrite Hf.
    assert (Hsegne : segments <> []).
    { unfold segments, Py.init_of.
      pose proof (split_last_rfind ":" ident) as Hs. rewrite Hcolon in Hs.
      destruct Hs as ((h & t & -> & Ht) & _). by destruct t. }
    rewrite join_open; [|by apply Hopen|done].
    by rewrite concat_app.
  - intros -> ->. cbn [negb andb]. apply join_empty.
Qed.

Lemma cache_subroot_structure_witness :
  SimpleHTTPResolver._cache_subroot "https:/x"
  = "http/14/354/545/4e0/5d3/373/44a/f5b/053/622/ec4"
  /\ SimpleHTTPResolver._cache_subroot "site1:123"
     = "site1/ce/0a2/ba1/7f4/12a/609/9fa/b71/dde/f62/3f9"
  /\ SimpleHTTPResolver._cache_subroot "abc.jpg"
     = "75/639/d41/12b/b5a/157/b65/bb1/813/6cc/d4e".
Proof.
  split; [|split].
  - rewrite (proj1 (proj2 (proj2 (cache_subroot_structure "https:/x"))));
      vm_compute; reflexivity.
  - rewrite (proj1 (proj2 (proj2 (proj2 (cache_subroot_structure "site1:123"))))).
    + vm_compute; reflexivity.
    + vm_compute; reflexivity.
    + vm_compute; reflexivity.
    + change (Forall Spec.plain ["site1"]).
      constructor; [split; [discriminate|reflexivity] | constructor].
  - rewrite (proj2 (proj2 (proj2 (proj2 (cache_subroot_structure "abc.jpg")))));
      vm_compute; reflexivity.
Defined.

(** C2 as stated fails on two identifiers.  In ["a:/b:c"] the segment
    ["/b"] is absolute, and [join] drops the component ["a"] before it.
    And ["https:/x"], which is no [https://] URL, gets the component
    [http], not its segment ["https"]. *)
Lemma cache_subroot_not_as_specified :
  SimpleHTTPResolver._cache_subroot "a:/b:c"
  = "/b/a7/7d9/3fb/f50/5fc/24c/c73/2b2/f90/ec7/1a7"
  /\ SimpleHTTPResolver._cache_subroot "a:/b:c" <> Spec.cache_subroot "a:/b:c"
  /\ SimpleHTTPResolver._cache_subroot "https:/x"
     = "http/14/354/545/4e0/5d3/373/44a/f5b/053/622/ec4"
  /\ SimpleHTTPResolver._cache_subroot "https:/x" <> Spec.cache_subroot "https:/x".
Proof.
  split; [vm_compute; reflexivity|]. split; [vm_compute; discriminate|].
  split; [vm_compute; reflexivity|]. vm_compute; discriminate.
Qed.

(** ** Distinct identifiers, distinct paths *)

Section Collisions.

Lemma unquote_plus_quote_plus_char (c : ascii) (rest : string) :
  Urllib.unquote_plus (Urllib.quote_plus_char c +:+ rest)
  = String c (Urllib.unquote_plus rest).
Proof.
  destruct c as [[] [] [] [] [] [] [] []]; reflexivity.
Qed.

Lemma unquote_plus_quote_plus (s : string) :
  Urllib.unquote_plus (Urllib.quote_plus s) = s.
Proof.
  induction s as [|c s IH]; [done|].
  cbn [Urllib.quote_plus]. by rewrite unquote_plus_quote_plus_char, IH.
Qed.

Lemma quote_plus_inj (s t : string) :
  Urllib.quote_plus s = Urllib.quote_plus t -> s = t.
Proof.
  intros H. apply (f_equal Urllib.unquote_plus) in H.
  by rewrite !unquote_plus_quote_plus in H.
Qed.

(** The digest is read back from the end of a cache directory path. *)
Lemma cache_dir_path_digest (self : SimpleHTTPResolver.t) (i1 i2 : string) :
  SimpleHTTPResolver.cache_dir_path self i1
  = SimpleHTTPResolver.cache_dir_path self i2 ->
  Hashlib.md5_hexdigest (Urllib.quote_plus (Urllib.unquote i1))
  = Hashlib.md5_hexdigest (Urllib.quote_plus (Urllib.unquote i2)).
Proof.
  unfold SimpleHTTPResolver.cache_dir_path,
    SimpleHTTPResolver._cache_subroot. cbv zeta.
  rewrite !ident_file_structure_shards. unfold Spec.hash_components.
  set (h1 := Hashlib.md5_hexdigest (Urllib.quote_plus (Urllib.unquote i1))).
  set (h2 := Hashlib.md5_hexdigest (Urllib.quote_plus (Urllib.unquote i2))).
  destruct (md5_hexdigest_shape (Urllib.quote_plus (Urllib.unquote i1)))
    as [Hl1 Hc1].
  destruct (md5_hexdigest_shape (Urllib.quote_plus (Urllib.unquote i2)))
    as [Hl2 Hc2].
  destruct (shards_of_digest h1 Hl1 Hc1) as (_ & _ & _ & Hu1 & Hn1).
  destruct (shards_of_digest h2 Hl2 Hc2) as (_ & _ & _ & Hu2 & Hn2).
  match goal with
  | |- OsPath.join ?r (OsPath.join ?a ?x) = OsPath.join ?r (OsPath.join ?b ?y) -> _ =>
      destruct (join_tail a x) as [p1 ->]; destruct (join_tail b y) as [p2 ->];
      destruct (join_tail r (p1 +:+ x)) as [q1 ->];
      destruct (join_tail r (p2 +:+ y)) as [q2 ->]
  end.
  rewrite <- !append_assoc. intros H.
  apply append_same_tail in H; [|congruence].
  rewrite <- Hu1, <- Hu2. by rewrite H.
Qed.

End Collisions.

(** C3, as the code has it.  The cache directory path is a function of
    the identifier.  Two identifiers whose percent-decoded forms differ
    are hashed on different inputs, the re-encoded forms, and their
    paths differ unless MD5 gives both inputs the same digest. *)
Theorem cache_dir_path_collision_free :
  forall (self : SimpleHTTPResolver.t) (i1 i2 : string),
    (i1 = i2 ->
     SimpleHTTPResolver.cache_dir_path self i1
     = SimpleHTTPResolver.cache_dir_path self i2)
    /\ (Urllib.unquote i1 <> Urllib.unquote i2 ->
        Urllib.quote_plus (Urllib.unquote i1)
        <> Urllib.quote_plus (Urllib.unquote i2)
        /\ (Hashlib.md5_hexdigest (Urllib.quote_plus (Urllib.unquote i1))
            <> Hashlib.md5_hexdigest (Urllib.quote_plus (Urllib.unquote i2)) ->
            SimpleHTTPResolver.cache_dir_path self i1
            <> SimpleHTTPResolver.cache_dir_path self i2)).
Proof.
  intros self i1 i2. split; [by intros ->|].
  intros Hne. split.
  - intros H. by apply Hne, quote_plus_inj.
  - intros Hmd5 Hpath. by apply Hmd5, (cache_dir_path_digest self).
Qed.

Lemma cache_dir_path_collision_free_witness :
  SimpleHTTPResolver.cache_dir_path Examples.http "a.jpg"
  = SimpleHTTPResolver.cache_dir_path Examples.http "a.jpg"
  /\ Urllib.quote_plus (Urllib.unquote "a.jpg")
     <> Urllib.quote_plus (Urllib.unquote "b.jpg")
  /\ SimpleHTTPResolver.cache_dir_path Examples.http "a.jpg"
     <> SimpleHTTPResolver.cache_dir_path Examples.http "b.jpg".
Proof.
  split; [|split].
  - apply (proj1 (cache_dir_path_collision_free Examples.http "a.jpg" "a.jpg")).
    reflexivity.
  - apply (proj2 (cache_dir_path_collision_free Examples.http "a.jpg" "b.jpg")).
    vm_compute. discriminate.
  - apply (proj2 (cache_dir_path_collision_free Examples.http "a.jpg" "b.jpg")).
    + vm_compute. discriminate.
    + vm_compute. discriminate.
Defined.

(** C3 as stated fails: ["a%41"] and ["aA"] are distinct identifiers
    with distinct MD5 digests, and they decode to the same string, so
    they share one cache directory. *)
Lemma distinct_identifiers_one_path :
  "a%41" <> "aA"
  /\ Hashlib.md5_hexdigest "a%41" <> Hashlib.md5_hexdigest "aA"
  /\ SimpleHTTPResolver.cache_dir_path Examples.http "a%41"
     = SimpleHTTPResolver.cache_dir_path Examples.http "aA".
Proof.
  split; [discriminate|]. split; [vm_compute; discriminate|].
  vm_compute; reflexivity.
Qed.

(** ** The filesystem strategies, root by root *)

Section FirstMatch.
Context {FS : Type} `{!FileSystem FS}.

(** The loop over the roots stops at the first root that has the file,
    and reads only. *)
Lemma first_existing_search (self : SimpleFSResolver.t) (name : string)
    (roots : list string) (w : world FS) :
  (forall pre root post,
      roots = (pre ++ root :: post)%list ->
      Forall (fun r => fs_exists (disk w) (OsPath.join r name) = false) pre ->
      fs_exists (disk w) (OsPath.join root name) = true ->
      SimpleFSResolver.first_existing name roots w
      = (Return (Some (OsPath.join root name)), w))
  /\ (Forall (fun r => fs_exists (disk w) (OsPath.join r name) = false) roots ->
      SimpleFSResolver.first_existing name roots w = (Return None, w)).
Proof.
  induction roots as [|r roots [IHhit IHmiss]]; split.
  - intros [|? ?] ? ? H; discriminate H.
  - reflexivity.
  - intros pre root post Hroots Hpre Hroot.
    cbn [SimpleFSResolver.first_existing]. run.
    destruct pre as [|p pre]; injection Hroots as -> ->.
    + by rewrite Hroot.
    + inversion Hpre as [|? ? Hp Hpre']; subst. rewrite Hp.
      by apply (IHhit pre root post).
  - intros Hall. inversion Hall as [|? ? Hr Hrest]; subst.
    cbn [SimpleFSResolver.first_existing]. run. rewrite Hr. by apply IHmiss.
Qed.

Lemma resolve_with_search (self : SimpleFSResolver.t)
    (format_from_ident : string -> string) (ident : string) (w : world FS) :
  let name := Urllib.unquote ident in
  let misses r := fs_exists (disk w) (OsPath.join r name) = false in
  (forall pre root post,
      SimpleFSResolver.source_roots self = (pre ++ root :: post)%list ->
      Forall misses pre ->
      fs_exists (disk w) (OsPath.join root name) = true ->
      SimpleFSResolver.resolve_with self format_from_ident ident w
      = (Return (Some (OsPath.join root name), format_from_ident ident), w))
  /\ (Forall misses (SimpleFSResolver.source_roots self) ->
      SimpleFSResolver.resolve_with self format_from_ident ident w
      = (Raise (ResolverException 404
                  ("Source image not found for identifier: " +:+ ident +:+ ".")),
         w)).
Proof.
  intros name misses.
  destruct (first_existing_search self name (SimpleFSResolver.source_roots self) w)
    as [Hhit Hmiss].
  unfold SimpleFSResolver.resolve_with, SimpleFSResolver.is_resolvable,
    SimpleFSResolver.source_file_path, SimpleFSResolver.raise_404_for_ident.
  fold name. split.
  - intros pre root post Hroots Hpre Hroot.
    unfold bind. rewrite (Hhit pre root post Hroots Hpre Hroot).
    unfold ret. rewrite bool_decide_eq_false_2 by done. cbn [negb].
    by rewrite (Hhit pre root post Hroots Hpre Hroot).
  - intros Hall. unfold bind. rewrite (Hmiss Hall). unfold ret, raise.
    by rewrite bool_decide_eq_true_2.
Qed.

End FirstMatch.

(** X1. [SimpleFSResolver.resolve] and
    [ExtensionNormalizingFSResolver.resolve] search the source roots in
    order: the path returned is the percent-decoded identifier joined to
    the first root under which it exists, whatever later roots hold;
    when no root has it, the 404 exception is raised.  Either way the
    world is left as it was. *)
Theorem fs_resolve_first_root_wins :
  forall (FS : Type) (Hfs : FileSystem FS) (roots : list string)
         (aliases : gmap string string) (ident : string) (w : world FS),
    let name := Urllib.unquote ident in
    let misses r := fs_exists (disk w) (OsPath.join r name) = false in
    let simple := SimpleFSResolver.Make roots in
    let normalizing := ExtensionNormalizingFSResolver.Make simple aliases in
    (forall pre root post,
        roots = (pre ++ root :: post)%list ->
        Forall misses pre ->
        fs_exists (disk w) (OsPath.join root name) = true ->
        SimpleFSResolver.resolve simple ident w
        = (Return (Some (OsPath.join root name),
                   SimpleFSResolver.format_from_ident ident), w)
        /\ ExtensionNormalizingFSResolver.resolve normalizing ident w
           = (Return (Some (OsPath.join root name),
                      ExtensionNormalizingFSResolver.format_from_ident
                        normalizing ident), w))
    /\ (Forall misses roots ->
        SimpleFSResolver.resolve simple ident w
        = (Raise (ResolverException 404
                    ("Source image not found for identifier: " +:+ ident +:+ ".")),
           w)
        /\ ExtensionNormalizingFSResolver.resolve normalizing ident w
           = (Raise (ResolverException 404
                       ("Source image not found for identifier: " +:+ ident +:+ ".")),
              w)).
Proof.
  intros FS Hfs roots aliases ident w name misses simple normalizing.
  destruct (resolve_with_search simple SimpleFSResolver.format_from_ident ident w)
    as [Hhit Hmiss].
  destruct (resolve_with_search simple
              (ExtensionNormalizingFSResolver.format_from_ident normalizing)
              ident w) as [Hhit' Hmiss'].
  split.
  - intros pre root post Hroots Hpre Hroot. split.
    + by apply (Hhit pre root post).
    + by apply (Hhit' pre root post).
  - intros Hall. split; [by apply Hmiss|by apply Hmiss'].
Qed.

Lemma fs_resolve_first_root_wins_witness :
  (SimpleFSResolver.resolve Examples.simple_fs "a.jpg" Examples.world0
   = (Return (Some "/src/a.jpg", "jpg"), Examples.world0)
   /\ ExtensionNormalizingFSResolver.resolve Examples.normalizing "a.jpg"
        Examples.world0
      = (Return (Some "/src/a.jpg", "jpg"), Examples.world0))
  /\ (SimpleFSResolver.resolve Examples.simple_fs "b.jpg" Examples.world0
      = (Raise (ResolverException 404
                  "Source image not found for identifier: b.jpg."),
         Examples.world0)
      /\ ExtensionNormalizingFSResolver.resolve Examples.normalizing "b.jpg"
           Examples.world0
         = (Raise (ResolverException 404
                     "Source image not found for identifier: b.jpg."),
            Examples.world0)).
Proof.
  split.
  - assert (Hpre : Forall (fun r => fs_exists (disk Examples.world0)
                              (OsPath.join r (Urllib.unquote "a.jpg")) = false)
                     ["/a"])
      by (constructor; [vm_compute; reflexivity|constructor]).
    assert (Hroot : fs_exists (disk Examples.world0)
                      (OsPath.join "/src" (Urllib.unquote "a.jpg")) = true)
      by (vm_compute; reflexivity).
    exact (proj1 (fs_resolve_first_root_wins RefFS.disk RefFS.file_system
                    ["/a"; "/src"] {[ "jpeg" := "jpg" ]} "a.jpg" Examples.world0)
             ["/a"] "/src" [] eq_refl Hpre Hroot).
  - assert (Hall : Forall (fun r => fs_exists (disk Examples.world0)
                              (OsPath.join r (Urllib.unquote "b.jpg")) = false)
                     ["/a"; "/src"])
      by (repeat constructor; vm_compute; reflexivity).
    exact (proj2 (fs_resolve_first_root_wins RefFS.disk RefFS.file_system
                    ["/a"; "/src"] {[ "jpeg" := "jpg" ]} "b.jpg" Examples.world0)
             Hall).
Defined.

(** ** The format token of the filesystem strategies *)

Section Lowercase.

Lemma lower_char_idempotent (c : ascii) :
  Py.lower_char (Py.lower_char c) = Py.lower_char c.
Proof. destruct c as [[] [] [] [] [] [] [] []]; reflexivity. Qed.

Lemma lower_char_dot (c : ascii) :
  Ascii.eqb (Py.lower_char c) "." = Ascii.eqb c ".".
Proof. destruct c as [[] [] [] [] [] [] [] []]; reflexivity. Qed.

Lemma lower_idempotent (s : string) : Py.lower (Py.lower s) = Py.lower s.
Proof.
  induction s as [|c s IH]; [done|].
  cbn [Py.lower]. by rewrite lower_char_idempotent, IH.
Qed.

Lemma split_lower (s : string) :
  Py.split "." (Py.lower s) = map Py.lower (Py.split "." s).
Proof.
  induction s as [|c s IH]; [done|].
  cbn [Py.lower Py.split]. rewrite lower_char_dot, IH.
  destruct (Ascii.eqb c "."); [done|].
  by destruct (Py.split "." s).
Qed.

Lemma last_of_lower (l : list string) :
  Py.last_of (map Py.lower l) = Py.lower (Py.last_of l).
Proof.
  unfold Py.last_of. induction l as [|x l IH]; [done|].
  destruct l as [|y l]; [done|]. exact IH.
Qed.

End Lowercase.

(** X2. The format [SimpleFSResolver] derives is always lowercase, and
    it does not depend on the case of the identifier; the same holds
    for the alias lookup of [ExtensionNormalizingFSResolver], which
    reads the table at the case-folded extension and falls back on it. *)
Theorem fs_format_case_insensitive :
  forall (self : ExtensionNormalizingFSResolver.t) (ident : string),
    let extension := Py.lower (Py.last_of (Py.split "." ident)) in
    Py.is_lower (SimpleFSResolver.format_from_ident ident) = true
    /\ SimpleFSResolver.format_from_ident (Py.lower ident)
       = SimpleFSResolver.format_from_ident ident
    /\ ExtensionNormalizingFSResolver.format_from_ident self (Py.lower ident)
       = ExtensionNormalizingFSResolver.format_from_ident self ident
    /\ ExtensionNormalizingFSResolver.format_from_ident self ident
       = default extension
           (ExtensionNormalizingFSResolver.extension_map self !! extension).
Proof.
  intros self ident extension.
  assert (Hcase : SimpleFSResolver.format_from_ident (Py.lower ident)
                  = SimpleFSResolver.format_from_ident ident).
  { unfold SimpleFSResolver.format_from_ident.
    by rewrite split_lower, last_of_lower, lower_idempotent. }
  split; [|split; [exact Hcase|split]].
  - unfold Py.is_lower, SimpleFSResolver.format_from_ident.
    rewrite lower_idempotent. apply String.eqb_refl.
  - unfold ExtensionNormalizingFSResolver.format_from_ident. by rewrite Hcase.
  - unfold ExtensionNormalizingFSResolver.format_from_ident,
      SimpleFSResolver.format_from_ident. cbv zeta.
    by rewrite lower_idempotent.
Qed.

(** X3. A name without a dot has no extension to take: the filesystem
    strategies then return the whole of it as the format, slashes
    included: [SimpleFSResolver] the identifier lowercased,
    [SourceImageCachingResolver] the identifier as it is, and
    [IwmFSResolver] the source path as it is. *)
Theorem dotless_identifier_is_its_own_format :
  forall ident : string,
    Py.contains "." ident = false ->
    SimpleFSResolver.format_from_ident ident = Py.lower ident
    /\ SourceImageCachingResolver.format_from_ident ident = ident
    /\ IwmFSResolver.format_from_source_fp (Some ident) = Return ident.
Proof.
  intros ident Hdot.
  pose proof (split_last_rfind "." ident) as H. rewrite Hdot in H.
  destruct H as [Hsplit _].
  unfold SimpleFSResolver.format_from_ident,
    SourceImageCachingResolver.format_from_ident,
    IwmFSResolver.format_from_source_fp.
  by rewrite Hsplit.
Qed.

Lemma dotless_identifier_is_its_own_format_witness :
  SimpleFSResolver.format_from_ident "Scans/Page1" = "scans/page1"
  /\ SourceImageCachingResolver.format_from_ident "Scans/Page1" = "Scans/Page1"
  /\ IwmFSResolver.format_from_source_fp (Some "Scans/Page1")
     = Return "Scans/Page1".
Proof.
  exact (dotless_identifier_is_its_own_format "Scans/Page1" eq_refl).
Defined.

(** ** Absolute identifiers *)

Lemma join_absolute (a b : string) :
  Py.startswith "/" b = true -> OsPath.join a b = b.
Proof. intros H. unfold OsPath.join. by rewrite H. Qed.

(** X4. An identifier that decodes to an absolute path is looked up as
    that path, outside every configured root: [SimpleFSResolver]
    (with at least one root) returns the decoded identifier itself when
    it exists, and [SourceImageCachingResolver] takes it for both the
    source and its cached copy, so it is served in place and nothing is
    copied. *)
Theorem absolute_identifier_bypasses_roots :
  forall (FS : Type) (Hfs : FileSystem FS) (ident : string) (w : world FS),
    let name := Urllib.unquote ident in
    Py.startswith "/" name = true ->
    fs_exists (disk w) name = true ->
    (forall root roots,
        SimpleFSResolver.resolve (SimpleFSResolver.Make (root :: roots)) ident w
        = (Return (Some name, SimpleFSResolver.format_from_ident ident), w))
    /\ (forall self : SourceImageCachingResolver.t,
          SourceImageCachingResolver.source_file_path self ident = name
          /\ SourceImageCachingResolver.cache_file_path self ident = name
          /\ SourceImageCachingResolver.resolve self ident w
             = (Return (name, SourceImageCachingResolver.format_from_ident ident),
                w)).
Proof.
  intros FS Hfs ident w name Habs Hex. split.
  - intros root roots.
    destruct (resolve_with_search (SimpleFSResolver.Make (root :: roots))
                SimpleFSResolver.format_from_ident ident w) as [Hhit _].
    specialize (Hhit [] root roots eq_refl (List.Forall_nil _)).
    fold name in Hhit. rewrite (join_absolute root name Habs) in Hhit.
    by apply Hhit.
  - intros self.
    assert (Hsrc : SourceImageCachingResolver.source_file_path self ident = name)
      by apply (join_absolute _ _ Habs).
    assert (Hdst : SourceImageCachingResolver.cache_file_path self ident = name)
      by apply (join_absolute _ _ Habs).
    split; [done|]. split; [done|].
    unfold SourceImageCachingResolver.resolve,
      SourceImageCachingResolver.is_resolvable,
      SourceImageCachingResolver.in_cache. run.
    rewrite Hsrc, Hdst, Hex. cbn [negb]. by rewrite Hex.
Qed.

Lemma absolute_identifier_bypasses_roots_witness :
  SimpleFSResolver.resolve (SimpleFSResolver.Make ["/a"]) "%2Fsrc%2Fa.jpg"
    Examples.world0
  = (Return (Some "/src/a.jpg", "jpg"), Examples.world0)
  /\ SourceImageCachingResolver.resolve
       (SourceImageCachingResolver.Make "/cache" "/a") "%2Fsrc%2Fa.jpg"
       Examples.world0
     = (Return ("/src/a.jpg", "jpg"), Examples.world0).
Proof.
  assert (Habs : Py.startswith "/" (Urllib.unquote "%2Fsrc%2Fa.jpg") = true)
    by reflexivity.
  assert (Hex : fs_exists (disk Examples.world0) (Urllib.unquote "%2Fsrc%2Fa.jpg")
                = true) by (vm_compute; reflexivity).
  pose proof (absolute_identifier_bypasses_roots RefFS.disk RefFS.file_system
                "%2Fsrc%2Fa.jpg" Examples.world0 Habs Hex) as [Hfs Hcopy].
  split.
  - exact (Hfs "/a" []).
  - exact (proj2 (proj2 (Hcopy (SourceImageCachingResolver.Make "/cache" "/a")))).
Defined.

(** ** The probe of the HTTP strategy *)

(** X5. [SimpleHTTPResolver.is_resolvable], also as
    [TemplateHTTPResolver] inherits it, never changes the disk and
    sends at most one request: a [HEAD] when [head_resolvable] is set,
    else a streaming [GET], to the URL [_web_request_url] gives for the
    decoded identifier.  It sends none and answers at once when
    [ident_regex] does not match (false) or when the cache directory
    exists (true). *)
Theorem is_resolvable_probes_only :
  forall (FS : Type) (Hfs : FileSystem FS) (origin : request -> outcome)
         (self : SimpleHTTPResolver.t)
         (web_request_url : string -> result (option string * http_options))
         (ident : string) (w : world FS),
    let decoded := Urllib.unquote ident in
    let matches :=
      match SimpleHTTPResolver.ident_regex self with
      | Some regex_match => regex_match decoded
      | None => true
      end in
    let out :=
      SimpleHTTPResolver.is_resolvable_via origin self web_request_url ident w in
    disk (snd out) = disk w
    /\ (wire (snd out) = wire w
        \/ exists url options,
             web_request_url decoded = Return (Some url, options)
             /\ wire (snd out)
                = (wire w
                   ++ [Request
                         (if SimpleHTTPResolver.head_resolvable self
                          then HEAD else GET)
                         url [] options
                         (negb (SimpleHTTPResolver.head_resolvable self))])%list)
    /\ (matches = false -> out = (Return false, w))
    /\ (matches = true ->
        fs_exists (disk w) (SimpleHTTPResolver.cache_dir_path self ident) = true ->
        out = (Return true, w)).
Proof.
  intros FS Hfs origin self web_request_url ident w decoded matches out.
  subst out matches.
  unfold SimpleHTTPResolver.is_resolvable_via,
    SimpleHTTPResolver.cache_dir_path. cbv zeta. fold decoded.
  assert (Hprobe :
    forall probe : M FS bool,
      match SimpleHTTPResolver.ident_regex self with
      | Some regex_match =>
          if negb (regex_match decoded) then ret false else probe
      | None => probe
      end w
      = if match SimpleHTTPResolver.ident_regex self with
           | Some regex_match => regex_match decoded
           | None => true
           end
        then probe w else (Return false, w)).
  { intros probe. destruct (SimpleHTTPResolver.ident_regex self) as [re|];
      [by destruct (re decoded)|done]. }
  rewrite Hprobe. clear Hprobe.
  destruct (match SimpleHTTPResolver.ident_regex self with
            | Some regex_match => regex_match decoded
            | None => true
            end).
  2: { repeat split; auto. discriminate. }
  run. unfold send.
  destruct (fs_exists (disk w) _) eqn:Hhit.
  { repeat split; auto. discriminate. }
  destruct (web_request_url decoded) as [[[url|] options]|e];
    destruct (SimpleHTTPResolver.head_resolvable self); cbn [negb];
    try (repeat split; (auto || discriminate)).
  all: destruct (origin _) as [| |r]; cbn [fst snd disk wire is_MissingSchema];
    repeat split; auto; try discriminate;
    right; by exists url, options.
Qed.

Lemma is_resolvable_probes_only_witness :
  (let out := SimpleHTTPResolver.is_resolvable Examples.origin_ok
               (SimpleHTTPResolver.Make "http://origin/" "" None false false
                  None None None None true (Some (Py.startswith "img")) "/cache")
               "abc.jpg" Examples.world0 in
   out = (Return false, Examples.world0))
  /\ SimpleHTTPResolver.is_resolvable Examples.origin_ok Examples.http "abc.jpg"
       Examples.world_staged
     = (Return true, Examples.world_staged).
Proof.
  split.
  - exact (proj1 (proj2 (proj2
             (is_resolvable_probes_only RefFS.disk RefFS.file_system
                Examples.origin_ok
                (SimpleHTTPResolver.Make "http://origin/" "" None false false
                   None None None None true (Some (Py.startswith "img")) "/cache")
                (SimpleHTTPResolver._web_request_url
                   (SimpleHTTPResolver.Make "http://origin/" "" None false false
                      None None None None true (Some (Py.startswith "img"))
                      "/cache"))
                "abc.jpg" Examples.world0))) eq_refl).
  - assert (Hhit : fs_exists (disk Examples.world_staged)
                     (SimpleHTTPResolver.cache_dir_path Examples.http "abc.jpg")
                   = true) by (vm_compute; reflexivity).
    exact (proj2 (proj2 (proj2
             (is_resolvable_probes_only RefFS.disk RefFS.file_system
                Examples.origin_ok Examples.http
                (SimpleHTTPResolver._web_request_url Examples.http)
                "abc.jpg" Examples.world_staged))) eq_refl Hhit).
Defined.

(** X6. On a cache miss that [ident_regex] lets through,
    [is_resolvable] reports what the origin says: true for a response
    that is ok, false for one that is not and when [requests] refuses
    the URL for its missing scheme (and then nothing is sent).  A
    failure of the transport is not caught: it leaves [is_resolvable]
    as the exception [requests] raised, after the request went out. *)
Theorem is_resolvable_reports_origin :
  forall (FS : Type) (Hfs : FileSystem FS) (origin : request -> outcome)
         (self : SimpleHTTPResolver.t) (ident : string) (w : world FS),
    let decoded := Urllib.unquote ident in
    let url :=
      if (Py.startswith "http://" decoded || Py.startswith "https://" decoded)
         && SimpleHTTPResolver.uri_resolvable self
      then decoded
      else SimpleHTTPResolver.source_prefix self +:+ decoded
           +:+ SimpleHTTPResolver.source_suffix self in
    let probe :=
      Request (if SimpleHTTPResolver.head_resolvable self then HEAD else GET)
        url [] (SimpleHTTPResolver.request_options self)
        (negb (SimpleHTTPResolver.head_resolvable self)) in
    let sent := World (disk w) (wire w ++ [probe]) in
    match SimpleHTTPResolver.ident_regex self with
    | Some regex_match => regex_match decoded = true
    | None => True
    end ->
    fs_exists (disk w) (SimpleHTTPResolver.cache_dir_path self ident) = false ->
    SimpleHTTPResolver.is_resolvable origin self ident w
    = match origin probe with
      | Answers r => (Return (ok r), sent)
      | NoSchema => (Return false, w)
      | TransportFailure => (Raise RequestException, sent)
      end.
Proof.
  intros FS Hfs origin self ident w decoded url probe sent Hmatch Hmiss.
  subst sent probe url.
  unfold SimpleHTTPResolver.is_resolvable, SimpleHTTPResolver.is_resolvable_via,
    SimpleHTTPResolver._web_request_url, SimpleHTTPResolver.cache_dir_path in *.
  cbv zeta in *. fold decoded in Hmiss |- *.
  rewrite (take_startswith "http://" decoded
             : String.eqb (Py.take 7 decoded) "http://" = _).
  rewrite (take_startswith "https://" decoded
             : String.eqb (Py.take 8 decoded) "https://" = _).
  assert (Hgate :
    forall probe : M FS bool,
      match SimpleHTTPResolver.ident_regex self with
      | Some regex_match =>
          if negb (regex_match decoded) then ret false else probe
      | None => probe
      end w = probe w).
  { intros probe. destruct (SimpleHTTPResolver.ident_regex self) as [re|];
      [by rewrite Hmatch|done]. }
  rewrite Hgate. clear Hgate.
  run. unfold send. rewrite Hmiss.
  destruct (SimpleHTTPResolver.head_resolvable self); cbn [negb];
    by destruct (origin _).
Qed.

Lemma is_resolvable_reports_origin_witness :
  SimpleHTTPResolver.is_resolvable Examples.origin_ok Examples.http "abc.jpg"
    Examples.world0
  = (Return true,
     World Examples.disk0
       [Request GET "http://origin/abc.jpg" []
          (RequestOptions None None (Some true)) true]).
Proof.
  assert (Hmiss : fs_exists (disk Examples.world0)
                    (SimpleHTTPResolver.cache_dir_path Examples.http "abc.jpg")
                  = false) by (vm_compute; reflexivity).
  exact (is_resolvable_reports_origin RefFS.disk RefFS.file_system
           Examples.origin_ok Examples.http "abc.jpg" Examples.world0 I Hmiss).
Defined.

(** ** Population under the HTTP strategy *)

(** X7. [resolve] under the HTTP strategies sends at most one request,
    a [GET] that does not stream, to the URL [_web_request_url] gives
    for the decoded identifier; and when the cache directory exists it
    leaves the whole world as it was, whether it then finds a staged
    file or raises. *)
Theorem resolve_fetches_at_most_once :
  forall (FS : Type) (Hfs : FileSystem FS) (origin : request -> outcome)
         (media : gmap string string) (self : SimpleHTTPResolver.t)
         (web_request_url : string -> result (option string * http_options))
         (ident : string) (w : world FS),
    let decoded := Urllib.unquote ident in
    let out :=
      SimpleHTTPResolver.resolve_via origin media self web_request_url ident w in
    (wire (snd out) = wire w
     \/ exists url options,
          web_request_url decoded = Return (Some url, options)
          /\ wire (snd out)
             = (wire w ++ [Request GET url [] options false])%list)
    /\ (fs_exists (disk w) (SimpleHTTPResolver.cache_dir_path self ident) = true ->
        snd out = w).
Proof.
  intros FS Hfs origin media self web_request_url ident w decoded out.
  pose (serve :=
    (cached_file_path <- SimpleHTTPResolver.cached_object self ident;
     format <- lift (SimpleHTTPResolver.format_from_ident self
                       cached_file_path None);
     ret (cached_file_path, format)) : M FS (string * string)).
  assert (Hserve : forall v : world FS, snd (serve v) = v).
  { intros v. unfold serve, SimpleHTTPResolver.cached_object,
      SimpleHTTPResolver.cached_files_for_ident,
      SimpleHTTPResolver.raise_404_for_ident. run.
    destruct (fs_exists (disk v) _); [destruct (fs_glob (disk v) _) as [|f ?]|];
      try done.
    by destruct (SimpleHTTPResolver.format_from_ident self f None). }
  assert (Hout : out
    = if fs_exists (disk w) (SimpleHTTPResolver.cache_dir_path self ident)
      then serve w
      else match SimpleHTTPResolver.copy_to_cache_via origin media self
                   web_request_url ident w with
           | (Return _, w1) => serve w1
           | (Raise e, w1) => (Raise e, w1)
           end).
  { subst out. unfold SimpleHTTPResolver.resolve_via, SimpleHTTPResolver.in_cache.
    unfold bind at 1. unfold exists_ at 1.
    destruct (fs_exists (disk w) _); cbn [negb]; unfold bind at 1.
    - reflexivity.
    - by destruct (SimpleHTTPResolver.copy_to_cache_via origin media self
                     web_request_url ident w) as [[[]|e] w1]. }
  rewrite Hout. clear Hout out.
  destruct (fs_exists (disk w) _) eqn:Hhit.
  { rewrite Hserve. split; [by left|done]. }
  split; [|discriminate].
  destruct (SimpleHTTPResolver.copy_to_cache_via origin media self
              web_request_url ident w) as [[[]|e] w1] eqn:Hcopy.
  - rewrite Hserve.
    revert Hcopy. unfold SimpleHTTPResolver.copy_to_cache_via. fold decoded.
    run. unfold send.
    destruct (web_request_url decoded) as [[[url|] options]|e];
      try (by intros [=]).
    destruct (origin _) as [| |r]; try (by intros [=]).
    destruct (ok r); cbn [negb]; [|by intros [=]].
    destruct (SimpleHTTPResolver.cache_file_extension media self decoded r)
      as [ext|e]; [|by intros [=]].
    destruct (fs_makedirs _ _); cbn [is_MissingSchema];
      destruct (fs_write _ _ _); intros [= <-]; right; by exists url, options.
  - cbn [snd]. revert Hcopy.
    unfold SimpleHTTPResolver.copy_to_cache_via. fold decoded.
    run. unfold send.
    destruct (web_request_url decoded) as [[[url|] options]|e'];
      try (intros [= <- <-]; by left).
    destruct (origin _) as [| |r]; cbn [is_MissingSchema];
      try (intros [= <- <-]; (by left) || (right; by exists url, options)).
    destruct (ok r); cbn [negb];
      [|intros [= <- <-]; right; by exists url, options].
    destruct (SimpleHTTPResolver.cache_file_extension media self decoded r)
      as [ext|e']; [|intros [= <- <-]; right; by exists url, options].
    destruct (fs_makedirs _ _); cbn [is_MissingSchema];
      destruct (fs_write _ _ _); intros [= <- <-];
      right; by exists url, options.
Qed.

Lemma resolve_fetches_at_most_once_witness :
  snd (SimpleHTTPResolver.resolve Examples.origin_ok Examples.media_types
         Examples.http "abc.jpg" Examples.world_hollow)
  = Examples.world_hollow.
Proof.
  assert (Hhit : fs_exists (disk Examples.world_hollow)
                   (SimpleHTTPResolver.cache_dir_path Examples.http "abc.jpg")
                 = true) by (vm_compute; reflexivity).
  exact (proj2 (resolve_fetches_at_most_once RefFS.disk RefFS.file_system
                  Examples.origin_ok Examples.media_types Examples.http
                  (SimpleHTTPResolver._web_request_url Examples.http)
                  "abc.jpg" Examples.world_hollow) Hhit).
Defined.

(** X8. When [SimpleHTTPResolver.resolve] misses the cache and the
    fetch does not bring a usable image, the disk is left untouched, so
    the next call fetches again.  A URL without a scheme and a response
    that is not ok raise the 404 exception, whose message names the
    identifier and the status code and not the URL; so does a response
    whose format cannot be told.  A failure of the transport escapes as
    the exception [requests] raised. *)
Theorem failed_fetch_stages_nothing :
  forall (FS : Type) (Hfs : FileSystem FS) (origin : request -> outcome)
         (media : gmap string string) (self : SimpleHTTPResolver.t)
         (ident : string) (w : world FS),
    let decoded := Urllib.unquote ident in
    let url :=
      if (Py.startswith "http://" decoded || Py.startswith "https://" decoded)
         && SimpleHTTPResolver.uri_resolvable self
      then decoded
      else SimpleHTTPResolver.source_prefix self +:+ decoded
           +:+ SimpleHTTPResolver.source_suffix self in
    let fetch :=
      Request GET url [] (SimpleHTTPResolver.request_options self) false in
    let sent := World (disk w) (wire w ++ [fetch]) in
    let out := SimpleHTTPResolver.resolve origin media self ident w in
    fs_exists (disk w) (SimpleHTTPResolver.cache_dir_path self ident) = false ->
    (origin fetch = NoSchema ->
     out = (Raise (ResolverException 404
                     ("Bad URL request made for identifier: " +:+ decoded +:+ ".")),
            w))
    /\ (origin fetch = TransportFailure -> out = (Raise RequestException, sent))
    /\ (forall r, origin fetch = Answers r -> ok r = false ->
        out = (Raise (ResolverException 404
                        ("Source image not found for identifier: " +:+ decoded
                         +:+ ". Status code returned: "
                         +:+ SimpleHTTPResolver.str_of_nat (status_code r))),
               sent))
    /\ (forall r e, origin fetch = Answers r -> ok r = true ->
        SimpleHTTPResolver.cache_file_extension media self decoded r = Raise e ->
        out = (Raise e, sent)).
Proof.
  intros FS Hfs origin media self ident w decoded url fetch sent out Hmiss.
  subst out sent fetch url.
  unfold SimpleHTTPResolver.resolve, SimpleHTTPResolver.resolve_via,
    SimpleHTTPResolver.in_cache, SimpleHTTPResolver.copy_to_cache_via,
    SimpleHTTPResolver._web_request_url.
  cbv zeta. fold decoded.
  rewrite (take_startswith "http://" decoded
             : String.eqb (Py.take 7 decoded) "http://" = _).
  rewrite (take_startswith "https://" decoded
             : String.eqb (Py.take 8 decoded) "https://" = _).
  run. unfold send. rewrite Hmiss. cbn [negb].
  repeat split.
  - by intros ->.
  - by intros ->.
  - intros r -> Hok. by rewrite Hok.
  - intros r e -> Hok Hext. by rewrite Hok, Hext.
Qed.

Lemma failed_fetch_stages_nothing_witness :
  let refuse (r : request) := Answers (Response false 403 ∅ "" None) in
  SimpleHTTPResolver.resolve refuse Examples.media_types Examples.http
    "abc.jpg" Examples.world0
  = (Raise (ResolverException 404
              "Source image not found for identifier: abc.jpg. Status code returned: 403"),
     World Examples.disk0
       [Request GET "http://origin/abc.jpg" []
          (RequestOptions None None (Some true)) false]).
Proof.
  intros refuse.
  assert (Hmiss : fs_exists (disk Examples.world0)
                    (SimpleHTTPResolver.cache_dir_path Examples.http "abc.jpg")
                  = false) by (vm_compute; reflexivity).
  exact (proj1 (proj2 (proj2
           (failed_fetch_stages_nothing RefFS.disk RefFS.file_system refuse
              Examples.media_types Examples.http "abc.jpg" Examples.world0
              Hmiss)))
           (Response false 403 ∅ "" None) eq_refl eq_refl).
Defined.

(** X9. In [SimpleHTTPResolver.copy_to_cache] a directory that already
    exists is no error: once the response is ok and its extension is
    told, the body is written to [loris_cache.<extension>] in the cache
    directory of the decoded identifier, and the call succeeds exactly
    when that write does. *)
Theorem http_population_into_existing_directory :
  forall (FS : Type) (Hfs : FileSystem FS) (Hlaws : FileSystemLaws FS)
         (origin : request -> outcome) (media : gmap string string)
         (self : SimpleHTTPResolver.t) (ident : string) (w : world FS)
         (r : response) (extension : string),
    let decoded := Urllib.unquote ident in
    let url :=
      if (Py.startswith "http://" decoded || Py.startswith "https://" decoded)
         && SimpleHTTPResolver.uri_resolvable self
      then decoded
      else SimpleHTTPResolver.source_prefix self +:+ decoded
           +:+ SimpleHTTPResolver.source_suffix self in
    let fetch :=
      Request GET url [] (SimpleHTTPResolver.request_options self) false in
    let local_fp :=
      OsPath.join (SimpleHTTPResolver.cache_dir_path self decoded)
        ("loris_cache." +:+ extension) in
    origin fetch = Answers r ->
    ok r = true ->
    SimpleHTTPResolver.cache_file_extension media self decoded r
    = Return extension ->
    fs_exists (disk w) (OsPath.dirname local_fp) = true ->
    SimpleHTTPResolver.copy_to_cache origin media self ident w
    = match fs_write (disk w) local_fp (content r) with
      | Some d => (Return tt, World d (wire w ++ [fetch]))
      | None => (Raise IOError, World (disk w) (wire w ++ [fetch]))
      end.
Proof.
  intros FS Hfs Hlaws origin media self ident w r extension decoded url fetch
    local_fp Hanswer Hok Hext Hdir.
  subst local_fp fetch url.
  unfold SimpleHTTPResolver.copy_to_cache, SimpleHTTPResolver.copy_to_cache_via,
    SimpleHTTPResolver._web_request_url.
  cbv zeta. fold decoded.
  rewrite (take_startswith "http://" decoded
             : String.eqb (Py.take 7 decoded) "http://" = _).
  rewrite (take_startswith "https://" decoded
             : String.eqb (Py.take 8 decoded) "https://" = _).
  run. unfold send. rewrite Hanswer, Hok. cbn [negb]. rewrite Hext.
  cbn [disk wire]. rewrite (makedirs_existing _ _ Hdir).
  cbn [disk wire]. by destruct (fs_write _ _ _).
Qed.

Lemma http_population_into_existing_directory_witness :
  fst (SimpleHTTPResolver.copy_to_cache Examples.origin_ok Examples.media_types
         Examples.http "abc.jpg" Examples.world_hollow)
  = Return tt.
Proof.
  assert (Hdir : fs_exists (disk Examples.world_hollow)
                   (OsPath.dirname
                      (OsPath.join
                         (SimpleHTTPResolver.cache_dir_path Examples.http
                            (Urllib.unquote "abc.jpg"))
                         ("loris_cache." +:+ "jpg"))) = true)
    by (vm_compute; reflexivity).
  rewrite (http_population_into_existing_directory RefFS.disk RefFS.file_system
             RefFSFacts.laws Examples.origin_ok Examples.media_types
             Examples.http "abc.jpg" Examples.world_hollow
             (Response true 200 ∅ "JFIF" None) "jpg"
             eq_refl eq_refl eq_refl Hdir).
  vm_compute; reflexivity.
Defined.

(** ** The pair the HTTP strategy returns *)

Section Extension.
Variable c : ascii.

(** The last field of a split holds no separator, and the string ends
    in the separator followed by it. *)
Lemma split_last_suffix (s : string) :
  Py.contains c (Py.last_of (Py.split c s)) = false
  /\ (Py.contains c s = true ->
      exists stem, s = stem +:+ String c (Py.last_of (Py.split c s))).
Proof.
  unfold Py.last_of.
  induction s as [|d s' [IHlast IHstem]]; [done|].
  pose proof (split_last_rfind c s') as Hshape.
  cbn [Py.split Py.contains].
  destruct (Py.contains c s') eqn:Hc.
  - destruct Hshape as ((h & t & Hs & Ht) & _).
    destruct (IHstem eq_refl) as [stem Hstem].
    rewrite Hs in *. destruct t as [|t0 t1]; [done|].
    assert (Hl1 : forall x y, List.last (x :: y :: t0 :: t1) ""
                              = List.last (t0 :: t1) "") by done.
    assert (Hl2 : forall y, List.last (y :: t0 :: t1) ""
                            = List.last (t0 :: t1) "") by done.
    rewrite Hl2 in IHlast, Hstem.
    replace (if Ascii.eqb d c then true else true) with true
      by (by destruct (Ascii.eqb d c)).
    destruct (Ascii.eqb d c); rewrite ?Hl1, ?Hl2.
    + split; [exact IHlast|]. intros _. exists (String d stem).
      rewrite append_cons. by rewrite <- Hstem.
    + split; [exact IHlast|]. intros _. exists (String d stem).
      rewrite append_cons. by rewrite <- Hstem.
  - destruct Hshape as (Hs & _). rewrite Hs in *.
    destruct (Ascii.eqb d c) eqn:Hd.
    + split; [exact Hc|]. intros _. exists "".
      apply Ascii.eqb_eq in Hd. by subst.
    + split; [|done]. cbn [List.last Py.contains]. by rewrite Hd.
Qed.

End Extension.

(** X10. What a successful [resolve] of the HTTP strategies returns as
    format is [default_format] when one is configured; otherwise it is
    the extension of the path it returns: the path ends in a dot
    followed by the format, which holds no dot and at most four
    characters. *)
Theorem resolved_format_is_path_extension :
  forall (FS : Type) (Hfs : FileSystem FS) (origin : request -> outcome)
         (media : gmap string string) (self : SimpleHTTPResolver.t)
         (web_request_url : string -> result (option string * http_options))
         (ident : string) (w w' : world FS) (path format : string),
    SimpleHTTPResolver.resolve_via origin media self web_request_url ident w
    = (Return (path, format), w') ->
    match SimpleHTTPResolver.default_format self with
    | Some configured => format = configured
    | None =>
        (exists stem, path = stem +:+ "." +:+ format)
        /\ Py.contains "." format = false
        /\ (String.length format <= 4)%nat
    end.
Proof.
  intros FS Hfs origin media self web_request_url ident w w' path format.
  unfold SimpleHTTPResolver.resolve_via. unfold bind at 1.
  destruct (SimpleHTTPResolver.in_cache self ident w) as [[cached|e] w0];
    [|by intros [=]].
  unfold bind at 1.
  match goal with
  | |- context [(if negb cached then ?a else ?b) w0] =>
      destruct ((if negb cached then a else b) w0) as [[[]|e] w1];
        [|by intros [=]]
  end.
  unfold bind at 1.
  destruct (SimpleHTTPResolver.cached_object self ident w1) as [[f|e] w2];
    [|by intros [=]].
  unfold bind, lift, ret, SimpleHTTPResolver.format_from_ident.
  destruct (SimpleHTTPResolver.default_format self) as [configured|].
  { by intros [= <- <- <-]. }
  rewrite rfind_contains.
  destruct (Py.contains "." f) eqn:Hdot; [|by intros [=]].
  destruct (Py.len f - Py.rfind "." f <=? 5) eqn:Hlen; [|by intros [=]].
  cbn [andb]. intros [= <- <- <-].
  destruct (split_last_suffix "." f) as [Hnodot Hstem].
  pose proof (split_last_rfind "." f) as Hshape. rewrite Hdot in Hshape.
  destruct Hshape as (_ & _ & Hdiff).
  split; [by apply Hstem|]. split; [done|].
  unfold Py.len in *. lia.
Qed.

Lemma resolved_format_is_path_extension_witness :
  (exists stem,
      "/cache/75/639/d41/12b/b5a/157/b65/bb1/813/6cc/d4e/loris_cache.jpg"
      = stem +:+ "." +:+ "jpg")
  /\ Py.contains "." "jpg" = false
  /\ (String.length "jpg" <= 4)%nat.
Proof.
  assert (Hrun : SimpleHTTPResolver.resolve_via Examples.origin_ok
                   Examples.media_types Examples.http
                   (SimpleHTTPResolver._web_request_url Examples.http)
                   "abc.jpg" Examples.world0
                 = (Return ("/cache/75/639/d41/12b/b5a/157/b65/bb1/813/6cc/d4e/loris_cache.jpg",
                            "jpg"), Examples.world_staged))
    by (apply injective_projections; [vm_compute; reflexivity | reflexivity]).
  exact (resolved_format_is_path_extension RefFS.disk RefFS.file_system
           Examples.origin_ok Examples.media_types Examples.http
           (SimpleHTTPResolver._web_request_url Examples.http)
           "abc.jpg" Examples.world0 Examples.world_staged _ _ Hrun).
Defined.

(** ** The identifier pattern *)

(** X11. [ident_regex] guards [is_resolvable] alone.  For an identifier
    it does not match, [is_resolvable] answers false at once, yet
    [resolve] never consults it: it runs as it would with no pattern
    configured, cache lookup and fetch included. *)
Theorem ident_regex_guards_probe_only :
  forall (FS : Type) (Hfs : FileSystem FS) (origin : request -> outcome)
         (media : gmap string string) (self : SimpleHTTPResolver.t)
         (regex_match : string -> bool) (ident : string) (w : world FS),
    let unguarded :=
      SimpleHTTPResolver.Make
        (SimpleHTTPResolver.source_prefix self)
        (SimpleHTTPResolver.source_suffix self)
        (SimpleHTTPResolver.default_format self)
        (SimpleHTTPResolver.head_resolvable self)
        (SimpleHTTPResolver.uri_resolvable self)
        (SimpleHTTPResolver.user self) (SimpleHTTPResolver.pw self)
        (SimpleHTTPResolver.cert self) (SimpleHTTPResolver.key self)
        (SimpleHTTPResolver.ssl_check self) None
        (SimpleHTTPResolver.cache_root self) in
    SimpleHTTPResolver.ident_regex self = Some regex_match ->
    regex_match (Urllib.unquote ident) = false ->
    SimpleHTTPResolver.is_resolvable origin self ident w = (Return false, w)
    /\ SimpleHTTPResolver.resolve origin media self ident w
       = SimpleHTTPResolver.resolve origin media unguarded ident w.
Proof.
  intros FS Hfs origin media self regex_match ident w unguarded Hre Hno.
  split.
  - unfold SimpleHTTPResolver.is_resolvable,
      SimpleHTTPResolver.is_resolvable_via. cbv zeta.
    by rewrite Hre, Hno.
  - subst unguarded. by destruct self.
Qed.

Lemma ident_regex_guards_probe_only_witness :
  let guarded :=
    SimpleHTTPResolver.Make "http://origin/" "" None false false
      None None None None true (Some (Py.startswith "img")) "/cache" in
  SimpleHTTPResolver.is_resolvable Examples.origin_ok guarded "abc.jpg"
    Examples.world0 = (Return false, Examples.world0)
  /\ fst (SimpleHTTPResolver.resolve Examples.origin_ok Examples.media_types
            guarded "abc.jpg" Examples.world0)
     = Return ("/cache/75/639/d41/12b/b5a/157/b65/bb1/813/6cc/d4e/loris_cache.jpg",
               "jpg").
Proof.
  intros guarded.
  destruct (ident_regex_guards_probe_only RefFS.disk RefFS.file_system
              Examples.origin_ok Examples.media_types guarded
              (Py.startswith "img") "abc.jpg" Examples.world0 eq_refl eq_refl)
    as [Hprobe Hresolve].
  split; [exact Hprobe|].
  rewrite Hresolve. vm_compute; reflexivity.
Defined.

(** X12. After a successful [resolve] under the HTTP strategies the
    cache directory of the identifier exists, so an [is_resolvable]
    that follows answers true without sending anything, unless
    [ident_regex] rejects the identifier. *)
Theorem resolved_then_resolvable_offline :
  forall (FS : Type) (Hfs : FileSystem FS) (origin : request -> outcome)
         (media : gmap string string) (self : SimpleHTTPResolver.t)
         (web_request_url : string -> result (option string * http_options))
         (ident : string) (w w' : world FS) (r : string * string),
    SimpleHTTPResolver.resolve_via origin media self web_request_url ident w
    = (Return r, w') ->
    match SimpleHTTPResolver.ident_regex self with
    | Some regex_match => regex_match (Urllib.unquote ident) = true
    | None => True
    end ->
    SimpleHTTPResolver.in_cache self ident w' = (Return true, w')
    /\ SimpleHTTPResolver.is_resolvable_via origin self web_request_url ident w'
       = (Return true, w').
Proof.
  intros FS Hfs origin media self web_request_url ident w w' r Hrun Hmatch.
  assert (Hdir : fs_exists (disk w')
                   (SimpleHTTPResolver.cache_dir_path self ident) = true).
  { revert Hrun. unfold SimpleHTTPResolver.resolve_via. unfold bind at 1.
    destruct (SimpleHTTPResolver.in_cache self ident w) as [[cached|e] w0];
      [|by intros [=]].
    unfold bind at 1.
    match goal with
    | |- context [(if negb cached then ?a else ?b) w0] =>
        destruct ((if negb cached then a else b) w0) as [[[]|e] w1];
          [|by intros [=]]
    end.
    unfold bind at 1.
    destruct (SimpleHTTPResolver.cached_object self ident w1) as [[f|e] w2] eqn:Hobj;
      [|by intros [=]].
    destruct (http_serve_reads self ident w1 w2 f Hobj) as [-> Hex].
    unfold bind, lift, ret.
    destruct (SimpleHTTPResolver.format_from_ident self f None);
      by intros [= <- <-]. }
  split.
  - unfold SimpleHTTPResolver.in_cache, exists_. by rewrite Hdir.
  - unfold SimpleHTTPResolver.is_resolvable_via. cbv zeta.
    unfold SimpleHTTPResolver.cache_dir_path in Hdir. cbv zeta in Hdir.
    destruct (SimpleHTTPResolver.ident_regex self) as [re|];
      [rewrite Hmatch; cbn [negb]|]; run; by rewrite Hdir.
Qed.

Lemma resolved_then_resolvable_offline_witness :
  SimpleHTTPResolver.in_cache Examples.http "abc.jpg" Examples.world_staged
  = (Return true, Examples.world_staged)
  /\ SimpleHTTPResolver.is_resolvable Examples.origin_ok Examples.http
       "abc.jpg" Examples.world_staged
     = (Return true, Examples.world_staged).
Proof.
  assert (Hrun : SimpleHTTPResolver.resolve_via Examples.origin_ok
                   Examples.media_types Examples.http
                   (SimpleHTTPResolver._web_request_url Examples.http)
                   "abc.jpg" Examples.world0
                 = (Return ("/cache/75/639/d41/12b/b5a/157/b65/bb1/813/6cc/d4e/loris_cache.jpg",
                            "jpg"), Examples.world_staged))
    by (apply injective_projections; [vm_compute; reflexivity | reflexivity]).
  exact (resolved_then_resolvable_offline RefFS.disk RefFS.file_system
           Examples.origin_ok Examples.media_types Examples.http
           (SimpleHTTPResolver._web_request_url Examples.http)
           "abc.jpg" Examples.world0 Examples.world_staged _ Hrun I).
Defined.

(** ** The cache directory of an identifier without name space *)

(** X13. For an identifier whose decoded form has no colon, or begins
    with [http:/] or [https:/], no character of the identifier reaches
    the cache path: under a cache root that does not end in a slash the
    cache directory is the root, a slash, for URLs the component
    [http], and the sharded digest, 42 characters from which the digest
    is read back.  Its length is that of the root plus 43, or plus 48
    for URLs, whatever the identifier. *)
Theorem cache_dir_path_digest_only :
  forall (self : SimpleHTTPResolver.t) (ident : string),
    let decoded := Urllib.unquote ident in
    let root := SimpleHTTPResolver.cache_root self in
    let url_like :=
      Py.startswith "http:/" decoded || Py.startswith "https:/" decoded in
    let shard := String.concat "/" (Spec.hash_components decoded) in
    OsPath.open_ended root ->
    String.length shard = 42%nat
    /\ Spec.unshard shard = Hashlib.md5_hexdigest (Urllib.quote_plus decoded)
    /\ (url_like = true ->
        SimpleHTTPResolver.cache_dir_path self ident
        = root +:+ "/" +:+ "http" +:+ "/" +:+ shard
        /\ String.length (SimpleHTTPResolver.cache_dir_path self ident)
           = (String.length root + 48)%nat)
    /\ (url_like = false -> Py.contains ":" decoded = false ->
        SimpleHTTPResolver.cache_dir_path self ident = root +:+ "/" +:+ shard
        /\ String.length (SimpleHTTPResolver.cache_dir_path self ident)
           = (String.length root + 43)%nat).
Proof.
  intros self ident decoded root url_like shard Hroot.
  destruct (md5_hexdigest_shape (Urllib.quote_plus decoded)) as [Hlen Hc].
  destruct (shards_of_digest _ Hlen Hc)
    as (_ & Hplain & (p0 & ps & Hps & _) & Hun & Hn).
  fold (Spec.hash_components decoded) in Hplain, Hps, Hun, Hn.
  fold shard in Hun, Hn.
  assert (Hstart : Py.startswith "/" shard = false).
  { unfold shard. rewrite Hps in *. apply concat_startswith.
    by inversion Hplain. }
  split; [exact Hn|]. split; [exact Hun|].
  unfold SimpleHTTPResolver.cache_dir_path, SimpleHTTPResolver._cache_subroot.
  cbv zeta. fold decoded root.
  rewrite ident_file_structure_shards. fold shard.
  rewrite !slice_from_start.
  rewrite (take_startswith "http:/" decoded
             : String.eqb (Py.take 6 decoded) "http:/" = _).
  rewrite (take_startswith "https:/" decoded
             : String.eqb (Py.take 7 decoded) "https:/" = _).
  rewrite split_colon_length.
  replace (negb (Py.startswith "http:/" decoded)
           && negb (Py.startswith "https:/" decoded))
    with (negb url_like) by (unfold url_like; by rewrite negb_orb).
  fold url_like.
  split.
  - intros ->. cbn [negb andb].
    rewrite (join_open "http" shard); [|done|done].
    rewrite (join_open root); [|done|done].
    split; [done|]. rewrite !append_length, Hn. cbn [String.length]. lia.
  - intros -> ->. cbn [negb andb]. rewrite join_empty.
    rewrite (join_open root); [|done|done].
    split; [done|]. rewrite !append_length, Hn. cbn [String.length]. lia.
Qed.

Lemma cache_dir_path_digest_only_witness :
  SimpleHTTPResolver.cache_dir_path Examples.http "https:%2F%2Forigin%2Fa.jpg"
  = "/cache" +:+ "/" +:+ "http" +:+ "/"
    +:+ String.concat "/" (Spec.hash_components "https://origin/a.jpg")
  /\ SimpleHTTPResolver.cache_dir_path Examples.http "..%2F..%2Fetc%2Fpasswd"
     = "/cache" +:+ "/"
       +:+ String.concat "/" (Spec.hash_components "../../etc/passwd").
Proof.
  assert (Hroot : OsPath.open_ended (SimpleHTTPResolver.cache_root Examples.http))
    by (split; [discriminate|reflexivity]).
  split.
  - exact (proj1 (proj1 (proj2 (proj2
             (cache_dir_path_digest_only Examples.http
                "https:%2F%2Forigin%2Fa.jpg" Hroot))) eq_refl)).
  - exact (proj1 (proj2 (proj2 (proj2
             (cache_dir_path_digest_only Examples.http
                "..%2F..%2Fetc%2Fpasswd" Hroot))) eq_refl eq_refl)).
Defined.

(** ** Template dispatch, when the prefix is known *)

Section Patterns.

Lemma str_mod_literal (c rest : string) (args : list string) :
  Py.contains "%" c = false ->
  str_mod (c +:+ rest) args
  = result_bind (str_mod rest args) (fun r => Return (c +:+ r)).
Proof.
  induction c as [|x c IH]; intros Hc.
  - change ("" +:+ rest) with rest. destruct (str_mod rest args); reflexivity.
  - cbn [Py.contains] in Hc. rewrite append_cons. cbn [str_mod].
    destruct (Ascii.eqb x "%"); [done|].
    rewrite (IH Hc). destruct (str_mod rest args); reflexivity.
Qed.

Lemma str_mod_place (rest : string) (args : list string) :
  str_mod ("%s" +:+ rest) args
  = match args with
    | a :: args' =>
        result_bind (str_mod rest args') (fun r => Return (a +:+ r))
    | [] => Raise TypeError
    end.
Proof. reflexivity. Qed.

(** A pattern whose only conversions are [%s]: as many arguments as
    places are needed, neither fewer nor more. *)
Lemma str_mod_fill (chunks : list string) :
  forall args,
    chunks <> [] ->
    Forall (fun c => Py.contains "%" c = false) chunks ->
    str_mod (String.concat "%s" chunks) args
    = if (List.length args =? List.length chunks - 1)%nat
      then Return (Shape.fill chunks args)
      else Raise TypeError.
Proof.
  induction chunks as [|c cs IH]; intros args Hne Hall; [done|].
  inversion Hall as [|? ? Hc Hcs]; subst.
  destruct cs as [|c' cs'].
  - cbn [String.concat Shape.fill List.length Nat.sub].
    rewrite <- (append_empty_r c) at 1. rewrite (str_mod_literal c "" args Hc).
    destruct args; cbn [str_mod result_bind List.length Nat.eqb];
      [by rewrite append_empty_r|done].
  - change (String.concat "%s" (c :: c' :: cs'))
      with (c +:+ "%s" +:+ String.concat "%s" (c' :: cs')).
    rewrite (str_mod_literal c _ args Hc), str_mod_place.
    destruct args as [|a args']; [done|].
    rewrite (IH args') by done.
    cbn [List.length Nat.sub Nat.eqb Shape.fill].
    rewrite Nat.sub_0_r.
    by destruct (List.length args' =? List.length cs')%nat.
Qed.

Lemma split1_at_first (c : ascii) (p r : string) :
  Py.contains c p = false ->
  Py.split1 c (p +:+ String c r) = [p; r]
  /\ Py.contains c (p +:+ String c r) = true.
Proof.
  induction p as [|x p IH]; intros Hp.
  - change ("" +:+ String c r) with (String c r).
    cbn [Py.split1 Py.contains]. by rewrite Ascii.eqb_refl.
  - cbn [Py.contains] in Hp. rewrite append_cons.
    cbn [Py.split1 Py.contains].
    destruct (Ascii.eqb x c); [done|].
    destruct (IH Hp) as [-> ->]. done.
Qed.

End Patterns.

Lemma template_url_fill :
  forall (self : TemplateHTTPResolver.t) (prefix rest : string)
         (conf : TemplateHTTPResolver.template) (chunks : list string),
    let generic :=
      SimpleHTTPResolver.request_options (TemplateHTTPResolver.super self) in
    let fields :=
      match TemplateHTTPResolver.delimiter self with
      | Some delimiter => Py.split_scan delimiter O rest
      | None => [rest]
      end in
    let options :=
      RequestOptions
        (match TemplateHTTPResolver.t_cert conf, TemplateHTTPResolver.t_key conf with
         | Some c, Some k => Some (c, k)
         | _, _ => opt_cert generic
         end)
        (match TemplateHTTPResolver.t_user conf, TemplateHTTPResolver.t_pw conf with
         | Some u, Some p => Some (u, p)
         | _, _ => opt_auth generic
         end)
        (match TemplateHTTPResolver.t_ssl_check conf with
         | Some v => Some v
         | None => opt_verify generic
         end) in
    Py.contains ":" prefix = false ->
    TemplateHTTPResolver.templates self !! prefix = Some conf ->
    TemplateHTTPResolver.t_url conf = Some (String.concat "%s" chunks) ->
    chunks <> [] ->
    Forall (fun c => Py.contains "%" c = false) chunks ->
    TemplateHTTPResolver.delimiter self <> Some "" ->
    TemplateHTTPResolver._web_request_url self (prefix +:+ ":" +:+ rest)
    = if (List.length fields =? List.length chunks - 1)%nat
      then Return (Some (Shape.fill chunks fields), options)
      else Raise TypeError.
Proof.
  intros self prefix rest conf chunks generic fields options
    Hprefix Hconf Hurl Hne Hchunks Hdelim.
  unfold TemplateHTTPResolver._web_request_url.
  destruct (split1_at_first ":" prefix rest Hprefix) as [Hsplit Hcolon].
  change (prefix +:+ ":" +:+ rest) with (prefix +:+ String ":" rest).
  rewrite Hcolon, Hsplit. cbn [negb].
  assert (Hfill : TemplateHTTPResolver.template_url self prefix fields
                  = if (List.length fields =? List.length chunks - 1)%nat
                    then Return (Some (Shape.fill chunks fields))
                    else Raise TypeError).
  { unfold TemplateHTTPResolver.template_url. rewrite Hconf, Hurl.
    rewrite (str_mod_fill chunks fields Hne Hchunks).
    by destruct (List.length fields =? List.length chunks - 1)%nat. }
  assert (Hurl' :
    match TemplateHTTPResolver.delimiter self with
    | Some delimiter =>
        match Py.split_str delimiter rest with
        | Some ident_components =>
            TemplateHTTPResolver.template_url self prefix ident_components
        | None => Raise ValueError
        end
    | None => TemplateHTTPResolver.template_url self prefix [rest]
    end = TemplateHTTPResolver.template_url self prefix fields).
  { subst fields. destruct (TemplateHTTPResolver.delimiter self) as [[|d0 d]|];
      done. }
  rewrite Hurl', Hfill.
  destruct (List.length fields =? List.length chunks - 1)%nat; [|done].
  cbn [result_bind]. rewrite Hconf. subst options generic.
  destruct (TemplateHTTPResolver.t_cert conf), (TemplateHTTPResolver.t_key conf),
    (TemplateHTTPResolver.t_user conf), (TemplateHTTPResolver.t_pw conf),
    (TemplateHTTPResolver.t_ssl_check conf); reflexivity.
Qed.

(** X14. [TemplateHTTPResolver._web_request_url] cuts the identifier at
    its first colon only, and fills the pattern of the template named
    by the prefix with the rest: as one field, or as the fields the
    configured delimiter cuts it into.  For a pattern whose only
    conversions are [%s], the URL is the pattern with the fields in its
    places when there are as many fields as places; with fewer or more
    the call raises [TypeError].  The options are those of
    [request_options], a [cert]/[key] pair, a [user]/[pw] pair and an
    [ssl_check] of the template each taking the place of the generic
    one. *)
Theorem template_url_assembly :
  forall (self : TemplateHTTPResolver.t) (prefix rest : string)
         (conf : TemplateHTTPResolver.template) (chunks : list string),
    let generic :=
      SimpleHTTPResolver.request_options (TemplateHTTPResolver.super self) in
    let fields :=
      match TemplateHTTPResolver.delimiter self with
      | Some delimiter => Py.split_scan delimiter O rest
      | None => [rest]
      end in
    let options :=
      RequestOptions
        (match TemplateHTTPResolver.t_cert conf, TemplateHTTPResolver.t_key conf with
         | Some c, Some k => Some (c, k)
         | _, _ => opt_cert generic
         end)
        (match TemplateHTTPResolver.t_user conf, TemplateHTTPResolver.t_pw conf with
         | Some u, Some p => Some (u, p)
         | _, _ => opt_auth generic
         end)
        (match TemplateHTTPResolver.t_ssl_check conf with
         | Some v => Some v
         | None => opt_verify generic
         end) in
    Py.contains ":" prefix = false ->
    TemplateHTTPResolver.templates self !! prefix = Some conf ->
    TemplateHTTPResolver.t_url conf = Some (String.concat "%s" chunks) ->
    chunks <> [] ->
    Forall (fun c => Py.contains "%" c = false) chunks ->
    TemplateHTTPResolver.delimiter self <> Some "" ->
    TemplateHTTPResolver._web_request_url self (prefix +:+ ":" +:+ rest)
    = if (List.length fields =? List.length chunks - 1)%nat
      then Return (Some (Shape.fill chunks fields), options)
      else Raise TypeError.
Proof.
  intros self prefix rest conf chunks generic fields options.
  apply template_url_fill.
Qed.

Lemma template_url_assembly_witness :
  TemplateHTTPResolver._web_request_url Examples.templated "site1:a:b"
  = Return (Some "http://example/a:b", RequestOptions None None (Some true)).
Proof.
  exact (template_url_assembly Examples.templated "site1" "a:b"
           (TemplateHTTPResolver.Template (Some "http://example/%s")
              None None None None None)
           ["http://example/"; ""] eq_refl eq_refl eq_refl
           ltac:(discriminate)
           ltac:(repeat constructor)
           ltac:(discriminate)).
Defined.

(** X15. When the fields of an identifier do not match the places of
    its template's pattern in number, that [TypeError] is no 404: on a
    cache miss both [is_resolvable] and [resolve] of
    [TemplateHTTPResolver] raise it, before anything is sent or
    written. *)
Theorem template_field_mismatch_raises_TypeError :
  forall (FS : Type) (Hfs : FileSystem FS) (origin : request -> outcome)
         (media : gmap string string) (self : TemplateHTTPResolver.t)
         (ident prefix rest : string)
         (conf : TemplateHTTPResolver.template) (chunks : list string)
         (w : world FS),
    let fields :=
      match TemplateHTTPResolver.delimiter self with
      | Some delimiter => Py.split_scan delimiter O rest
      | None => [rest]
      end in
    Urllib.unquote ident = prefix +:+ ":" +:+ rest ->
    Py.contains ":" prefix = false ->
    TemplateHTTPResolver.templates self !! prefix = Some conf ->
    TemplateHTTPResolver.t_url conf = Some (String.concat "%s" chunks) ->
    chunks <> [] ->
    Forall (fun c => Py.contains "%" c = false) chunks ->
    TemplateHTTPResolver.delimiter self <> Some "" ->
    List.length fields <> (List.length chunks - 1)%nat ->
    match SimpleHTTPResolver.ident_regex (TemplateHTTPResolver.super self) with
    | Some regex_match => regex_match (Urllib.unquote ident) = true
    | None => True
    end ->
    fs_exists (disk w)
      (SimpleHTTPResolver.cache_dir_path (TemplateHTTPResolver.super self) ident)
    = false ->
    TemplateHTTPResolver.is_resolvable origin self ident w = (Raise TypeError, w)
    /\ TemplateHTTPResolver.resolve origin media self ident w
       = (Raise TypeError, w)
    /\ is_not_found TypeError = false.
Proof.
  intros FS Hfs origin media self ident prefix rest conf chunks w fields
    Hdecoded Hprefix Hconf Hurl Hne Hchunks Hdelim Hcount Hmatch Hmiss.
  assert (Hraise : TemplateHTTPResolver._web_request_url self
                     (Urllib.unquote ident) = Raise TypeError).
  { rewrite Hdecoded.
    rewrite (template_url_fill self prefix rest conf chunks) by done.
    fold fields. by rewrite (proj2 (Nat.eqb_neq _ _) Hcount). }
  unfold SimpleHTTPResolver.cache_dir_path in Hmiss. cbv zeta in Hmiss.
  split; [|split; [|done]].
  - unfold TemplateHTTPResolver.is_resolvable,
      SimpleHTTPResolver.is_resolvable_via. cbv zeta.
    destruct (SimpleHTTPResolver.ident_regex _) as [re|];
      [rewrite Hmatch; cbn [negb]|]; run; by rewrite Hmiss, Hraise.
  - unfold TemplateHTTPResolver.resolve, SimpleHTTPResolver.resolve_via,
      SimpleHTTPResolver.in_cache, SimpleHTTPResolver.copy_to_cache_via,
      SimpleHTTPResolver.cache_dir_path.
    run. cbv zeta. rewrite Hmiss. cbn [negb]. by rewrite Hraise.
Qed.

Lemma template_field_mismatch_raises_TypeError_witness :
  let two_places :=
    TemplateHTTPResolver.Make (TemplateHTTPResolver.super Examples.templated)
      {[ "site2" := TemplateHTTPResolver.Template
                      (Some "http://example/%s/%s") None None None None None ]}
      (Some "-") in
  TemplateHTTPResolver.is_resolvable Examples.origin_ok two_places
    "site2:a-b-c" Examples.world0 = (Raise TypeError, Examples.world0)
  /\ TemplateHTTPResolver.resolve Examples.origin_ok Examples.media_types
       two_places "site2:a-b-c" Examples.world0
     = (Raise TypeError, Examples.world0)
  /\ is_not_found TypeError = false.
Proof.
  intros two_places.
  assert (Hmiss : fs_exists (disk Examples.world0)
                    (SimpleHTTPResolver.cache_dir_path
                       (TemplateHTTPResolver.super two_places) "site2:a-b-c")
                  = false) by (vm_compute; reflexivity).
  exact (template_field_mismatch_raises_TypeError RefFS.disk RefFS.file_system
           Examples.origin_ok Examples.media_types two_places
           "site2:a-b-c" "site2" "a-b-c"
           (TemplateHTTPResolver.Template (Some "http://example/%s/%s")
              None None None None None)
           ["http://example/"; "/"; ""] Examples.world0
           eq_refl eq_refl eq_refl eq_refl
           ltac:(discriminate) ltac:(repeat constructor) ltac:(discriminate)
           ltac:(vm_compute; lia) I Hmiss).
Defined.

(** ** The index-backed strategy, step by step *)

Section IndexLookup.
Context {FS : Type} `{!FileSystem FS}.
Variable origin : request -> outcome.

Lemma iwm_first_existing_search (fpath : string) (roots : list string)
    (w : world FS) :
  (forall pre root post,
      roots = (pre ++ root :: post)%list ->
      Forall (fun r => fs_exists (disk w) (OsPath.join r fpath) = false) pre ->
      fs_exists (disk w) (OsPath.join root fpath) = true ->
      IwmFSResolver.first_existing fpath roots w
      = (Return (Some (OsPath.join root fpath)), w))
  /\ (Forall (fun r => fs_exists (disk w) (OsPath.join r fpath) = false) roots ->
      IwmFSResolver.first_existing fpath roots w = (Return None, w)).
Proof.
  induction roots as [|r roots [IHhit IHmiss]]; split.
  - intros [|? ?] ? ? H; discriminate H.
  - reflexivity.
  - intros pre root post Hroots Hpre Hroot.
    cbn [IwmFSResolver.first_existing]. run.
    destruct pre as [|p pre]; injection Hroots as -> ->.
    + by rewrite Hroot.
    + inversion Hpre as [|? ? Hp Hpre']; subst. rewrite Hp.
      by apply (IHhit pre root post).
  - intros Hall. inversion Hall as [|? ? Hr Hrest]; subst.
    cbn [IwmFSResolver.first_existing]. run. rewrite Hr. by apply IHmiss.
Qed.

Lemma iwm_source_file_path_run (self : IwmFSResolver.t) (ident : string)
    (object_id media_id size : string) (r : response) (v : solr_response)
    (found : option string) (w : world FS) :
  Py.split "/" (Urllib.unquote ident) = [object_id; media_id; size] ->
  origin (Shape.iwm_query object_id media_id size) = Answers r ->
  json r = Some v ->
  IwmFSResolver.parse_json_val v (size +:+ "MediaLocation") media_id
  = Return found ->
  let sent := World (disk w) (wire w ++ [Shape.iwm_query object_id media_id size]) in
  IwmFSResolver.source_file_path origin self ident w
  = match found with
    | Some fpath =>
        IwmFSResolver.first_existing fpath (IwmFSResolver.source_roots self) sent
    | None => (Return None, sent)
    end.
Proof.
  intros Hsplit Hanswer Hjson Hparse sent.
  unfold IwmFSResolver.source_file_path. rewrite Hsplit.
  unfold bind, lift, send, ret. fold (Shape.iwm_query object_id media_id size).
  rewrite Hanswer, Hjson, Hparse. by destruct found.
Qed.

End IndexLookup.

(** X16. [IwmFSResolver.resolve] raises the 404 exception, after its
    one query and without touching the disk, when the index answers
    with no usable record (in particular when it counts none found) and
    when the path the index gave exists under none of the source
    roots. *)
Theorem iwm_unlocated_not_found :
  forall (FS : Type) (Hfs : FileSystem FS) (origin : request -> outcome)
         (self : IwmFSResolver.t) (ident object_id media_id size : string)
         (r : response) (v : solr_response) (found : option string)
         (w : world FS),
    let query := Shape.iwm_query object_id media_id size in
    Py.split "/" (Urllib.unquote ident) = [object_id; media_id; size] ->
    origin query = Answers r ->
    json r = Some v ->
    (numFound v <= 0 ->
     IwmFSResolver.parse_json_val v (size +:+ "MediaLocation") media_id
     = Return None)
    /\ (IwmFSResolver.parse_json_val v (size +:+ "MediaLocation") media_id
        = Return found ->
        match found with
        | Some fpath =>
            Forall (fun root => fs_exists (disk w) (OsPath.join root fpath) = false)
              (IwmFSResolver.source_roots self)
        | None => True
        end ->
        IwmFSResolver.resolve origin self ident w
        = (Raise (ResolverException 404
                    ("Source image not found for identifier: " +:+ ident +:+ ".")),
           World (disk w) (wire w ++ [query]))).
Proof.
  intros FS Hfs origin self ident object_id media_id size r v found w query
    Hsplit Hanswer Hjson.
  split.
  - intros Hnone. unfold IwmFSResolver.parse_json_val.
    by rewrite (proj2 (Z.ltb_ge 0 (numFound v)) Hnone).
  - intros Hparse Hfound.
    unfold IwmFSResolver.resolve, IwmFSResolver.is_resolvable,
      IwmFSResolver.raise_404_for_ident.
    unfold bind at 1 2.
    rewrite (iwm_source_file_path_run origin self ident object_id media_id size
               r v found w Hsplit Hanswer Hjson Hparse).
    destruct found as [fpath|].
    + destruct (iwm_first_existing_search fpath (IwmFSResolver.source_roots self)
                  (World (disk w) (wire w ++ [Shape.iwm_query object_id media_id size])))
        as [_ Hmiss].
      rewrite (Hmiss Hfound). reflexivity.
    + reflexivity.
Qed.

Lemma iwm_unlocated_not_found_witness :
  let empty_index (r : request) :=
    Answers (Response true 200 ∅ "" (Some (SolrResponse 0 []))) in
  IwmFSResolver.resolve empty_index Examples.iwm "object-1/media-1/large"
    Examples.world0
  = (Raise (ResolverException 404
              "Source image not found for identifier: object-1/media-1/large."),
     World Examples.disk0 [Shape.iwm_query "object-1" "media-1" "large"]).
Proof.
  intros empty_index.
  exact (proj2 (iwm_unlocated_not_found RefFS.disk RefFS.file_system empty_index
                  Examples.iwm "object-1/media-1/large" "object-1" "media-1"
                  "large" (Response true 200 ∅ "" (Some (SolrResponse 0 [])))
                  (SolrResponse 0 []) None Examples.world0
                  eq_refl eq_refl eq_refl) eq_refl I).
Defined.

(** X17. A successful [IwmFSResolver.resolve] asks the index twice, the
    same query once to probe and once to resolve; it returns the path
    the index gave joined to the first source root that has it, and
    takes the format from that path, not from the identifier. *)
Theorem iwm_resolve_queries_twice :
  forall (FS : Type) (Hfs : FileSystem FS) (origin : request -> outcome)
         (ident object_id media_id size fpath : string)
         (r : response) (v : solr_response)
         (pre : list string) (root : string) (post : list string)
         (w : world FS),
    let self := IwmFSResolver.Make (pre ++ root :: post) in
    let query := Shape.iwm_query object_id media_id size in
    let source_fp := OsPath.join root fpath in
    Py.split "/" (Urllib.unquote ident) = [object_id; media_id; size] ->
    origin query = Answers r ->
    json r = Some v ->
    IwmFSResolver.parse_json_val v (size +:+ "MediaLocation") media_id
    = Return (Some fpath) ->
    Forall (fun root => fs_exists (disk w) (OsPath.join root fpath) = false) pre ->
    fs_exists (disk w) source_fp = true ->
    IwmFSResolver.resolve origin self ident w
    = (Return (Some source_fp, Py.last_of (Py.split "." source_fp)),
       World (disk w) (wire w ++ [query; query])).
Proof.
  intros FS Hfs origin ident object_id media_id size fpath r v pre root post w
    self query source_fp Hsplit Hanswer Hjson Hparse Hpre Hroot.
  subst self query source_fp.
  assert (Hrun : forall u : world FS,
    disk u = disk w ->
    IwmFSResolver.source_file_path origin
      (IwmFSResolver.Make (pre ++ root :: post)) ident u
    = (Return (Some (OsPath.join root fpath)),
       World (disk u) (wire u ++ [Shape.iwm_query object_id media_id size]))).
  { intros u Hu.
    rewrite (iwm_source_file_path_run origin _ ident object_id media_id size
               r v (Some fpath) u Hsplit Hanswer Hjson Hparse).
    destruct (iwm_first_existing_search fpath (pre ++ root :: post)
                (World (disk u) (wire u ++ [Shape.iwm_query object_id media_id size])))
      as [Hhit _].
    apply (Hhit pre root post eq_refl); cbn [disk]; by rewrite Hu. }
  unfold IwmFSResolver.resolve, IwmFSResolver.is_resolvable.
  unfold bind at 1 2. rewrite (Hrun w eq_refl).
  unfold ret at 1. rewrite bool_decide_eq_false_2 by done. cbn [negb].
  unfold bind at 1. unfold ret at 1.
  unfold bind at 1.
  rewrite (Hrun (World (disk w)
                   (wire w ++ [Shape.iwm_query object_id media_id size]))
             eq_refl).
  unfold bind, lift, ret. cbn [IwmFSResolver.format_from_source_fp disk wire].
  by rewrite <- app_assoc.
Qed.

Lemma iwm_resolve_queries_twice_witness :
  IwmFSResolver.resolve Examples.origin_index
    (IwmFSResolver.Make ["/a"; "/src"]) "object-1/media-1/large" Examples.world0
  = (Return (Some "/src/a.jpg", "jpg"),
     World Examples.disk0
       [Shape.iwm_query "object-1" "media-1" "large";
        Shape.iwm_query "object-1" "media-1" "large"]).
Proof.
  assert (Hpre : Forall (fun root => fs_exists (disk Examples.world0)
                                       (OsPath.join root "a.jpg") = false)
                   ["/a"])
    by (constructor; [vm_compute; reflexivity|constructor]).
  assert (Hroot : fs_exists (disk Examples.world0) (OsPath.join "/src" "a.jpg")
                  = true) by (vm_compute; reflexivity).
  exact (iwm_resolve_queries_twice RefFS.disk RefFS.file_system
           Examples.origin_index "object-1/media-1/large"
           "object-1" "media-1" "large" "a.jpg"
           (Response true 200 ∅ ""
              (Some (SolrResponse 1
                       [ {[ "mediaReference" := ["media-1"];
                            "largeMediaLocation" := ["a.jpg"] ]} ])))
           (SolrResponse 1
              [ {[ "mediaReference" := ["media-1"];
                   "largeMediaLocation" := ["a.jpg"] ]} ])
           ["/a"] "/src" [] Examples.world0
           eq_refl eq_refl eq_refl ltac:(vm_compute; reflexivity) Hpre Hroot).
Defined.

Section Positions.

Lemma scan_references_index (media_reference media_locations : list string)
    (media_id : string) :
  forall counter,
    IwmFSResolver.scan_references media_reference media_locations
      media_id counter
    = match Shape.index_of media_id media_reference with
      | Some i =>
          Some (match nth_error media_locations (counter + i) with
                | Some location => Return location
                | None => Raise IndexError
                end)
      | None => None
      end.
Proof.
  induction media_reference as [|reference rest IH]; intros counter; [done|].
  cbn [IwmFSResolver.scan_references Shape.index_of].
  destruct (String.eqb reference media_id).
  - by rewrite Nat.add_0_r.
  - rewrite IH. destruct (Shape.index_of media_id rest); [|done].
    by rewrite Nat.add_succ_r.
Qed.

End Positions.

(** X18. [IwmFSResolver.parse_json_val] pairs the two lists of a record
    by position.  When the index counts a record found, the first
    document must hold both the references and the locations of the
    size asked for, else [KeyError] is raised, matched or not.  If the
    media id is among its references, the answer is the location at the
    position of its first occurrence, and [IndexError] when the
    locations stop short of it; if it is not, the search goes on with
    the documents that follow. *)
Theorem iwm_locations_paired_by_position :
  forall (count : Z) (doc : gmap string (list string))
         (others : list (gmap string (list string)))
         (image_size_id media_id : string),
    let parse docs :=
      IwmFSResolver.parse_json_val (SolrResponse count docs)
        image_size_id media_id in
    0 < count ->
    (doc !! "mediaReference" = None \/ doc !! image_size_id = None ->
     parse (doc :: others) = Raise KeyError)
    /\ (forall media_reference media_locations,
          doc !! "mediaReference" = Some media_reference ->
          doc !! image_size_id = Some media_locations ->
          match Shape.index_of media_id media_reference with
          | Some i =>
              nth_error media_reference i = Some media_id
              /\ parse (doc :: others)
                 = match nth_error media_locations i with
                   | Some location => Return (Some location)
                   | None => Raise IndexError
                   end
          | None => parse (doc :: others) = parse others
          end).
Proof.
  intros count doc others image_size_id media_id parse Hcount.
  subst parse. unfold IwmFSResolver.parse_json_val. cbn [numFound docs].
  rewrite (proj2 (Z.ltb_lt 0 count) Hcount).
  cbn [IwmFSResolver.scan_docs]. split.
  - intros [-> | Hsize]; [done|].
    destruct (doc !! "mediaReference"); [by rewrite Hsize|done].
  - intros media_reference media_locations -> ->.
    rewrite scan_references_index. cbn [Nat.add].
    destruct (Shape.index_of media_id media_reference) as [i|] eqn:Hi; [|done].
    split.
    + clear - Hi. revert i Hi.
      induction media_reference as [|x l IH]; intros i Hi; [done|].
      cbn [Shape.index_of] in Hi.
      destruct (String.eqb x media_id) eqn:Hx.
      * injection Hi as <-. apply String.eqb_eq in Hx. by subst.
      * destruct (Shape.index_of media_id l) as [j|]; [|done].
        injection Hi as <-. by apply IH.
    + by destruct (nth_error media_locations i).
Qed.

Lemma iwm_locations_paired_by_position_witness :
  IwmFSResolver.parse_json_val
    (SolrResponse 1
       [ {[ "mediaReference" := ["media-0"; "media-1"];
            "largeMediaLocation" := ["x.jpg"; "a.jpg"] ]} ])
    "largeMediaLocation" "media-1"
  = Return (Some "a.jpg")
  /\ IwmFSResolver.parse_json_val
       (SolrResponse 1 [ {[ "mediaReference" := ["media-1"] ]} ])
       "largeMediaLocation" "media-0"
     = Raise KeyError.
Proof.
  split.
  - exact (proj2 (proj2 (iwm_locations_paired_by_position 1
             {[ "mediaReference" := ["media-0"; "media-1"];
                "largeMediaLocation" := ["x.jpg"; "a.jpg"] ]} []
             "largeMediaLocation" "media-1" ltac:(lia))
             ["media-0"; "media-1"] ["x.jpg"; "a.jpg"] eq_refl eq_refl)).
  - exact (proj1 (iwm_locations_paired_by_position 1
             {[ "mediaReference" := ["media-1"] ]} []
             "largeMediaLocation" "media-0" ltac:(lia))
             (or_intror eq_refl)).
Defined.

(** ** Construction *)

Section Construction.

(** What the loop over the listed names leaves in the table. *)
Lemma collect_fold (sections : gmap string TemplateHTTPResolver.template)
    (names : list string) :
  forall (table : gmap string TemplateHTTPResolver.template) (name : string),
    fold_left (TemplateHTTPResolver.collect sections) names table !! name
    = if decide (name ∈ map Py.strip names)
      then match sections !! name with
           | Some conf => Some conf
           | None => table !! name
           end
      else table !! name.
Proof.
  induction names as [|n names IH]; intros table name.
  - cbn [fold_left map]. rewrite decide_False; [done|]. by intros ?%elem_of_nil.
  - cbn [fold_left map]. rewrite IH.
    unfold TemplateHTTPResolver.collect. cbv zeta.
    destruct (decide (name ∈ map Py.strip names)) as [Hin|Hout].
    + rewrite decide_True by (by apply list_elem_of_further).
      destruct (sections !! name) as [conf|] eqn:Hname; [done|].
      destruct (sections !! Py.strip n) as [conf'|] eqn:Hn; [|done].
      rewrite lookup_insert_ne; [done|]. intros <-. congruence.
    + destruct (decide (name = Py.strip n)) as [->|Hne].
      * rewrite decide_True by apply list_elem_of_here.
        destruct (sections !! Py.strip n) as [conf'|] eqn:Hn; [|done].
        by rewrite lookup_insert_eq.
      * rewrite decide_False by (by intros [?|?]%elem_of_cons).
        destruct (sections !! Py.strip n) as [conf'|]; [|done].
        by rewrite lookup_insert_ne.
Qed.

End Construction.

(** X19. Construction fails fast, and only on [cache_root] or the
    prefix: [SimpleHTTPResolver.__init__] raises the exception with
    status 500 when [cache_root] is not configured, and when neither a
    true [uri_resolvable] nor a non-empty [source_prefix] is; otherwise
    it succeeds.  [TemplateHTTPResolver.__init__] forces
    [uri_resolvable], so it fails for a missing [cache_root] alone, and
    its table holds exactly the names that are listed in [templates],
    white space around them dropped, and have a subsection: a listed
    name without one is passed over. *)
Theorem construction_fails_fast :
  forall (config : TemplateHTTPResolver.config),
    let base := TemplateHTTPResolver.cfg_super config in
    let prefix := default "" (SimpleHTTPResolver.cfg_source_prefix base) in
    let listed :=
      map Py.strip
        (Py.split "," (default "" (TemplateHTTPResolver.cfg_templates config))) in
    (SimpleHTTPResolver.cfg_cache_root base = None ->
     (exists message,
         SimpleHTTPResolver.__init__ base = Raise (ResolverException 500 message))
     /\ (exists message,
           TemplateHTTPResolver.__init__ config
           = Raise (ResolverException 500 message)))
    /\ (forall root,
          SimpleHTTPResolver.cfg_cache_root base = Some root ->
          (if bool_decide (SimpleHTTPResolver.cfg_uri_resolvable base = Some true)
              || negb (String.eqb prefix "")
           then exists self,
                  SimpleHTTPResolver.__init__ base = Return self
                  /\ SimpleHTTPResolver.cache_root self = root
           else exists message,
                  SimpleHTTPResolver.__init__ base
                  = Raise (ResolverException 500 message))
          /\ exists self,
               TemplateHTTPResolver.__init__ config = Return self
               /\ SimpleHTTPResolver.uri_resolvable
                    (TemplateHTTPResolver.super self) = true
               /\ SimpleHTTPResolver.cache_root
                    (TemplateHTTPResolver.super self) = root
               /\ TemplateHTTPResolver.delimiter self
                  = TemplateHTTPResolver.cfg_delimiter config
               /\ forall name conf,
                    TemplateHTTPResolver.templates self !! name = Some conf
                    <-> name ∈ listed
                        /\ TemplateHTTPResolver.cfg_sections config !! name
                           = Some conf).
Proof.
  intros config base prefix listed. split.
  - intros Hnone. unfold TemplateHTTPResolver.__init__. fold base.
    unfold SimpleHTTPResolver.__init__,
      TemplateHTTPResolver.force_uri_resolvable.
    cbn [SimpleHTTPResolver.cfg_cache_root]. rewrite Hnone.
    split; by eexists.
  - intros root Hroot. split.
    + unfold SimpleHTTPResolver.__init__. cbv zeta. rewrite Hroot. fold prefix.
      destruct (SimpleHTTPResolver.cfg_uri_resolvable base) as [[]|];
        destruct (String.eqb prefix "");
        cbn [default negb andb orb bool_decide decide_rel];
        try rewrite bool_decide_eq_true_2 by done;
        try rewrite bool_decide_eq_false_2 by done;
        cbn [negb andb orb]; by eexists.
    + unfold TemplateHTTPResolver.__init__. fold base.
      unfold SimpleHTTPResolver.__init__,
        TemplateHTTPResolver.force_uri_resolvable.
      cbn [SimpleHTTPResolver.cfg_cache_root
             SimpleHTTPResolver.cfg_uri_resolvable default negb andb].
      rewrite Hroot. cbn [result_bind].
      eexists. split; [reflexivity|].
      cbn [TemplateHTTPResolver.super TemplateHTTPResolver.templates
             TemplateHTTPResolver.delimiter SimpleHTTPResolver.uri_resolvable
             SimpleHTTPResolver.cache_root].
      split; [done|]. split; [done|]. split; [done|].
      intros name conf. rewrite collect_fold. fold listed. rewrite lookup_empty.
      destruct (decide (name ∈ listed));
        destruct (TemplateHTTPResolver.cfg_sections config !! name);
        (split; [intros H; (done || by split) | by intros [Hin H]]).
Qed.

Lemma construction_fails_fast_witness :
  let sections : gmap string TemplateHTTPResolver.template :=
    {[ "site1" := TemplateHTTPResolver.Template (Some "http://example/%s")
                    None None None None None ]} in
  let base :=
    SimpleHTTPResolver.Config None None None None None None None None None None
      None (Some "/cache") in
  (exists message,
      SimpleHTTPResolver.__init__ base = Raise (ResolverException 500 message))
  /\ exists self,
       TemplateHTTPResolver.__init__
         (TemplateHTTPResolver.Config base (Some "site1 , site2") sections None)
       = Return self
       /\ TemplateHTTPResolver.templates self !! "site1" = sections !! "site1"
       /\ TemplateHTTPResolver.templates self !! "site2" = None.
Proof.
  intros sections base.
  destruct (proj2 (construction_fails_fast
                     (TemplateHTTPResolver.Config base (Some "site1 , site2")
                        sections None)) "/cache" eq_refl)
    as [Hsimple (self & Hself & _ & _ & _ & Htable)].
  split; [exact Hsimple|].
  exists self. split; [exact Hself|]. split.
  - apply Htable. split; [|reflexivity].
    vm_compute. apply list_elem_of_here.
  - destruct (TemplateHTTPResolver.templates self !! "site2") as [conf|] eqn:H;
      [|done].
    apply Htable in H as [_ H]. vm_compute in H. discriminate H.
Defined.

(** ** The postcondition of the copy strategy *)

(** X20. [SourceImageCachingResolver.resolve] raises the 404 exception
    and leaves the world as it was when the source file is missing; and
    when it succeeds it sent nothing, the path it returns is the cache
    path of the identifier and exists on the disk it leaves, beside the
    source, which is still there. *)
Theorem sicr_resolve_postcondition :
  forall (FS : Type) (Hfs : FileSystem FS) (Hlaws : FileSystemLaws FS)
         (self : SourceImageCachingResolver.t) (ident : string) (w : world FS),
    let source_fp := SourceImageCachingResolver.source_file_path self ident in
    let cache_fp := SourceImageCachingResolver.cache_file_path self ident in
    (fs_exists (disk w) source_fp = false ->
     SourceImageCachingResolver.resolve self ident w
     = (Raise (ResolverException 404
                 ("Source image not found for identifier: " +:+ ident +:+ ".")),
        w))
    /\ (forall path format w',
          SourceImageCachingResolver.resolve self ident w
          = (Return (path, format), w') ->
          path = cache_fp
          /\ fs_exists (disk w') path = true
          /\ fs_exists (disk w') source_fp = true
          /\ wire w' = wire w).
Proof.
  intros FS Hfs Hlaws self ident w source_fp cache_fp.
  unfold SourceImageCachingResolver.resolve,
    SourceImageCachingResolver.is_resolvable,
    SourceImageCachingResolver.in_cache,
    SourceImageCachingResolver.copy_to_cache,
    SourceImageCachingResolver.raise_404_for_ident.
  cbv zeta. fold source_fp cache_fp. run.
  split.
  - by intros ->.
  - intros path format w'.
    destruct (fs_exists (disk w) source_fp) eqn:Hsrc; cbn [negb];
      [|by intros [=]].
    destruct (fs_exists (disk w) cache_fp) eqn:Hhit; cbn [negb].
    + by intros [= <- <- <-].
    + destruct (fs_makedirs _ _) as [d1|] eqn:Hmk; [|by intros [=]].
      cbn [disk wire].
      destruct (fs_copy _ _ _) as [d2|] eqn:Hcp; [|by intros [=]].
      intros [= <- <- <-]. cbn [disk wire].
      split; [done|]. split; [by apply (copy_lands _ _ _ _ Hcp)|].
      split; [|done].
      by apply (copy_keeps _ _ _ _ _ Hcp), (makedirs_keeps _ _ _ _ Hmk).
Qed.

Lemma sicr_resolve_postcondition_witness :
  SourceImageCachingResolver.resolve Examples.sicr "b.jpg" Examples.world0
  = (Raise (ResolverException 404
              "Source image not found for identifier: b.jpg."),
     Examples.world0)
  /\ fs_exists (disk Examples.world_copied) "/cache/a.jpg" = true.
Proof.
  destruct (sicr_resolve_postcondition RefFS.disk RefFS.file_system
              RefFSFacts.laws Examples.sicr "b.jpg" Examples.world0)
    as [Hmissing _].
  destruct (sicr_resolve_postcondition RefFS.disk RefFS.file_system
              RefFSFacts.laws Examples.sicr "a.jpg" Examples.world_fresh)
    as [_ Hdone].
  split.
  - apply Hmissing. vm_compute; reflexivity.
  - apply (Hdone "/cache/a.jpg" "jpg" Examples.world_copied).
    apply injective_projections; [vm_compute; reflexivity | reflexivity].
Defined.
